(** * Panel inspection core: orientation, defects, measurement, fiducials

    A shallow embedding of the algorithmic parts of the repository:

    - [practice/5_pick_place_project]: the angle normalisation of
      [detect_rectangle_rotation] (tutorials/01_rotation_detection.py) and
      the 180-degree disambiguation [fix_180_ambiguity] with the test
      driver [test_angle] (tests/debug_angle.py, tests/test_negative_angles.py);
    - [aoi-system/backend/app/services/aoi_service.py]: [detect_defects],
      [measure_dimensions], [detect_fiducial_marks];
    - [aoi-system/backend/app/routes/process.py]: the three request handlers;
    - [aoi-system/backend/app/services/image_handler.py] and
      [routes/upload.py]: file-name check, saving, lookup and the upload
      route, over an explicit model of the upload folder;
    - [practice/5_pick_place_project/tutorials/01_rotation_detection.py]: the
      three rotation detectors, the gripper compensation and the robot
      command; the normalisations of tests/debug_angle.py and of
      examples/aoi_integration_example.py;
    - [practice/3_image_processing/03_aoi_applications.py]: the fiducial
      angle of the practice script.

    Conventions.  Python [int]s are [Z].  Python/NumPy floats are real
    numbers ([R]): arithmetic is exact, [np.pi] is [PI], [np.sqrt] is
    [sqrt].  Python dictionaries with a fixed key set are records, an
    optional key is an [option] field; a request body is a parsed JSON
    value ([Json.value]).  A raised exception is the [Raise] branch of
    [outcome].  OpenCV itself is an interface ([OpenCV]); only its
    pointwise operations ([absdiff], [threshold]) are written out.

    Where floats and reals part.  A Python [int] without a [float] makes
    the conversion raise ([Py.fits_double]); OpenCV takes a threshold as a
    C double and floors it to a C int ([cv2.threshold]) and takes a radius
    as a C int ([cv2.is_int]).  The loops of [calculate_gripper_rotation]
    are modelled on exact reals, where they always end; on binary64 they
    end as long as subtracting 360 changes the value, and run exactly
    below 2^53, which is the range the statements about them are made
    for. *)

From Stdlib Require Import Reals Lra Lia ZArith List Bool Ascii String.
From Stdlib Require Import Permutation Sorted.
From Equations Require Import Equations.
Import ListNotations.
Open Scope R_scope.

(* ================================================================== *)
(** * Python numerics *)
(* ================================================================== *)

Module Py.

(** Exceptions that the modelled code can raise. *)
Inductive exn : Type :=
| cv2_error            (* an OpenCV call on a [None] image or with an
                          argument its binding cannot convert *)
| ZeroDivisionError    (* float division by zero *)
| KeyError             (* [d["image_id"]] on a body without that key *)
| TypeError            (* [d["image_id"]] on a body that is not a dict *)
| AttributeError       (* [.get] on a value that is not a dict *)
| OverflowError        (* an [int] without a [float] *)
| BadRequest.          (* [request.get_json()] on a body that is not JSON *)

Inductive outcome (A : Type) : Type :=
| Ok (a : A)
| Raise (e : exn).
Arguments Ok {A} a.
Arguments Raise {A} e.

Definition bind {A B} (m : outcome A) (k : A -> outcome B) : outcome B :=
  match m with
  | Ok a => k a
  | Raise e => Raise e
  end.

(** [x % m] on floats, for a positive modulus: [x - m * floor (x / m)]. *)
Definition fmod (x m : R) : R := x - m * IZR (Int_part (x / m)).

(** [x / y] on Python floats: raises on a zero divisor. *)
Definition truediv (x y : R) : outcome R :=
  if Req_dec_T y 0 then Raise ZeroDivisionError else Ok (x / y).

(** Round to the nearest integer, ties to even ([np.around], [np.rint]). *)
Definition rint (x : R) : Z :=
  let n := Int_part x in
  let f := x - IZR n in
  if Rlt_dec f (1 / 2) then n
  else if Rlt_dec (1 / 2) f then (n + 1)%Z
  else if Z.even n then n else (n + 1)%Z.

(** [round(x, 2)]. *)
Definition round2 (x : R) : R := IZR (rint (x * 100)) / 100.

(** Truth value of a float: [0.0] is falsy. *)
Definition truthy (x : R) : bool := if Req_dec_T x 0 then false else true.

(** [np.arctan2(y, x)] and [np.degrees]. *)
Definition arctan2 (y x : R) : R :=
  if Rlt_dec 0 x then atan (y / x)
  else if Rlt_dec x 0 then
         if Rle_dec 0 y then atan (y / x) + PI else atan (y / x) - PI
  else if Rlt_dec 0 y then PI / 2
  else if Rlt_dec y 0 then - (PI / 2)
  else 0.

Definition degrees (x : R) : R := x * (180 / PI).

(** [np.uint16(z)] for an integer-valued input. *)
Definition uint16 (z : Z) : Z := (z mod 65536)%Z.

(** Whether a Python [int] converts to a [float]: the conversion rounds
    to nearest and raises [OverflowError] from [2**1024 - 2**970] on. *)
Definition fits_double (z : Z) : bool :=
  (Z.abs z <? 2 ^ 1024 - 2 ^ 970)%Z.

End Py.

Notation "x <- m ;; k" := (Py.bind m (fun x => k))
  (at level 61, m at next level, right associativity).

(* ================================================================== *)
(** * Oriented rectangles (practice/5_pick_place_project) *)
(* ================================================================== *)

Module Orientation.

(** The triple [(center, size, angle)] returned by [cv2.minAreaRect]. *)
Record RotatedRect : Type := {
  center : R * R;
  size : R * R;
  angle : R
}.

(** tutorials/01_rotation_detection.py, lines 82-90 (also "method 3" of the
    tests): the width/height adjustment and the wrap into [0, 360). *)
Definition normalize_angle (rect : RotatedRect) : R :=
  let '(width, height) := size rect in
  let angle := if Rlt_dec width height then 90 + angle rect else angle rect in
  if Rlt_dec angle 0 then angle + 360 else angle.

(** tests/debug_angle.py, [fix_180_ambiguity]: returns [(angle, error)]. *)
Definition fix_180_ambiguity (angle true_angle : R) : R * R :=
  let error := Rabs (angle - true_angle) in
  if Rlt_dec 90 error then
    let angle_flipped := Py.fmod (angle + 180) 360 in
    let error_flipped := Rabs (angle_flipped - true_angle) in
    if Rlt_dec error_flipped error then (angle_flipped, error_flipped)
    else (angle, error)
  else (angle, error).

Section TestAngle.
(** The synthetic stage of the tests: a 150x80 rectangle is drawn at
    the given angle on a 500x500 canvas and [cv2.minAreaRect] is run on
    the first contour found. *)
Variable detect : R -> RotatedRect.

(** tests/test_negative_angles.py, [test_angle]: the resolved angle and
    its error. *)
Definition resolved_angle (true_angle : R) : R * R :=
  let normalized_true := Py.fmod true_angle 360 in
  let angle := normalize_angle (detect true_angle) in
  fix_180_ambiguity angle normalized_true.

Definition test_angle (true_angle : R) : bool :=
  if Rlt_dec (snd (resolved_angle true_angle)) 1 then true else false.
End TestAngle.

(** Distance between two headings on the circle of 360 degrees. *)
Definition circular_distance (a b : R) : R :=
  let d := Py.fmod (a - b) 360 in Rmin d (360 - d).

(** Two readings name the same axis when they differ by a multiple of
    180 degrees. *)
Definition same_axis (a b : R) : Prop := exists k : Z, a = b + 180 * IZR k.

(** A reading of a rectangle with sides [long > short], each side read
    within [tol], whose long side is read along the heading [measured]:
    the raw angle lies in [-90, 90] (OpenCV reports it in [-90, 0) or in
    (0, 90], depending on the version); it is the direction of the first
    side, which is the long one or, with the sides swapped, the short
    one. *)
Definition reads_within (tol long short measured : R) (rect : RotatedRect)
    : Prop :=
  -90 <= angle rect <= 90 /\
  ((Rabs (fst (size rect) - long) <= tol /\
    Rabs (snd (size rect) - short) <= tol /\
    same_axis (angle rect) measured) \/
   (Rabs (fst (size rect) - short) <= tol /\
    Rabs (snd (size rect) - long) <= tol /\
    same_axis (angle rect + 90) measured)).

(** The region of (angle, reference) pairs on which the flip test of
    [fix_180_ambiguity], which compares plain differences, agrees with
    the distance on the circle. *)
Definition flip_sound (angle reference : R) : Prop :=
  Rabs (angle - reference) <= 90 \/
  (180 <= angle /\ 90 < angle - reference <= 270) \/
  (angle < 180 /\ 90 < reference - angle <= 270).

(** The resolution rule in the words of the specification, for comparison
    with [fix_180_ambiguity]: flip whenever the plain difference exceeds 90. *)
Definition resolve_as_specified (angle reference : R) : R :=
  if Rlt_dec 90 (Rabs (angle - reference))
  then Py.fmod (angle + 180) 360 else angle.

End Orientation.

(* ================================================================== *)
(** * OpenCV as the service uses it *)
(* ================================================================== *)

Module cv2.

(** A single-channel 8-bit image, row by row, and a BGR image. *)
Definition Mat : Type := list (list Z).
Definition Mat3 : Type := list (list (Z * Z * Z)).
Definition Point : Type := (Z * Z)%type.
Definition Contour : Type := list Point.
Definition Scalar : Type := (Z * Z * Z)%type.

(** [cv2.absdiff] on 8-bit images: the pointwise absolute difference. *)
Definition absdiff (a b : Mat) : Mat :=
  map (fun rows : list Z * list Z =>
         map (fun p : Z * Z => Z.abs (fst p - snd p))
             (combine (fst rows) (snd rows)))
      (combine a b).

(** The range of a C [int], in which OpenCV takes radii and compares
    8-bit pixels with a threshold. *)
Definition INT_MIN : Z := (- 2 ^ 31)%Z.
Definition INT_MAX : Z := (2 ^ 31 - 1)%Z.
Definition is_int (z : Z) : bool := (INT_MIN <=? z)%Z && (z <=? INT_MAX)%Z.

(** The remaining OpenCV entry points, with the argument lists of the
    calls in aoi_service.py.  [imread] answers [None] for a file it cannot
    decode; [HoughCircles] answers [None] when it finds no circle;
    [findContours] is the first component of the pair it returns; the
    drawing functions return the image they drew on.  [cvFloor] is the C
    int that OpenCV's [cvFloor] makes of a double outside the range of
    [int], where the conversion is left to the platform. *)
Class OpenCV : Type := {
  imread : string -> Z -> option Mat;
  GaussianBlur : Mat -> Z * Z -> R -> Mat;
  getStructuringElement : Z -> Z * Z -> Mat;
  morphologyEx : Mat -> Z -> Mat -> Mat;
  Canny : Mat -> R -> R -> Mat;
  findContours : Mat -> Z -> Z -> list Contour;
  contourArea : Contour -> R;
  boundingRect : Contour -> Z * Z * Z * Z;
  arcLength : Contour -> bool -> R;
  HoughCircles : Mat -> Z -> R -> R -> R -> R -> Z -> Z -> option (list (R * R * R));
  cvtColor : Mat -> Z -> Mat3;
  drawContours : Mat3 -> list Contour -> Z -> Scalar -> Z -> Mat3;
  rectangle : Mat3 -> Point -> Point -> Scalar -> Z -> Mat3;
  circle : Mat3 -> Point -> Z -> Scalar -> Z -> Mat3;
  cvFloor : Z -> Z
}.

(** [cv2.threshold(src, thresh, maxval, type)] on an 8-bit image for the
    five basic types (0 BINARY, 1 BINARY_INV, 2 TRUNC, 3 TOZERO,
    4 TOZERO_INV), for an [int] threshold that has a double: the pixels
    are compared with [ithresh = cvFloor(thresh)], which is the threshold
    itself within the range of a C [int]; returns the pair
    [(retval, dst)]. *)
Definition threshold {cv : OpenCV} (src : Mat) (thresh maxval type : Z)
    : Z * Mat :=
  let ithresh := if is_int thresh then thresh else cvFloor thresh in
  let f (p : Z) : Z :=
    match type with
    | 0%Z => if (ithresh <? p)%Z then maxval else 0%Z
    | 1%Z => if (ithresh <? p)%Z then 0%Z else maxval
    | 2%Z => if (ithresh <? p)%Z then ithresh else p
    | 3%Z => if (ithresh <? p)%Z then p else 0%Z
    | 4%Z => if (ithresh <? p)%Z then 0%Z else p
    | _ => p
    end in
  (ithresh, map (map f) src).

(** An image all of whose pixels have the value [v]; a blank mask. *)
Definition uniform (v : Z) (img : Mat) : Prop := Forall (Forall (eq v)) img.
Definition blank (img : Mat) : Prop := uniform 0%Z img.

(** Three properties of OpenCV that the defect detector relies on: a
    normalised smoothing kernel leaves a constant image unchanged, a
    morphological opening leaves a blank mask blank, and a blank mask has
    no contour. *)
Definition smoothing_keeps_constants (cv : OpenCV) : Prop :=
  forall img v ksize sigma, uniform v img -> GaussianBlur img ksize sigma = img.
Definition opening_keeps_blank (cv : OpenCV) : Prop :=
  forall img kernel, blank img -> morphologyEx img 2%Z kernel = img.
Definition blank_has_no_contour (cv : OpenCV) : Prop :=
  forall img mode method, blank img -> findContours img mode method = [].

End cv2.

(* ================================================================== *)
(** * aoi_service.py *)
(* ================================================================== *)

(** The dictionaries built by the service, one record per key set. *)
Module Position.
Record t : Type := { x : Z; y : Z }.
End Position.

Module BBox.
Record t : Type := { x : Z; y : Z; width : Z; height : Z }.
End BBox.

Module Defect.
Record t : Type := {
  id : Z;
  position : Position.t;
  area : R;
  bbox : BBox.t
}.
End Defect.

Module DefectResult.
Record t : Type := {
  defects : list Defect.t;
  defect_count : Z;
  annotated_image : cv2.Mat3
}.
End DefectResult.

Module Measurement.
Record t : Type := {
  object_id : Z;
  shape : string;
  width_mm : R;
  height_mm : R;
  area_mm2 : R;
  bbox : BBox.t;
  diameter_mm : option R          (* the key is present for circles only *)
}.
End Measurement.

Module MeasureResult.
Record t : Type := {
  measurements : list Measurement.t;
  annotated_image : cv2.Mat3
}.
End MeasureResult.

Module Mark.
Record t : Type := { id : Z; position : Position.t; radius : Z }.
End Mark.

Module FiducialResult.
Record t : Type := {
  marks : list Mark.t;
  rotation_angle : option R;
  annotated_image : cv2.Mat3
}.
End FiducialResult.

Module AOIService.
Import cv2 Py.

Section Service.
Context {cv : OpenCV}.

(** ** detect_defects *)

(** The [for c in cnt] loop; [res] and [defs] are the image and the list
    the loop updates. *)
Fixpoint detect_defects_loop (cnt : list Contour) (res : Mat3)
    (defs : list Defect.t) : Mat3 * list Defect.t :=
  match cnt with
  | [] => (res, defs)
  | c :: cnt' =>
      let a := contourArea c in
      if Rlt_dec a 50 then detect_defects_loop cnt' res defs
      else
        let '(x, y, w, h) := boundingRect c in
        let res := drawContours res [c] (-1)%Z (0, 0, 255)%Z 2%Z in
        let res := rectangle res (x, y) (x + w, y + h)%Z (0, 255, 0)%Z 2%Z in
        detect_defects_loop cnt' res
          (defs ++ [ {| Defect.id := (Z.of_nat (List.length defs) + 1)%Z;
                        Defect.position :=
                          {| Position.x := (x + w / 2)%Z;
                             Position.y := (y + h / 2)%Z |};
                        Defect.area := a;
                        Defect.bbox :=
                          {| BBox.x := x; BBox.y := y;
                             BBox.width := w; BBox.height := h |} |} ])
  end.

(** [cv2.GaussianBlur] raises on the [None] that [imread] answers for an
    unreadable file; [cv2.threshold] raises on an [int] threshold that has
    no double. *)
Definition detect_defects (path : string) (t_path : option string)
    (threshold : Z) : outcome DefectResult.t :=
  match imread path 0%Z with
  | None => Raise cv2_error
  | Some img =>
      let tmp := GaussianBlur img (15, 15)%Z 5 in
      let diff := absdiff tmp img in
      if fits_double threshold then
        let '(_, th) := cv2.threshold diff threshold 255%Z 0%Z in
        let k := getStructuringElement 2%Z (5, 5)%Z in
        let cl := morphologyEx th 2%Z k in
        let cnt := findContours cl 1%Z 2%Z in
        let res := cvtColor img 8%Z in
        let '(res, defs) := detect_defects_loop cnt res [] in
        Ok {| DefectResult.defects := defs;
              DefectResult.defect_count := Z.of_nat (List.length defs);
              DefectResult.annotated_image := res |}
      else Raise cv2_error
  end.

(** ** measure_dimensions *)

(** [4*np.pi*a/(p*p) if p>0 else 0]. *)
Definition circularity (a p : R) : outcome R :=
  if Rlt_dec 0 p then truediv (4 * PI * a) (p * p) else Ok 0.

(** The dictionary [m] of one contour: [i] is the index given by
    [enumerate], [a] the contour area, [(x, y, w, h)] the bounding
    rectangle, [circ] the circularity. *)
Definition measurement (i : nat) (a : R) (x y w h : Z) (circ pmm : R)
    : Measurement.t :=
  {| Measurement.object_id := (Z.of_nat i + 1)%Z;
     Measurement.shape :=
       if Rlt_dec (8 / 10) circ then "circle"%string else "rectangle"%string;
     Measurement.width_mm := round2 (IZR w * pmm);
     Measurement.height_mm := round2 (IZR h * pmm);
     Measurement.area_mm2 := round2 (a * pmm * pmm);
     Measurement.bbox :=
       {| BBox.x := x; BBox.y := y; BBox.width := w; BBox.height := h |};
     Measurement.diameter_mm :=
       if Rlt_dec (8 / 10) circ
       then Some (round2 (2 * sqrt (a / PI) * pmm)) else None |}.

(** The [for i,c in enumerate(cnt)] loop, entered at index [i]. *)
Fixpoint measure_dimensions_loop (pmm : R) (i : nat) (cnt : list Contour)
    (res : Mat3) (ms : list Measurement.t)
    : outcome (Mat3 * list Measurement.t) :=
  match cnt with
  | [] => Ok (res, ms)
  | c :: cnt' =>
      let a := contourArea c in
      if Rlt_dec a 100 then measure_dimensions_loop pmm (S i) cnt' res ms
      else
        let '(x, y, w, h) := boundingRect c in
        let res := rectangle res (x, y) (x + w, y + h)%Z (0, 255, 0)%Z 2%Z in
        let p := arcLength c true in
        circ <- circularity a p ;;
        measure_dimensions_loop pmm (S i) cnt' res
          (ms ++ [measurement i a x y w h circ pmm])
  end.

(** For the statements below: the circularity of a contour as a plain
    number, and the dictionaries that the loop entered at index [i]
    appends for the contours [cnt]. *)
Definition circularity_of (c : Contour) : R :=
  match circularity (contourArea c) (arcLength c true) with
  | Ok circ => circ
  | Raise _ => 0
  end.

Definition measurement_of (pmm : R) (i : nat) (c : Contour)
    : Measurement.t :=
  let '(x, y, w, h) := boundingRect c in
  measurement i (contourArea c) x y w h (circularity_of c) pmm.

Fixpoint measured (pmm : R) (i : nat) (cnt : list Contour)
    : list Measurement.t :=
  match cnt with
  | [] => []
  | c :: cnt' =>
      if Rlt_dec (contourArea c) 100 then measured pmm (S i) cnt'
      else measurement_of pmm i c :: measured pmm (S i) cnt'
  end.

Definition measure_dimensions (path : string) (pmm : R)
    : outcome MeasureResult.t :=
  match imread path 0%Z with
  | None => Raise cv2_error
  | Some img =>
      let e := Canny img 50 150 in
      let cnt := findContours e 1%Z 2%Z in
      let res := cvtColor img 8%Z in
      r <- measure_dimensions_loop pmm 0 cnt res [] ;;
      Ok {| MeasureResult.measurements := snd r;
            MeasureResult.annotated_image := fst r |}
  end.

(** ** detect_fiducial_marks *)

(** [np.uint16(np.around(c))[0]]. *)
Definition uint16_around (c : list (R * R * R)) : list (Z * Z * Z) :=
  map (fun t : R * R * R =>
         let '(cx, cy, r) := t in
         (uint16 (rint cx), uint16 (rint cy), uint16 (rint r))) c.

(** The [for i,(cx,cy,r) in enumerate(...)] loop, entered at index [i]. *)
Fixpoint detect_fiducial_marks_loop (i : nat) (cs : list (Z * Z * Z))
    (res : Mat3) (ms : list Mark.t) : Mat3 * list Mark.t :=
  match cs with
  | [] => (res, ms)
  | (cx, cy, r) :: cs' =>
      let res := circle res (cx, cy) r (0, 255, 0)%Z 2%Z in
      detect_fiducial_marks_loop (S i) cs' res
        (ms ++ [ {| Mark.id := (Z.of_nat i + 1)%Z;
                    Mark.position := {| Position.x := cx; Position.y := cy |};
                    Mark.radius := r |} ])
  end.

(** [ang] after the [if len(ms)>=2] statement ([None] when it is not
    entered). *)
Definition angle_of_marks (ms : list Mark.t) : option R :=
  match ms with
  | m1 :: m2 :: _ =>
      let p1 := Mark.position m1 in
      let p2 := Mark.position m2 in
      Some (degrees (arctan2 (IZR (Position.y p2 - Position.y p1))
                             (IZR (Position.x p2 - Position.x p1))))
  | _ => None
  end.

(** [round(ang,2) if ang else None]. *)
Definition rounded_if_truthy (ang : option R) : option R :=
  match ang with
  | Some a => if truthy a then Some (round2 a) else None
  | None => None
  end.

(** [cv2.HoughCircles] raises on a radius that is not a C [int]. *)
Definition detect_fiducial_marks (path : string) (minr maxr : Z)
    : outcome FiducialResult.t :=
  match imread path 0%Z with
  | None => Raise cv2_error
  | Some img =>
      let b := GaussianBlur img (5, 5)%Z (15 / 10) in
      if is_int minr && is_int maxr then
        let c := HoughCircles b 3%Z 1 100 100 30 minr maxr in
        let res := cvtColor img 8%Z in
        let '(res, ms, ang) :=
          match c with
          | Some circles =>
              let '(res, ms) :=
                detect_fiducial_marks_loop 0 (uint16_around circles) res [] in
              (res, ms, angle_of_marks ms)
          | None => (res, [], None)
          end in
        Ok {| FiducialResult.marks := ms;
              FiducialResult.rotation_angle := rounded_if_truthy ang;
              FiducialResult.annotated_image := res |}
      else Raise cv2_error
  end.

End Service.
End AOIService.

(* ================================================================== *)
(** * routes/process.py *)
(* ================================================================== *)

(** A parsed JSON value, as [request.get_json()] returns it: [None], a
    [bool], an [int], a finite [float], one of the floats [nan], [inf] and
    [-inf] that [json.loads] also accepts (named by their token), a [str],
    a [list] or a [dict], whose members are looked up by key. *)
Module Json.
Import Py.

#[warnings="-register-all"]
Inductive value : Type :=
| null
| boolean (b : bool)
| integer (z : Z)
| number (x : R)
| nonfinite (token : string)
| text (s : string)
| array (items : list value)
| object (members : list (string * value)).

Fixpoint lookup (key : string) (members : list (string * value))
    : option value :=
  match members with
  | [] => None
  | (k, v) :: rest => if String.eqb k key then Some v else lookup key rest
  end.

(** [d[key]]. *)
Definition getitem (d : value) (key : string) : outcome value :=
  match d with
  | object members =>
      match lookup key members with
      | Some v => Ok v
      | None => Raise KeyError
      end
  | _ => Raise TypeError
  end.

(** [d.get(key, default)]. *)
Definition get (d : value) (key : string) (default : value)
    : outcome value :=
  match d with
  | object members =>
      match lookup key members with
      | Some v => Ok v
      | None => Ok default
      end
  | _ => Raise AttributeError
  end.

End Json.

Module Routes.
Import cv2 Py Json.

(** The JSON answers of the handler with their HTTP status. *)
Inductive response : Type :=
| success (status : Z) (defects : list Defect.t) (defect_count : Z)
          (annotated_image : string)
| failure (status : Z) (code : string) (cause : option exn).

Section Handlers.
Context {cv : OpenCV}.
(** [ImageHandler.get_image_path(id, folder)] for the configured upload
    folder and the value [id] of the body, and
    [ImageHandler.image_to_base64]. *)
Variable get_image_path : value -> option string.
Variable image_to_base64 : Mat3 -> string.
(** [AOIService.detect_defects(p, None, v)] for a threshold [v] that is
    not an [int]: what OpenCV's binding makes of it is left open. *)
Variable detect_defects_other : string -> value -> outcome DefectResult.t.

(** [AOIService.detect_defects(p, None, v)] for the threshold of the
    body. *)
Definition detect_defects_with (p : string) (v : value)
    : outcome DefectResult.t :=
  match v with
  | integer threshold => AOIService.detect_defects p None threshold
  | _ => detect_defects_other p v
  end.

(** [body] is the outcome of [request.get_json()]; the [try] block runs
    in [outcome], the [except] clause answers 500. *)
Definition defect_detection (body : outcome value) : response :=
  let attempt : outcome response :=
    d <- body ;;
    id <- getitem d "image_id" ;;
    match get_image_path id with
    | None => Ok (failure 404 "NOT_FOUND" None)
    | Some p =>
        threshold <- get d "threshold" (integer 30) ;;
        r <- detect_defects_with p threshold ;;
        Ok (success 200 (DefectResult.defects r)
                    (DefectResult.defect_count r)
                    (image_to_base64 (DefectResult.annotated_image r)))
    end in
  match attempt with
  | Ok answer => answer
  | Raise e => failure 500 "ERROR" (Some e)
  end.
End Handlers.
End Routes.

(* ================================================================== *)
(** * A small executable backend *)
(* ================================================================== *)

(** [Bench.backend] implements the [OpenCV] interface on lists so that the
    service can be run on concrete data: smoothing, opening and edge
    detection are one-dimensional (along rows), the geometric measures are
    the usual polygon formulas, the contour and circle detectors answer
    with the contours and circles they are given, drawing leaves the
    image as it is, and a double beyond the range of [int] floors to
    [INT_MIN], as it does on x86-64. *)
Module Bench.
Import cv2.

(** Binomial smoothing (1 2 1)/4 with replicated edges. *)
Fixpoint smooth_row (prev : Z) (row : list Z) : list Z :=
  match row with
  | [] => []
  | a :: rest => ((prev + 2 * a + hd a rest + 2) / 4)%Z :: smooth_row a rest
  end.

Definition smooth (img : Mat) : Mat :=
  map (fun row => smooth_row (hd 0%Z row) row) img.

(** Erosion and dilation by a flat element three pixels wide. *)
Fixpoint erode_row (prev : Z) (row : list Z) : list Z :=
  match row with
  | [] => []
  | a :: rest => Z.min prev (Z.min a (hd a rest)) :: erode_row a rest
  end.

Fixpoint dilate_row (prev : Z) (row : list Z) : list Z :=
  match row with
  | [] => []
  | a :: rest => Z.max prev (Z.max a (hd a rest)) :: dilate_row a rest
  end.

Definition opening (img : Mat) : Mat :=
  map (fun row =>
         let e := erode_row (hd 0%Z row) row in
         dilate_row (hd 0%Z e) e) img.

(** An edge wherever a pixel differs from its right neighbour. *)
Fixpoint edges_row (row : list Z) : list Z :=
  match row with
  | [] => []
  | a :: rest => (if (a =? hd a rest)%Z then 0 else 255)%Z :: edges_row rest
  end.

Definition is_blank (img : Mat) : bool := forallb (forallb (Z.eqb 0)) img.

(** Polygon area (shoelace formula), bounding box and length. *)
Definition cross (p q : Point) : Z := (fst p * snd q - fst q * snd p)%Z.

Fixpoint shoelace (first : Point) (c : Contour) : Z :=
  match c with
  | [] => 0%Z
  | p :: rest => (cross p (hd first rest) + shoelace first rest)%Z
  end.

Definition polygon_area (c : Contour) : R :=
  Rabs (IZR (shoelace (hd (0, 0)%Z c) c)) / 2.

Definition bounding_box (c : Contour) : Z * Z * Z * Z :=
  match c with
  | [] => (0, 0, 0, 0)%Z
  | (x0, y0) :: rest =>
      let xmin := fold_left Z.min (map fst rest) x0 in
      let xmax := fold_left Z.max (map fst rest) x0 in
      let ymin := fold_left Z.min (map snd rest) y0 in
      let ymax := fold_left Z.max (map snd rest) y0 in
      (xmin, ymin, xmax - xmin + 1, ymax - ymin + 1)%Z
  end.

Definition dist (p q : Point) : R :=
  sqrt (IZR ((fst p - fst q) * (fst p - fst q)
             + (snd p - snd q) * (snd p - snd q))).

Fixpoint path_length (closed : bool) (first : Point) (c : Contour) : R :=
  match c with
  | [] => 0
  | p :: rest =>
      match rest with
      | [] => if closed then dist p first else 0
      | q :: _ => dist p q + path_length closed first rest
      end
  end.

Definition backend (file : string) (img : Mat) (contours : list Contour)
    (circles : option (list (R * R * R))) : OpenCV :=
  {| imread := fun path _ => if String.eqb path file then Some img else None;
     GaussianBlur := fun m _ _ => smooth m;
     getStructuringElement := fun _ _ => [[1; 1; 1]]%Z;
     morphologyEx := fun m _ _ => opening m;
     Canny := fun m _ _ => map edges_row m;
     findContours := fun m _ _ => if is_blank m then [] else contours;
     contourArea := polygon_area;
     boundingRect := bounding_box;
     arcLength := fun c closed => path_length closed (hd (0, 0)%Z c) c;
     HoughCircles := fun _ _ _ _ _ _ _ _ => circles;
     cvtColor := fun m _ => map (map (fun p => (p, p, p))) m;
     drawContours := fun res _ _ _ _ => res;
     rectangle := fun res _ _ _ _ => res;
     circle := fun res _ _ _ _ => res;
     cvFloor := fun _ => INT_MIN |}.

(** Data for the concrete runs: a flat 12x12 panel, a panel with one bright
    stripe, square contours ([square 11] is the outline of a 12x12
    mask that is set everywhere) and an octagon. *)
Definition flat_panel : Mat := repeat (repeat 128%Z 12) 12.
Definition striped_panel : Mat := repeat [0; 0; 200; 200]%Z 4.
Definition square (n : Z) : Contour := [(0, 0); (0, n); (n, n); (n, 0)]%Z.

End Bench.

(* ================================================================== *)
(** * Python built-ins of the pick-and-place scripts *)
(* ================================================================== *)

Module Builtins.

(** [int(x)] on a float, and [np.int32] on a float array entry: truncation
    towards zero. *)
Definition int (x : R) : Z :=
  if Rle_dec 0 x then Int_part x else (- Int_part (- x))%Z.

(** [max(best :: l, key=key)]: the running maximum is replaced only by an
    element whose key is strictly greater. *)
Fixpoint max_key {A : Type} (key : A -> R) (best : A) (l : list A) : A :=
  match l with
  | [] => best
  | a :: l' =>
      if Rlt_dec (key best) (key a) then max_key key a l'
      else max_key key best l'
  end.

(** [sorted(l, key=key, reverse=True)]: keys in descending order, elements
    with equal keys in their original order. *)
Fixpoint insert_reverse {A : Type} (key : A -> R) (a : A) (l : list A)
    : list A :=
  match l with
  | [] => [a]
  | b :: l' =>
      if Rlt_dec (key a) (key b) then b :: insert_reverse key a l'
      else a :: l
  end.

Fixpoint sorted_reverse {A : Type} (key : A -> R) (l : list A) : list A :=
  match l with
  | [] => []
  | a :: l' => insert_reverse key a (sorted_reverse key l')
  end.

(** [if angle < 0: angle += 360]. *)
Definition wrap_negative (angle : R) : R :=
  if Rlt_dec angle 0 then angle + 360 else angle.

End Builtins.

(* ================================================================== *)
(** * tutorials/01_rotation_detection.py *)
(* ================================================================== *)

(** The dictionaries built by [generate_robot_command]. *)
Module RobotPosition.
Record t : Type := { x : R; y : R; z : R }.
End RobotPosition.

Module RobotCommand.
Record t : Type := {
  position : RobotPosition.t;
  rotation : R;
  action : string;
  object_angle : R
}.
End RobotCommand.

(** The entries of [cv2.moments] that the scripts read. *)
Module Moments.
Record t : Type := { m00 : R; m10 : R; m01 : R }.
End Moments.

Module Rotation.
Import cv2 Py Orientation Builtins.

(** ** calculate_gripper_rotation *)

(** The two loops are written on exact reals, where each subtraction or
    addition of 360 moves the angle and the loops end.  A binary64 run
    agrees with them as long as the angle is below [binary64_exact], 2^53,
    in magnitude: every intermediate value is then a binary64 number, so
    no step rounds.  Above 2^62 a binary64 subtraction of 360 returns the
    angle itself and the source loop does not end; the statements about
    the loops are made for angles below [binary64_exact]. *)
Definition binary64_exact : R := 9007199254740992.

(** [while compensation_angle > 180: compensation_angle -= 360]. *)
Equations while_above (c : R) : R by wf (Z.to_nat (up ((c - 180) / 360))) lt :=
while_above c with Rlt_dec 180 c := {
  | left _ => while_above (c - 360)
  | right _ => c }.
Next Obligation.
  assert (Hup : up ((c - 360 - 180) / 360) = (up ((c - 180) / 360) - 1)%Z).
  { symmetry. apply tech_up; rewrite minus_IZR;
      destruct (archimed ((c - 180) / 360)) as [H1 H2]; lra. }
  rewrite Hup.
  assert (0 < up ((c - 180) / 360))%Z.
  { apply lt_IZR. destruct (archimed ((c - 180) / 360)) as [H1 H2].
    assert (0 < (c - 180) / 360) by (apply Rdiv_lt_0_compat; lra). lra. }
  lia.
Qed.

(** [while compensation_angle < -180: compensation_angle += 360]. *)
Equations while_below (c : R) : R by wf (Z.to_nat (up ((-180 - c) / 360))) lt :=
while_below c with Rlt_dec c (-180) := {
  | left _ => while_below (c + 360)
  | right _ => c }.
Next Obligation.
  assert (Hup : up ((-180 - (c + 360)) / 360) = (up ((-180 - c) / 360) - 1)%Z).
  { symmetry. apply tech_up; rewrite minus_IZR;
      destruct (archimed ((-180 - c) / 360)) as [H1 H2]; lra. }
  rewrite Hup.
  assert (0 < up ((-180 - c) / 360))%Z.
  { apply lt_IZR. destruct (archimed ((-180 - c) / 360)) as [H1 H2].
    assert (0 < (-180 - c) / 360) by (apply Rdiv_lt_0_compat; lra). lra. }
  lia.
Qed.

Definition calculate_gripper_rotation (detected_angle reference_angle : R)
    : R :=
  let compensation_angle := detected_angle - reference_angle in
  let compensation_angle := while_above compensation_angle in
  while_below compensation_angle.

(** ** generate_robot_command *)

Definition PIXEL_TO_MM : R := 1 / 10.

Definition generate_robot_command (center : R * R)
    (angle gripper_rotation : R) : RobotCommand.t :=
  let robot_x := (fst center - 250) * PIXEL_TO_MM in
  let robot_y := (250 - snd center) * PIXEL_TO_MM in
  {| RobotCommand.position :=
       {| RobotPosition.x := robot_x; RobotPosition.y := robot_y;
          RobotPosition.z := 0 |};
     RobotCommand.rotation := gripper_rotation;
     RobotCommand.action := "pick";
     RobotCommand.object_angle := angle |}.

Section Detectors.
Context {cv : OpenCV}.
(** [cv2.minAreaRect], [cv2.boxPoints], [cv2.moments] and the first
    eigenvector returned by [cv2.PCACompute] on the points of a contour. *)
Variable minAreaRect : Contour -> RotatedRect.
Variable boxPoints : RotatedRect -> list (R * R).
Variable moments : Contour -> Moments.t.
Variable PCACompute : Contour -> R * R.

(** ** detect_rectangle_rotation

    [findContours] is called with [RETR_EXTERNAL] (0) and
    [CHAIN_APPROX_SIMPLE] (2); the result is [(angle, center, box)], or
    [None] for the triple [(None, None, None)]. *)
Definition detect_rectangle_rotation (img : Mat)
    : option (R * (R * R) * list (Z * Z)) :=
  match findContours img 0%Z 2%Z with
  | [] => None
  | c :: contours =>
      let largest_contour := max_key contourArea c contours in
      let rect := minAreaRect largest_contour in
      let angle := normalize_angle rect in
      let box := map (fun p : R * R => (int (fst p), int (snd p)))
                     (boxPoints rect) in
      Some (angle, center rect, box)
  end.

(** [(int(M["m10"] / M["m00"]), int(M["m01"] / M["m00"]))]. *)
Definition centroid (M : Moments.t) : outcome (Z * Z) :=
  cx <- truediv (Moments.m10 M) (Moments.m00 M) ;;
  cy <- truediv (Moments.m01 M) (Moments.m00 M) ;;
  Ok (int cx, int cy).

(** ** detect_complex_shape_rotation

    The result is [(angle, center, (p1, p2))]. *)
Definition detect_complex_shape_rotation (img : Mat)
    : outcome (option (R * (Z * Z) * ((Z * Z) * (Z * Z)))) :=
  match findContours img 0%Z 2%Z with
  | [] => Ok None
  | c :: contours =>
      let largest_contour := max_key contourArea c contours in
      let M := moments largest_contour in
      if Req_dec_T (Moments.m00 M) 0 then Ok None
      else
        center <- centroid M ;;
        let '(cx, cy) := center in
        let main_direction := PCACompute largest_contour in
        let angle :=
          degrees (arctan2 (snd main_direction) (fst main_direction)) in
        let angle := wrap_negative angle in
        let length := 100 in
        let p1 := (int (IZR cx + length * fst main_direction),
                   int (IZR cy + length * snd main_direction)) in
        let p2 := (int (IZR cx - length * fst main_direction),
                   int (IZR cy - length * snd main_direction)) in
        Ok (Some (angle, (cx, cy), (p1, p2)))
  end.

(** ** detect_rotation_with_markers

    The result is [(angle, body_center, marker_center)].  The defaults of
    [nth] stand for an [IndexError] that cannot occur: the list has at
    least two elements and sorting keeps its length. *)
Definition detect_rotation_with_markers (img : Mat)
    : outcome (option (R * (Z * Z) * (Z * Z))) :=
  match findContours img 0%Z 2%Z with
  | [] | [_] => Ok None
  | c1 :: c2 :: rest =>
      let contours := sorted_reverse contourArea (c1 :: c2 :: rest) in
      let main_body := nth 0 contours c1 in
      body <- centroid (moments main_body) ;;
      let marker := nth 1 contours c2 in
      mark <- centroid (moments marker) ;;
      let direction_vector :=
        ((fst mark - fst body)%Z, (snd mark - snd body)%Z) in
      let angle :=
        degrees (arctan2 (IZR (snd direction_vector))
                         (IZR (fst direction_vector))) in
      let angle := wrap_negative angle in
      Ok (Some (angle, body, mark))
  end.

(** ** demo_rotation_detection, the robot command of its last part *)
Definition demo_robot_command (test_img : Mat) : option RobotCommand.t :=
  match detect_rectangle_rotation test_img with
  | Some (angle, center, box) =>
      let gripper_rotation := calculate_gripper_rotation angle 0 in
      Some (generate_robot_command center angle gripper_rotation)
  | None => None
  end.

End Detectors.
End Rotation.

(* ================================================================== *)
(** * tests/debug_angle.py: the normalisations it compares *)
(* ================================================================== *)

Module DebugAngle.
Import Py Orientation.

(** Method 1 (lines 40-44). *)
Definition normalized_angle1 (rect : RotatedRect) : R :=
  let '(width, height) := size rect in
  if Rlt_dec width height then 90 + angle rect
  else fmod (angle rect) 360.

(** Method 2 (lines 48-55). *)
Definition normalized_angle2 (rect : RotatedRect) : R :=
  let '(width, height) := size rect in
  let normalized_angle2 :=
    if Rlt_dec (angle rect) 0 then angle rect + 360 else angle rect in
  if Rlt_dec width height then fmod (normalized_angle2 + 90) 360
  else normalized_angle2.

(** Method 3 (lines 58-66) is [normalize_angle]. *)
Definition angle_from_points (rect : RotatedRect) : R := normalize_angle rect.

End DebugAngle.

(* ================================================================== *)
(** * examples/aoi_integration_example.py *)
(* ================================================================== *)

Module Integration.
Import cv2 Orientation Builtins.

(** [RotationDetector._detect_with_min_area_rect], given the rectangle that
    [cv2.minAreaRect] returned for the contour. *)
Definition _detect_with_min_area_rect (rect : RotatedRect) : R * (Z * Z) :=
  let angle :=
    if Rlt_dec (fst (size rect)) (snd (size rect)) then angle rect + 90
    else angle rect in
  (angle, (int (fst (center rect)), int (snd (center rect)))).

End Integration.

(* ================================================================== *)
(** * practice/3_image_processing/03_aoi_applications.py *)
(* ================================================================== *)

Module Applications.
Import cv2 Py.

(** [fiducial_detection], lines 299-312: the list [detected_marks] of the
    pairs [(cx, cy)], whose entries are [np.uint16] scalars. *)
Definition detected_marks (circles : list (R * R * R)) : list (Z * Z) :=
  map (fun c : Z * Z * Z => let '(cx, cy, r) := c in (cx, cy))
      (AOIService.uint16_around circles).

(** [fiducial_detection], lines 316-319: the differences are taken between
    [np.uint16] scalars and wrap around. *)
Definition fiducial_angle (detected_marks : list (Z * Z)) : option R :=
  match detected_marks with
  | p1 :: p2 :: _ =>
      Some (degrees (arctan2 (IZR (uint16 (snd p2 - snd p1)))
                             (IZR (uint16 (fst p2 - fst p1)))))
  | _ => None
  end.

End Applications.

(* ================================================================== *)
(** * services/image_handler.py and routes/upload.py *)
(* ================================================================== *)

(** The uploaded file ([werkzeug]'s [FileStorage]) and the dictionary
    [info] returned by [save_uploaded_image]. *)
Module FileStorage.
Record t : Type := { filename : string; content : string }.
End FileStorage.

Module ImageInfo.
Record t : Type := {
  image_id : string;
  filename : string;
  path : string;
  width : Z;
  height : Z;
  channels : Z
}.
End ImageInfo.

(** The upload folder as the handler sees it: the stored files, by path. *)
Module os.

Definition files : Type := list (string * string).

Definition path_exists (fs : files) (p : string) : bool :=
  existsb (fun f => String.eqb (fst f) p) fs.

Definition read (fs : files) (p : string) : option string :=
  match find (fun f => String.eqb (fst f) p) fs with
  | Some f => Some (snd f)
  | None => None
  end.

Definition remove (fs : files) (p : string) : files :=
  filter (fun f => negb (String.eqb (fst f) p)) fs.

(** [file.save(p)]: creates or replaces the file at [p]. *)
Definition write (fs : files) (p data : string) : files :=
  (p, data) :: remove fs p.

End os.

Module ImageHandler.
Import os.

Definition ALLOWED_EXTENSIONS : list string :=
  ["png"; "jpg"; "jpeg"; "bmp"; "tiff"]%string.

(** [s.lower()] on the bytes of the name: characters outside A-Z are left
    as they are.  No character outside ASCII has a lower-case form that
    spells one of the five extensions, so the membership test below is not
    affected. *)
Definition lower_ascii (c : ascii) : ascii :=
  let n := nat_of_ascii c in
  if ((65 <=? n) && (n <=? 90))%nat then ascii_of_nat (n + 32) else c.

Fixpoint lower (s : string) : string :=
  match s with
  | EmptyString => EmptyString
  | String c s' => String (lower_ascii c) (lower s')
  end.

(** ["." in f]. *)
Fixpoint contains_dot (f : string) : bool :=
  match f with
  | EmptyString => false
  | String c f' => Ascii.eqb c "." || contains_dot f'
  end.

(** [f.rsplit(".", 1)]: the list [[f]] when [f] has no dot, otherwise the
    two parts around its last dot. *)
Fixpoint rsplit (f : string) : list string :=
  match f with
  | EmptyString => [EmptyString]
  | String c f' =>
      match rsplit f' with
      | [stem; ext] => [String c stem; ext]
      | _ => if Ascii.eqb c "." then [EmptyString; f'] else [f]
      end
  end.

(** The second conjunct is evaluated only when the first holds, so that
    the index 1 exists. *)
Definition allowed_file (f : string) : bool :=
  contains_dot f &&
  match nth_error (rsplit f) 1 with
  | Some ext => existsb (String.eqb (lower ext)) ALLOWED_EXTENSIONS
  | None => false
  end.

Inductive exn : Type := ValueError (msg : string).

Section Handler.
(** [os.path.join]; the shape [(h, w)] or [(h, w, c)] of the image that
    [cv2.imread] decodes from a file's content, if any;
    [werkzeug.utils.secure_filename]; and the order in which the running
    interpreter iterates over the set [ALLOWED_EXTENSIONS]. *)
Variable join : string -> string -> string.
Variable imdecode : string -> option (Z * Z * option Z).
Variable secure_filename : string -> string.
Variable iteration : list string.

Definition imread (fs : files) (path : string) : option (Z * Z * option Z) :=
  match read fs path with
  | Some data => imdecode data
  | None => None
  end.

(** [id] is the string [str(uuid.uuid4())] drawn by the call; the result
    is the upload folder afterwards with either the triple
    [(id, path, info)] or the exception raised. *)
Definition save_uploaded_image (file : FileStorage.t) (folder id : string)
    (fs : files) : files * (string * string * ImageInfo.t + exn) :=
  if negb (allowed_file (FileStorage.filename file))
  then (fs, inr (ValueError "Bad type"))
  else
    let ext := lower (nth 1 (rsplit (FileStorage.filename file)) EmptyString) in
    let path := join folder (id ++ "." ++ ext)%string in
    let fs := write fs path (FileStorage.content file) in
    match imread fs path with
    | None => (remove fs path, inr (ValueError "Bad image"))
    | Some (h, w, c) =>
        (fs, inl (id, path,
                  {| ImageInfo.image_id := id;
                     ImageInfo.filename :=
                       secure_filename (FileStorage.filename file);
                     ImageInfo.path := path;
                     ImageInfo.width := w;
                     ImageInfo.height := h;
                     ImageInfo.channels :=
                       match c with Some _ => 3%Z | None => 1%Z end |}))
    end.

(** The [for e in ALLOWED_EXTENSIONS] loop over the extensions [exts]
    still to be tried. *)
Fixpoint get_image_path_loop (fs : files) (id folder : string)
    (exts : list string) : option string :=
  match exts with
  | [] => None
  | e :: exts' =>
      let p := join folder (id ++ "." ++ e)%string in
      if path_exists fs p then Some p
      else get_image_path_loop fs id folder exts'
  end.

Definition get_image_path (fs : files) (id folder : string) : option string :=
  get_image_path_loop fs id folder iteration.

End Handler.
End ImageHandler.

Module Upload.
Import os ImageHandler.

(** The JSON answers of the upload route with their HTTP status. *)
Inductive response : Type :=
| success (status : Z) (image_id filename : string) (width height : Z)
| failure (status : Z) (code message : string).

Section Route.
Variable join : string -> string -> string.
Variable imdecode : string -> option (Z * Z * option Z).
Variable secure_filename : string -> string.
(** [current_app.config["UPLOAD_FOLDER"]]. *)
Variable UPLOAD_FOLDER : string.

(** [image] is [request.files.get("image")]; [id] the identifier drawn by
    [save_uploaded_image] when it comes to that. *)
Definition upload_image (image : option FileStorage.t) (id : string)
    (fs : files) : files * response :=
  match image with
  | None => (fs, failure 400 "NO_FILE" "No file")
  | Some file =>
      if String.eqb (FileStorage.filename file) EmptyString
      then (fs, failure 400 "NO_FILE" "No file")
      else
        match save_uploaded_image join imdecode secure_filename
                file UPLOAD_FOLDER id fs with
        | (fs', inl (_, _, info)) =>
            (fs', success 200 (ImageInfo.image_id info)
                    (ImageInfo.filename info)
                    (ImageInfo.width info) (ImageInfo.height info))
        | (fs', inr (ValueError msg)) => (fs', failure 500 "ERROR" msg)
        end
  end.
End Route.
End Upload.

(* ================================================================== *)
(** * routes/process.py: measurement and fiducial detection *)
(* ================================================================== *)

Module ProcessRoutes.
Import cv2 Py Json.

(** The JSON answers with their HTTP status; [payload] stands for the keys
    of the service result that the handler copies. *)
Inductive response (A : Type) : Type :=
| success (status : Z) (payload : A) (annotated_image : string)
| failure (status : Z) (code : string) (cause : option exn).
Arguments success {A} status payload annotated_image.
Arguments failure {A} status code cause.

Section Handlers.
Context {cv : OpenCV}.
Variable get_image_path : value -> option string.
Variable image_to_base64 : Mat3 -> string.
(** The services called with a scale that is not a number with a [float],
    or with a radius that is not an [int]: what Python and OpenCV's
    binding make of it is left open. *)
Variable measure_dimensions_other
  : string -> value -> outcome MeasureResult.t.
Variable detect_fiducial_marks_other
  : string -> value -> value -> outcome FiducialResult.t.

(** [AOIService.measure_dimensions(p, cal)] for the scale of the body. *)
Definition measure_dimensions_with (p : string) (cal : value)
    : outcome MeasureResult.t :=
  match cal with
  | number pmm => AOIService.measure_dimensions p pmm
  | integer pmm =>
      if fits_double pmm then AOIService.measure_dimensions p (IZR pmm)
      else measure_dimensions_other p cal
  | _ => measure_dimensions_other p cal
  end.

(** [AOIService.detect_fiducial_marks(p, minr, maxr)] for the radii of the
    body. *)
Definition detect_fiducial_marks_with (p : string) (minr maxr : value)
    : outcome FiducialResult.t :=
  match minr, maxr with
  | integer a, integer b => AOIService.detect_fiducial_marks p a b
  | _, _ => detect_fiducial_marks_other p minr maxr
  end.

(** [d.get("calibration",{}).get("pixel_to_mm",0.1)]. *)
Definition cal (d : value) : outcome value :=
  calibration <- get d "calibration" (object []) ;;
  get calibration "pixel_to_mm" (number (1 / 10)).

Definition measurement (body : outcome value)
    : response (list Measurement.t) :=
  let attempt : outcome (response (list Measurement.t)) :=
    d <- body ;;
    id <- getitem d "image_id" ;;
    match get_image_path id with
    | None => Ok (failure 404 "NOT_FOUND" None)
    | Some p =>
        cal <- cal d ;;
        r <- measure_dimensions_with p cal ;;
        Ok (success 200 (MeasureResult.measurements r)
                    (image_to_base64 (MeasureResult.annotated_image r)))
    end in
  match attempt with
  | Ok answer => answer
  | Raise e => failure 500 "ERROR" (Some e)
  end.

Definition fiducial_detection (body : outcome value)
    : response (list Mark.t * option R) :=
  let attempt : outcome (response (list Mark.t * option R)) :=
    d <- body ;;
    id <- getitem d "image_id" ;;
    match get_image_path id with
    | None => Ok (failure 404 "NOT_FOUND" None)
    | Some p =>
        minr <- get d "min_radius" (integer 5) ;;
        maxr <- get d "max_radius" (integer 25) ;;
        r <- detect_fiducial_marks_with p minr maxr ;;
        Ok (success 200
              (FiducialResult.marks r, FiducialResult.rotation_angle r)
              (image_to_base64 (FiducialResult.annotated_image r)))
    end in
  match attempt with
  | Ok answer => answer
  | Raise e => failure 500 "ERROR" (Some e)
  end.

End Handlers.
End ProcessRoutes.

(* ================================================================== *)
(** * The service loops as list expressions *)
(* ================================================================== *)

(** What the loops of aoi_service.py build, written without accumulators;
    the statements about the service compare its results with these. *)
Module Comprehension.
Import cv2 Py.

Section Lists.
Context {cv : OpenCV}.

(** The test [a<50: continue] of [detect_defects], negated. *)
Definition is_defect (c : Contour) : bool :=
  if Rlt_dec (contourArea c) 50 then false else true.

(** The dictionary appended for the contour [c] when [k] dictionaries
    were appended before it. *)
Definition defect_of (k : nat) (c : Contour) : Defect.t :=
  let '(x, y, w, h) := boundingRect c in
  {| Defect.id := (Z.of_nat k + 1)%Z;
     Defect.position :=
       {| Position.x := (x + w / 2)%Z; Position.y := (y + h / 2)%Z |};
     Defect.area := contourArea c;
     Defect.bbox :=
       {| BBox.x := x; BBox.y := y; BBox.width := w; BBox.height := h |} |}.

Definition defects_of (cnt : list Contour) : list Defect.t :=
  let large := filter is_defect cnt in
  map (fun kc : nat * Contour => defect_of (fst kc) (snd kc))
      (combine (seq 0 (List.length large)) large).

End Lists.

(** The dictionary appended for the [i]-th circle. *)
Definition mark_of (i : nat) (c : Z * Z * Z) : Mark.t :=
  let '(cx, cy, r) := c in
  {| Mark.id := (Z.of_nat i + 1)%Z;
     Mark.position := {| Position.x := cx; Position.y := cy |};
     Mark.radius := r |}.

Definition marks_of (circles : list (R * R * R)) : list Mark.t :=
  let cs := AOIService.uint16_around circles in
  map (fun ic : nat * (Z * Z * Z) => mark_of (fst ic) (snd ic))
      (combine (seq 0 (List.length cs)) cs).

End Comprehension.

(** Two images of the same size that differ by at most [t] at every
    pixel. *)
Module Tolerance.
Definition within (t : Z) (a b : cv2.Mat) : Prop :=
  Forall (fun rows : list Z * list Z =>
            Forall (fun p : Z * Z => (Z.abs (fst p - snd p) <= t)%Z)
                   (combine (fst rows) (snd rows)))
         (combine a b).
End Tolerance.
(* ================================================================== *)
(** * Facts about the numerics *)
(* ================================================================== *)

Lemma fmod_unique (x m : R) (k : Z) :
  0 < m -> 0 <= x - m * IZR k < m -> Py.fmod x m = x - m * IZR k.
Proof.
  intros Hm [Hlo Hhi]. unfold Py.fmod.
  replace (Int_part (x / m)) with k; [reflexivity|].
  apply Int_part_spec.
  assert (Hx : x / m = (x - m * IZR k) / m + IZR k) by (field; lra).
  assert (H0 : 0 <= (x - m * IZR k) / m).
  { apply Rmult_le_pos; [lra|]. left. now apply Rinv_0_lt_compat. }
  assert (H1 : (x - m * IZR k) / m < 1).
  { apply (Rmult_lt_reg_r m); [lra|].
    unfold Rdiv. rewrite Rmult_assoc, Rinv_l by lra. lra. }
  lra.
Qed.

Lemma fmod_small (x m : R) : 0 <= x < m -> Py.fmod x m = x.
Proof.
  intros H. rewrite (fmod_unique x m 0); simpl; lra.
Qed.

Lemma fmod_range (x m : R) : 0 < m -> 0 <= Py.fmod x m < m.
Proof.
  intros Hm. unfold Py.fmod.
  destruct (base_Int_part (x / m)) as [H1 H2].
  assert (Hx : x = m * (x / m)) by (field; lra).
  split.
  - assert (m * IZR (Int_part (x / m)) <= m * (x / m)) by nra. lra.
  - assert (m * (x / m) - m * IZR (Int_part (x / m)) < m * 1) by nra. lra.
Qed.

(* ================================================================== *)
(** * Canonical orientation *)
(* ================================================================== *)

Section OrientationFacts.
Import Orientation.

Lemma normalize_angle_unfold (rect : RotatedRect) :
  normalize_angle rect =
  let a := if Rlt_dec (fst (size rect)) (snd (size rect))
           then 90 + angle rect else angle rect in
  if Rlt_dec a 0 then a + 360 else a.
Proof.
  unfold normalize_angle. destruct (size rect) as [w h]. reflexivity.
Qed.


Lemma circular_distance_of_close (a b : R) :
  Rabs (a - b) <= 90 -> circular_distance a b <= 90.
Proof.
  intros H. unfold circular_distance.
  destruct (Rle_dec 0 (a - b)) as [Hpos|Hneg].
  - rewrite Rabs_right in H by lra.
    rewrite fmod_small by lra.
    apply Rle_trans with (a - b); [apply Rmin_l | exact H].
  - rewrite Rabs_left in H by lra.
    rewrite (fmod_unique (a - b) 360 (-1)) by (simpl; lra).
    eapply Rle_trans; [apply Rmin_r | simpl; lra].
Qed.

Lemma fix_180_ambiguity_cases (angle reference : R) :
  0 <= angle < 360 ->
  let r := fst (fix_180_ambiguity angle reference) in
  (r = angle \/ r = Py.fmod (angle + 180) 360) /\
  snd (fix_180_ambiguity angle reference) = Rabs (r - reference) /\
  Rabs (r - reference) <= Rabs (angle - reference).
Proof.
  intros Ha. unfold fix_180_ambiguity. cbv zeta.
  destruct (Rlt_dec 90 (Rabs (angle - reference))) as [Hfar|Hnear].
  - destruct (Rlt_dec (Rabs (Py.fmod (angle + 180) 360 - reference))
                      (Rabs (angle - reference))) as [Hbetter|Hworse]; simpl.
    + repeat split; [now right | lra].
    + repeat split; [now left | lra].
  - simpl. repeat split; [now left | lra].
Qed.




(** The runs of the test scripts for the headings 37, 120 and -30. *)
Example fmod_of_negative : Py.fmod (-30) 360 = 330.
Proof.
  rewrite (fmod_unique _ 360 (-1)) by (simpl; lra). simpl. lra.
Qed.

Example normalize_angle_swapped_sides :
  normalize_angle {| center := (250, 250); size := (80, 150); angle := -53 |}
  = 37.
Proof.
  rewrite normalize_angle_unfold. simpl.
  destruct (Rlt_dec 80 150); [|lra].
  destruct (Rlt_dec (90 + -53) 0); lra.
Qed.

Example fix_180_ambiguity_flips : fix_180_ambiguity 300 120 = (120, 0).
Proof.
  unfold fix_180_ambiguity. cbv zeta.
  rewrite (fmod_unique (300 + 180) 360 1) by (simpl; lra). simpl IZR.
  replace (300 - 120) with 180 by lra.
  replace (300 + 180 - 360 * 1 - 120) with 0 by lra.
  rewrite Rabs_R0, (Rabs_right 180) by lra.
  destruct (Rlt_dec 90 180); [|lra].
  destruct (Rlt_dec 0 180); [|lra]. f_equal. lra.
Qed.

End OrientationFacts.

(** C3. For every oriented box whose raw angle lies in [-90, 0), the
    normalisation (add 90 when width < height, then add 360 when negative)
    returns an angle in [0, 360); on a tie width = height no 90 is added, the
    result being the raw angle plus 360. *)
Theorem normalize_angle_in_range (rect : Orientation.RotatedRect) :
  -90 <= Orientation.angle rect < 0 ->
  0 <= Orientation.normalize_angle rect < 360 /\
  (fst (Orientation.size rect) = snd (Orientation.size rect) ->
   Orientation.normalize_angle rect = Orientation.angle rect + 360).
Proof.
  intros Hraw. rewrite normalize_angle_unfold. cbv zeta.
  set (w := fst (Orientation.size rect)). set (h := snd (Orientation.size rect)).
  split.
  - destruct (Rlt_dec w h).
    + destruct (Rlt_dec (90 + Orientation.angle rect) 0); lra.
    + destruct (Rlt_dec (Orientation.angle rect) 0); lra.
  - intros Htie. destruct (Rlt_dec w h) as [Hlt|_]; [lra|].
    destruct (Rlt_dec (Orientation.angle rect) 0); lra.
Qed.

Lemma normalize_angle_in_range_witness :
  let sq := {| Orientation.center := (250, 250);
               Orientation.size := (80, 80);
               Orientation.angle := -30 |} in
  0 <= Orientation.normalize_angle sq < 360 /\
  Orientation.normalize_angle sq = 330.
Proof.
  intros sq.
  destruct (normalize_angle_in_range sq) as [Hrange Htie]; [simpl; lra|].
  split; [exact Hrange|]. rewrite Htie; [simpl; lra | reflexivity].
Defined.

(** C2, refuted as stated: the angle 350 resolved against the reference 0
    comes out as 170 (by the code and by the spec's formula alike), which is
    170 degrees away from 0 on the circle. *)
Lemma fix_180_ambiguity_not_within_90 :
  0 <= 350 < 360 /\
  fst (Orientation.fix_180_ambiguity 350 0) = 170 /\
  Orientation.resolve_as_specified 350 0 = 170 /\
  ~ Orientation.circular_distance
      (fst (Orientation.fix_180_ambiguity 350 0)) 0 <= 90.
Proof.
  assert (Hflip : Py.fmod (350 + 180) 360 = 170).
  { rewrite (fmod_unique _ 360 1) by (simpl; lra). simpl. lra. }
  assert (Hcode : fst (Orientation.fix_180_ambiguity 350 0) = 170).
  { unfold Orientation.fix_180_ambiguity. cbv zeta. rewrite Hflip.
    replace (350 - 0) with 350 by lra. replace (170 - 0) with 170 by lra.
    rewrite !Rabs_right by lra.
    destruct (Rlt_dec 90 350); [|lra].
    destruct (Rlt_dec 170 350); [reflexivity|lra]. }
  split; [lra|]. split; [exact Hcode|]. split.
  - unfold Orientation.resolve_as_specified. replace (350 - 0) with 350 by lra.
    rewrite Rabs_right by lra. destruct (Rlt_dec 90 350); [exact Hflip|lra].
  - rewrite Hcode. unfold Orientation.circular_distance.
    replace (170 - 0) with 170 by lra. rewrite fmod_small by lra.
    unfold Rmin. destruct (Rle_dec 170 (360 - 170)); lra.
Qed.

(** C2, amended.  For an angle in [0, 360) and any reference, the result is
    the angle itself or its flip (angle + 180) mod 360, it lies in [0, 360),
    and its plain distance to the reference never exceeds that of the input;
    on the region [Orientation.flip_sound] its distance to the reference on the circle is
    at most 90. *)
Theorem fix_180_ambiguity_within_90 (angle reference : R) :
  0 <= angle < 360 ->
  let r := fst (Orientation.fix_180_ambiguity angle reference) in
  (r = angle \/ r = Py.fmod (angle + 180) 360) /\
  0 <= r < 360 /\
  Rabs (r - reference) <= Rabs (angle - reference) /\
  (Orientation.flip_sound angle reference ->
   Orientation.circular_distance r reference <= 90).
Proof.
  intros Ha r.
  destruct (fix_180_ambiguity_cases angle reference Ha) as (Hr & _ & Hle).
  fold r in Hr, Hle.
  split; [exact Hr|]. split.
  { destruct Hr as [-> | ->]; [exact Ha | apply fmod_range; lra]. }
  split; [exact Hle|].
  intros Hsound. apply circular_distance_of_close.
  destruct Hsound as [Hnear | [[Hhi Hd] | [Hlo Hd]]].
  - lra.
  - subst r. unfold Orientation.fix_180_ambiguity. cbv zeta.
    rewrite (fmod_unique (angle + 180) 360 1) by (simpl; lra). simpl IZR.
    rewrite (Rabs_right (angle - reference)) by lra.
    destruct (Rlt_dec 90 (angle - reference)); [|lra].
    assert (Rabs (angle + 180 - 360 * 1 - reference) <= 90)
      by (apply Rabs_le; lra).
    destruct (Rlt_dec _ _); simpl; lra.
  - subst r. unfold Orientation.fix_180_ambiguity. cbv zeta.
    rewrite (fmod_unique (angle + 180) 360 0) by (simpl; lra). simpl IZR.
    rewrite (Rabs_left (angle - reference)) by lra.
    destruct (Rlt_dec 90 (- (angle - reference))); [|lra].
    assert (Rabs (angle + 180 - 360 * 0 - reference) <= 90)
      by (apply Rabs_le; lra).
    destruct (Rlt_dec _ _); simpl; lra.
Qed.

Lemma fix_180_ambiguity_within_90_witness :
  Orientation.circular_distance
    (fst (Orientation.fix_180_ambiguity 300 120)) 120 <= 90.
Proof.
  destruct (fix_180_ambiguity_within_90 300 120) as (_ & _ & _ & Hclose);
    [lra|].
  apply Hclose. right. left. lra.
Defined.

(** The closeness of the reading to the heading is measured by the plain
    difference of the two angles in [0, 360), as [fix_180_ambiguity]
    measures it, and not on the circle: were the rectangle drawn at heading
    0 read as (150, 80) at -0.5 degrees, that is along 359.5, the reading
    would be flipped to 179.5 and the test would fail. *)
Example resolved_angle_across_wrap :
  let rect := {| Orientation.center := (250, 250);
                 Orientation.size := (150, 80);
                 Orientation.angle := - (1 / 2) |} in
  let detect := fun _ : R => rect in
  0 <= 0 < 360 /\
  -90 <= Orientation.angle rect < 0 /\
  Orientation.reads_within 0 150 80 (359 + 1 / 2) rect /\
  Orientation.circular_distance (359 + 1 / 2) 0 < 1 /\
  Orientation.resolved_angle detect 0 = (179 + 1 / 2, 179 + 1 / 2) /\
  ~ Orientation.circular_distance
      (fst (Orientation.resolved_angle detect 0)) 0 < 1 /\
  Orientation.test_angle detect 0 = false.
Proof.
  intros rect detect.
  assert (Hres : Orientation.resolved_angle detect 0
                 = (179 + 1 / 2, 179 + 1 / 2)).
  { unfold Orientation.resolved_angle, detect, rect. cbv zeta.
    rewrite (fmod_small 0 360) by lra.
    rewrite normalize_angle_unfold. simpl.
    destruct (Rlt_dec 150 80) as [Habs|_]; [lra|].
    destruct (Rlt_dec (- (1 / 2)) 0) as [_|Habs]; [|lra].
    unfold Orientation.fix_180_ambiguity. cbv zeta.
    rewrite (fmod_unique (- (1 / 2) + 360 + 180) 360 1) by (simpl; lra).
    simpl IZR.
    replace (- (1 / 2) + 360 - 0) with (359 + 1 / 2) by lra.
    replace (- (1 / 2) + 360 + 180 - 360 * 1 - 0) with (179 + 1 / 2) by lra.
    rewrite !Rabs_right by lra.
    destruct (Rlt_dec 90 (359 + 1 / 2)) as [_|Habs]; [|lra].
    destruct (Rlt_dec (179 + 1 / 2) (359 + 1 / 2)) as [_|Habs]; [|lra].
    f_equal; lra. }
  split; [lra|]. split; [simpl; lra|]. split.
  { unfold Orientation.reads_within, rect. simpl. split; [lra|].
    left. split; [|split].
    - replace (150 - 150) with 0 by lra. rewrite Rabs_R0. lra.
    - replace (80 - 80) with 0 by lra. rewrite Rabs_R0. lra.
    - exists (-2)%Z. simpl. lra. }
  split.
  { unfold Orientation.circular_distance.
    replace (359 + 1 / 2 - 0) with (359 + 1 / 2) by lra.
    rewrite fmod_small by lra.
    unfold Rmin. destruct (Rle_dec _ _); lra. }
  split; [exact Hres|]. split.
  - rewrite Hres. simpl fst. unfold Orientation.circular_distance.
    replace (179 + 1 / 2 - 0) with (179 + 1 / 2) by lra.
    rewrite fmod_small by lra.
    unfold Rmin. destruct (Rle_dec _ _); lra.
  - unfold Orientation.test_angle. rewrite Hres. simpl snd.
    destruct (Rlt_dec (179 + 1 / 2) 1); [lra|reflexivity].
Qed.



(* ================================================================== *)
(** * The defect detector *)
(* ================================================================== *)

Section PointwiseFacts.
Import cv2.
Context {cv : OpenCV}.

Lemma absdiff_row_same (row : list Z) :
  map (fun p : Z * Z => Z.abs (fst p - snd p)) (combine row row)
  = map (fun _ => 0%Z) row.
Proof.
  induction row as [|a row IH]; simpl; [reflexivity|].
  rewrite IH. f_equal. lia.
Qed.

Lemma absdiff_same (img : Mat) :
  absdiff img img = map (map (fun _ => 0%Z)) img.
Proof.
  unfold absdiff. induction img as [|row img IH]; simpl; [reflexivity|].
  rewrite IH, absdiff_row_same. reflexivity.
Qed.

Lemma blank_zeroed (img : Mat) : blank (map (map (fun _ => 0%Z)) img).
Proof.
  unfold blank, uniform. apply Forall_forall. intros row Hrow.
  apply in_map_iff in Hrow. destruct Hrow as (row0 & <- & _).
  apply Forall_forall. intros p Hp.
  apply in_map_iff in Hp. destruct Hp as (p0 & <- & _). reflexivity.
Qed.

Lemma is_int_spec (z : Z) :
  is_int z = true <-> (INT_MIN <= z <= INT_MAX)%Z.
Proof.
  unfold is_int. rewrite andb_true_iff, !Z.leb_le. tauto.
Qed.

(** A C int has a double. *)
Lemma is_int_fits_double (z : Z) : is_int z = true -> Py.fits_double z = true.
Proof.
  intros Hz. apply is_int_spec in Hz. unfold INT_MIN, INT_MAX in Hz.
  unfold Py.fits_double. apply Z.ltb_lt.
  assert (Hbig : (2 ^ 31 < 2 ^ 1024 - 2 ^ 970)%Z) by (vm_compute; reflexivity).
  assert (Hpos : (0 < 2 ^ 31)%Z) by (vm_compute; reflexivity).
  revert Hz Hbig Hpos.
  generalize (2 ^ 31)%Z (2 ^ 1024 - 2 ^ 970)%Z. intros a b Hz Hbig Hpos. lia.
Qed.

(** Within the range of a C int the pixels are compared with the
    threshold itself. *)
Lemma threshold_int (src : Mat) (t maxval : Z) :
  is_int t = true ->
  snd (threshold src t maxval 0)
  = map (map (fun p : Z => if (t <? p)%Z then maxval else 0%Z)) src.
Proof.
  intros Ht. unfold threshold. rewrite Ht. reflexivity.
Qed.

(** A binary threshold at a non-negative level leaves a blank image as it
    is: no pixel exceeds the level. *)
Lemma threshold_blank (img : Mat) (t maxval : Z) :
  (0 <= t <= INT_MAX)%Z -> blank img -> snd (threshold img t maxval 0) = img.
Proof.
  intros Ht Hblank. rewrite threshold_int
    by (apply is_int_spec; unfold INT_MIN; split; [|apply Ht];
        apply Z.le_trans with 0%Z; [discriminate | apply Ht]).
  induction Hblank as [|row img Hrow _ IH]; simpl; [reflexivity|].
  rewrite IH. f_equal.
  induction Hrow as [|p row Hp _ IHrow]; simpl; [reflexivity|].
  rewrite IHrow. subst p.
  destruct (Z.ltb_spec t 0); [lia | reflexivity].
Qed.

End PointwiseFacts.

Section DetectorFacts.
Import cv2 Py AOIService.
Context {cv : OpenCV}.

(** The identifiers handed out by the loop continue the numbering of the
    list it was entered with. *)
Lemma detect_defects_loop_ids (cnt : list Contour) (res : Mat3)
    (defs : list Defect.t) :
  map Defect.id defs
    = map (fun k => (Z.of_nat k + 1)%Z) (seq 0 (List.length defs)) ->
  let defs' := snd (detect_defects_loop cnt res defs) in
  map Defect.id defs'
    = map (fun k => (Z.of_nat k + 1)%Z) (seq 0 (List.length defs')).
Proof.
  revert res defs. induction cnt as [|c cnt IH]; intros res defs Hdefs.
  - exact Hdefs.
  - simpl. destruct (Rlt_dec (contourArea c) 50).
    + apply IH. exact Hdefs.
    + destruct (boundingRect c) as [[[x y] w] h]. apply IH.
      rewrite map_app, length_app. simpl List.length.
      rewrite seq_app, map_app, Hdefs. reflexivity.
Qed.

Lemma detect_defects_unfold (path : string) (t_path : option string)
    (threshold : Z) (img : Mat) :
  imread path 0%Z = Some img ->
  fits_double threshold = true ->
  detect_defects path t_path threshold
  = let th := snd (cv2.threshold (absdiff (GaussianBlur img (15, 15)%Z 5) img)
                                 threshold 255 0) in
    let cnt := findContours
                 (morphologyEx th 2%Z (getStructuringElement 2%Z (5, 5)%Z))
                 1%Z 2%Z in
    let out := detect_defects_loop cnt (cvtColor img 8%Z) [] in
    Ok {| DefectResult.defects := snd out;
          DefectResult.defect_count := Z.of_nat (List.length (snd out));
          DefectResult.annotated_image := fst out |}.
Proof.
  intros Himg Hfits. unfold detect_defects. rewrite Himg, Hfits.
  destruct (cv2.threshold _ threshold 255 0) as [retval th].
  cbv zeta. cbn [snd].
  destruct (detect_defects_loop _ _ _) as [res defs]. reflexivity.
Qed.

Lemma detect_defects_readable (path : string) (t_path : option string)
    (threshold : Z) (img : Mat) :
  imread path 0%Z = Some img ->
  fits_double threshold = true ->
  exists r, detect_defects path t_path threshold = Ok r /\
            DefectResult.defect_count r
              = Z.of_nat (List.length (DefectResult.defects r)).
Proof.
  intros Himg Hfits. unfold detect_defects. rewrite Himg, Hfits.
  destruct (cv2.threshold _ threshold 255 0) as [retval th].
  destruct (detect_defects_loop _ _ _) as [res defs].
  eexists. split; reflexivity.
Qed.

Lemma detect_defects_raises (path : string) (t_path : option string)
    (threshold : Z) (e : exn) :
  detect_defects path t_path threshold = Raise e ->
  e = cv2_error /\
  (imread path 0%Z = None \/ fits_double threshold = false).
Proof.
  unfold detect_defects. destruct (imread path 0%Z) as [img|].
  - destruct (fits_double threshold).
    + destruct (cv2.threshold _ threshold 255 0) as [retval th].
      destruct (detect_defects_loop _ _ _) as [res defs]. discriminate.
    + intros H. injection H as <-. split; [reflexivity | now right].
  - intros H. injection H as <-. split; [reflexivity | now left].
Qed.

Lemma detect_defects_unreadable (path : string) (t_path : option string)
    (threshold : Z) :
  imread path 0%Z = None ->
  detect_defects path t_path threshold = Raise cv2_error.
Proof.
  intros Himg. unfold detect_defects. now rewrite Himg.
Qed.

Lemma detect_defects_returns (path : string) (t_path : option string)
    (threshold : Z) (r : DefectResult.t) :
  detect_defects path t_path threshold = Ok r ->
  fits_double threshold = true /\ exists img, imread path 0%Z = Some img.
Proof.
  unfold detect_defects. destruct (imread path 0%Z) as [img|];
    [|discriminate].
  destruct (fits_double threshold); [|discriminate].
  intros _. split; [reflexivity | now exists img].
Qed.

(** When the difference image is blank and the level is a C int that is
    not negative the detector reports nothing. *)
Lemma detect_defects_blank_difference (path : string)
    (t_path : option string) (threshold : Z) (img : Mat) :
  opening_keeps_blank cv -> blank_has_no_contour cv ->
  imread path 0%Z = Some img ->
  GaussianBlur img (15, 15)%Z 5 = img ->
  (0 <= threshold <= INT_MAX)%Z ->
  detect_defects path t_path threshold
    = Ok {| DefectResult.defects := [];
            DefectResult.defect_count := 0;
            DefectResult.annotated_image := cvtColor img 8%Z |}.
Proof.
  intros Hopen Hcnt Himg Hblur Ht. unfold detect_defects.
  rewrite Himg, Hblur, absdiff_same.
  rewrite is_int_fits_double
    by (apply is_int_spec; unfold INT_MIN; split; [|apply Ht];
        apply Z.le_trans with 0%Z; [discriminate | apply Ht]).
  pose proof (blank_zeroed img) as Hblank.
  pose proof (threshold_blank _ threshold 255 Ht Hblank) as Hth.
  destruct (cv2.threshold _ threshold 255 0) as [retval th].
  simpl in Hth. subst th.
  rewrite (Hopen _ _ Hblank), (Hcnt _ _ _ Hblank). reflexivity.
Qed.
End DetectorFacts.

Section BenchFacts.
Import cv2 Bench.

Lemma smooth_row_constant (v : Z) (row : list Z) :
  Forall (eq v) row -> smooth_row v row = row.
Proof.
  induction 1 as [|a row Ha Hrow IH]; cbn [smooth_row]; [reflexivity|].
  subst a. rewrite IH. f_equal.
  assert (Hnext : hd v row = v)
    by (destruct Hrow as [|b row Hb _]; [reflexivity | now subst b]).
  rewrite Hnext. symmetry. apply Z.div_unique with (r := 2%Z); lia.
Qed.

Lemma erode_row_blank (row : list Z) :
  Forall (eq 0%Z) row -> erode_row 0 row = row.
Proof.
  induction 1 as [|a row Ha Hrow IH]; simpl; [reflexivity|]. subst a.
  rewrite IH. f_equal. destruct Hrow as [|b row Hb _]; simpl;
    [|subst b]; reflexivity.
Qed.

Lemma dilate_row_blank (row : list Z) :
  Forall (eq 0%Z) row -> dilate_row 0 row = row.
Proof.
  induction 1 as [|a row Ha Hrow IH]; simpl; [reflexivity|]. subst a.
  rewrite IH. f_equal. destruct Hrow as [|b row Hb _]; simpl;
    [|subst b]; reflexivity.
Qed.

Lemma hd_constant (v : Z) (row : list Z) :
  Forall (eq v) row -> row = [] \/ hd 0%Z row = v.
Proof.
  destruct 1 as [|a row Ha _]; [now left | right; simpl; now subst].
Qed.

Lemma is_blank_true (img : Mat) : blank img -> is_blank img = true.
Proof.
  unfold is_blank. induction 1 as [|row img Hrow _ IH]; simpl;
    [reflexivity|].
  rewrite IH, andb_true_r.
  induction Hrow as [|p row Hp _ IHrow]; simpl; [reflexivity|].
  subst p. exact IHrow.
Qed.

Variable file : string.
Variable img0 : Mat.
Variable contours : list Contour.
Variable circles : option (list (R * R * R)).

Lemma backend_smoothing :
  smoothing_keeps_constants (backend file img0 contours circles).
Proof.
  intros img v ksize sigma Himg. simpl. unfold smooth.
  induction Himg as [|row img Hrow _ IH]; simpl; [reflexivity|].
  rewrite IH. f_equal.
  destruct (hd_constant v row Hrow) as [-> | ->]; [reflexivity|].
  now apply smooth_row_constant.
Qed.

Lemma backend_opening :
  opening_keeps_blank (backend file img0 contours circles).
Proof.
  intros img kernel Himg. simpl. unfold opening.
  induction Himg as [|row img Hrow _ IH]; simpl; [reflexivity|].
  rewrite IH. f_equal.
  destruct (hd_constant 0 row Hrow) as [-> | ->]; [reflexivity|].
  rewrite (erode_row_blank row Hrow).
  destruct (hd_constant 0 row Hrow) as [-> | ->]; [reflexivity|].
  now apply dilate_row_blank.
Qed.

Lemma backend_contours :
  blank_has_no_contour (backend file img0 contours circles).
Proof.
  intros img mode method Himg. simpl. now rewrite is_blank_true.
Qed.
End BenchFacts.

Section RouteFacts.
Import cv2 Py Json Routes.
Context {cv : OpenCV}.
Variable get_image_path : value -> option string.
Variable image_to_base64 : Mat3 -> string.
Variable detect_defects_other : string -> value -> outcome DefectResult.t.

(** The handler, case by case on the parsed body. *)
Lemma defect_detection_answer (body : outcome value) :
  defect_detection get_image_path image_to_base64 detect_defects_other body
  = match body with
    | Raise e => failure 500 "ERROR" (Some e)
    | Ok (object members) =>
        match lookup "image_id" members with
        | None => failure 500 "ERROR" (Some KeyError)
        | Some id =>
            match get_image_path id with
            | None => failure 404 "NOT_FOUND" None
            | Some p =>
                let threshold :=
                  match lookup "threshold" members with
                  | Some v => v
                  | None => integer 30
                  end in
                match detect_defects_with detect_defects_other p threshold with
                | Ok r =>
                    success 200 (DefectResult.defects r)
                      (DefectResult.defect_count r)
                      (image_to_base64 (DefectResult.annotated_image r))
                | Raise e => failure 500 "ERROR" (Some e)
                end
            end
        end
    | Ok _ => failure 500 "ERROR" (Some TypeError)
    end.
Proof.
  unfold defect_detection.
  destruct body as [d|e]; [|reflexivity].
  destruct d as [| b | z | x | token | t | items | members];
    try reflexivity.
  cbn [bind getitem get].
  destruct (lookup "image_id" members) as [id|]; [|reflexivity].
  cbn [bind]. destruct (get_image_path id) as [p|]; [|reflexivity].
  destruct (lookup "threshold" members) as [v|]; cbn [bind];
    destruct (detect_defects_with detect_defects_other p _) as [r|e];
    reflexivity.
Qed.

(** The handler knows two error codes only. *)
Lemma defect_detection_error_codes (body : outcome value) (status : Z)
    (code : string) (cause : option exn) :
  defect_detection get_image_path image_to_base64 detect_defects_other body
    = failure status code cause ->
  code = "NOT_FOUND"%string \/ code = "ERROR"%string.
Proof.
  rewrite defect_detection_answer.
  destruct body as [d|e].
  - destruct d as [| b | z | x | token | t | items | members];
      try (intros H; injection H as _ <- _; now right).
    destruct (lookup "image_id" members) as [id|];
      [|intros H; injection H as _ <- _; now right].
    destruct (get_image_path id) as [p|];
      [|intros H; injection H as _ <- _; now left].
    cbv zeta. destruct (detect_defects_with _ p _) as [r|e];
      [discriminate|].
    intros H. injection H as _ <- _. now right.
  - intros H. injection H as _ <- _. now right.
Qed.
End RouteFacts.

Lemma polygon_area_square_11 : Bench.polygon_area (Bench.square 11) = 121.
Proof.
  unfold Bench.polygon_area.
  change (Bench.shoelace (hd (0, 0)%Z (Bench.square 11)) (Bench.square 11))
    with (-242)%Z.
  rewrite Rabs_left by lra. lra.
Qed.

(** C7, refuted as stated: on a platform where a double beyond the range
    of [int] floors to INT_MIN, the flat panel inspected at the positive
    threshold 2^31 is reported as one defect covering the whole panel:
    the threshold reaches the comparison as a negative number, which every
    pixel of the blank difference image exceeds. *)
Lemma detect_defects_uniform_image_wide_threshold :
  let cv := Bench.backend "panel.png" Bench.flat_panel [Bench.square 11] None in
  (0 < 2 ^ 31)%Z /\
  cv2.uniform 128 Bench.flat_panel /\
  cv2.smoothing_keeps_constants cv /\
  cv2.opening_keeps_blank cv /\
  cv2.blank_has_no_contour cv /\
  AOIService.detect_defects (cv := cv) "panel.png" None (2 ^ 31)
    = Py.Ok {| DefectResult.defects :=
                 [ {| Defect.id := 1;
                      Defect.position :=
                        {| Position.x := 6; Position.y := 6 |};
                      Defect.area := 121;
                      Defect.bbox :=
                        {| BBox.x := 0; BBox.y := 0;
                           BBox.width := 12; BBox.height := 12 |} |} ];
               DefectResult.defect_count := 1;
               DefectResult.annotated_image :=
                 map (map (fun p => (p, p, p))) Bench.flat_panel |}.
Proof.
  intros cv. split; [reflexivity|]. split; [repeat constructor|].
  split; [apply backend_smoothing|]. split; [apply backend_opening|].
  split; [apply backend_contours|].
  rewrite (detect_defects_unfold (cv := cv) "panel.png" None (2 ^ 31)
             Bench.flat_panel eq_refl eq_refl).
  assert (Hcnt :
    cv2.findContours (OpenCV := cv)
      (cv2.morphologyEx (OpenCV := cv)
         (snd (cv2.threshold (cv := cv)
                 (cv2.absdiff
                    (cv2.GaussianBlur (OpenCV := cv) Bench.flat_panel
                       (15, 15)%Z 5)
                    Bench.flat_panel) (2 ^ 31) 255 0))
         2%Z (cv2.getStructuringElement (OpenCV := cv) 2%Z (5, 5)%Z))
      1%Z 2%Z = [Bench.square 11]) by (vm_compute; reflexivity).
  cbv zeta. rewrite Hcnt. cbn [AOIService.detect_defects_loop].
  change (cv2.contourArea (OpenCV := cv) (Bench.square 11))
    with (Bench.polygon_area (Bench.square 11)).
  rewrite polygon_area_square_11.
  destruct (Rlt_dec 121 50); [lra|]. reflexivity.
Qed.

(** C7, amended.  For every uniform input image and every positive
    threshold in the range of a C int, that is up to 2^31 - 1, the defect
    detector returns normally, with an empty defect list and a defect
    count of 0 (OpenCV being assumed to keep constant images under
    smoothing, blank masks under opening, and to find no contour in a blank
    mask). *)
Theorem detect_defects_uniform_image {cv : cv2.OpenCV} (path : string)
    (t_path : option string) (threshold : Z) (img : cv2.Mat) (v : Z) :
  cv2.smoothing_keeps_constants cv ->
  cv2.opening_keeps_blank cv ->
  cv2.blank_has_no_contour cv ->
  cv2.imread path 0%Z = Some img ->
  cv2.uniform v img ->
  (0 < threshold <= cv2.INT_MAX)%Z ->
  AOIService.detect_defects path t_path threshold
    = Py.Ok {| DefectResult.defects := [];
               DefectResult.defect_count := 0;
               DefectResult.annotated_image := cv2.cvtColor img 8%Z |}.
Proof.
  intros Hsmooth Hopen Hcnt Himg Hflat Ht.
  apply detect_defects_blank_difference; try assumption.
  - exact (Hsmooth img v _ _ Hflat).
  - lia.
Qed.

Lemma detect_defects_uniform_image_witness :
  AOIService.detect_defects
    (cv := Bench.backend "panel.png" Bench.flat_panel [Bench.square 11] None)
    "panel.png" None 30
  = Py.Ok {| DefectResult.defects := [];
             DefectResult.defect_count := 0;
             DefectResult.annotated_image :=
               map (map (fun p => (p, p, p))) Bench.flat_panel |}.
Proof.
  apply (detect_defects_uniform_image
           (cv := Bench.backend "panel.png" Bench.flat_panel [Bench.square 11] None)
           "panel.png" None 30 Bench.flat_panel 128).
  - apply backend_smoothing.
  - apply backend_opening.
  - apply backend_contours.
  - reflexivity.
  - repeat constructor.
  - split; [reflexivity | discriminate].
Defined.

(** C5, refuted as stated: on the flat panel the detector called with
    threshold 0 returns normally, with an empty defect list; called with
    threshold -1 it returns normally as well, every pixel of the difference
    image exceeding the threshold, and reports the whole panel as one
    defect. *)
Lemma detect_defects_nonpositive_threshold_accepted :
  let cv := Bench.backend "panel.png" Bench.flat_panel [Bench.square 11] None in
  (0 <= 0)%Z /\ (-1 <= 0)%Z /\
  AOIService.detect_defects (cv := cv) "panel.png" None 0
    = Py.Ok {| DefectResult.defects := [];
               DefectResult.defect_count := 0;
               DefectResult.annotated_image :=
                 map (map (fun p => (p, p, p))) Bench.flat_panel |} /\
  AOIService.detect_defects (cv := cv) "panel.png" None (-1)
    = Py.Ok {| DefectResult.defects :=
                 [ {| Defect.id := 1;
                      Defect.position :=
                        {| Position.x := 6; Position.y := 6 |};
                      Defect.area := 121;
                      Defect.bbox :=
                        {| BBox.x := 0; BBox.y := 0;
                           BBox.width := 12; BBox.height := 12 |} |} ];
               DefectResult.defect_count := 1;
               DefectResult.annotated_image :=
                 map (map (fun p => (p, p, p))) Bench.flat_panel |}.
Proof.
  intros cv. split; [lia|]. split; [lia|]. split.
  - apply (detect_defects_blank_difference (cv := cv)).
    + apply backend_opening.
    + apply backend_contours.
    + reflexivity.
    + apply (backend_smoothing _ _ _ _ Bench.flat_panel 128%Z).
      repeat constructor.
    + split; [reflexivity | discriminate].
  - rewrite (detect_defects_unfold (cv := cv) "panel.png" None (-1)
               Bench.flat_panel eq_refl eq_refl).
    assert (Hcnt :
      cv2.findContours (OpenCV := cv)
        (cv2.morphologyEx (OpenCV := cv)
           (snd (cv2.threshold (cv := cv)
                   (cv2.absdiff
                      (cv2.GaussianBlur (OpenCV := cv) Bench.flat_panel
                         (15, 15)%Z 5)
                      Bench.flat_panel) (-1) 255 0))
           2%Z (cv2.getStructuringElement (OpenCV := cv) 2%Z (5, 5)%Z))
        1%Z 2%Z = [Bench.square 11]) by (vm_compute; reflexivity).
    cbv zeta. rewrite Hcnt. cbn [AOIService.detect_defects_loop].
    change (cv2.contourArea (OpenCV := cv) (Bench.square 11))
      with (Bench.polygon_area (Bench.square 11)).
    rewrite polygon_area_square_11.
    destruct (Rlt_dec 121 50); [lra|]. reflexivity.
Qed.

(** C5, amended.  The detector does not validate its threshold: for every
    readable image and every threshold in the range of a C int, the
    non-positive ones included, it returns a defect list with its count
    and the annotated image, and the request handler, which forwards the
    threshold of the body unchecked, answers 200 with that result.  There
    is no InvalidParameter: the only exception the detector raises is
    OpenCV's error, on an unreadable image or on a threshold too large to
    be a double, and the only error codes of the handler are NOT_FOUND and
    ERROR. *)
Theorem detect_defects_accepts_int_threshold {cv : cv2.OpenCV}
    (get_image_path : Json.value -> option string)
    (image_to_base64 : cv2.Mat3 -> string)
    (detect_defects_other : string -> Json.value -> Py.outcome DefectResult.t)
    (id : Json.value) (path : string) (threshold : Z) (img : cv2.Mat) :
  get_image_path id = Some path ->
  cv2.imread path 0%Z = Some img ->
  (cv2.INT_MIN <= threshold <= cv2.INT_MAX)%Z ->
  (exists r,
     AOIService.detect_defects path None threshold = Py.Ok r /\
     DefectResult.defect_count r
       = Z.of_nat (List.length (DefectResult.defects r)) /\
     Routes.defect_detection get_image_path image_to_base64
       detect_defects_other
       (Py.Ok (Json.object [("image_id"%string, id);
                            ("threshold"%string, Json.integer threshold)]))
     = Routes.success 200 (DefectResult.defects r)
         (DefectResult.defect_count r)
         (image_to_base64 (DefectResult.annotated_image r))) /\
  (forall p t e, AOIService.detect_defects p None t = Py.Raise e ->
                 e = Py.cv2_error /\
                 (cv2.imread p 0%Z = None \/ Py.fits_double t = false)) /\
  (forall body status code cause,
     Routes.defect_detection get_image_path image_to_base64
       detect_defects_other body
       = Routes.failure status code cause ->
     code = "NOT_FOUND"%string \/ code = "ERROR"%string).
Proof.
  intros Hpath Himg Hrange. split; [|split].
  - destruct (detect_defects_readable path None threshold img Himg)
      as (r & Hr & Hcount).
    { apply is_int_fits_double, is_int_spec, Hrange. }
    exists r. split; [exact Hr|]. split; [exact Hcount|].
    rewrite defect_detection_answer. simpl.
    rewrite Hpath. simpl. rewrite Hr. reflexivity.
  - intros p t e He. exact (detect_defects_raises p None t e He).
  - apply defect_detection_error_codes.
Qed.

Lemma detect_defects_accepts_int_threshold_witness :
  let cv := Bench.backend "panel.png" Bench.flat_panel [Bench.square 11] None in
  exists r,
    AOIService.detect_defects (cv := cv) "panel.png" None (-1) = Py.Ok r /\
    DefectResult.defect_count r
      = Z.of_nat (List.length (DefectResult.defects r)).
Proof.
  intros cv.
  destruct (detect_defects_accepts_int_threshold (cv := cv)
              (fun _ => Some "panel.png"%string) (fun _ => EmptyString)
              (fun _ _ => Py.Raise Py.TypeError)
              (Json.text "panel") "panel.png" (-1) Bench.flat_panel
              eq_refl eq_refl)
    as [(r & Hr & Hcount & _) _].
  - split; discriminate.
  - exists r. split; assumption.
Defined.

(** C10. The detector's result does not depend on its template-path
    argument: two calls that differ only in that argument have the same
    outcome, that is the same defect list, defect count and annotated image
    when they return, and the same exception otherwise. *)
Theorem detect_defects_ignores_template {cv : cv2.OpenCV} (path : string)
    (t_path1 t_path2 : option string) (threshold : Z) :
  AOIService.detect_defects path t_path1 threshold
  = AOIService.detect_defects path t_path2 threshold /\
  match AOIService.detect_defects path t_path1 threshold,
        AOIService.detect_defects path t_path2 threshold with
  | Py.Ok r1, Py.Ok r2 =>
      DefectResult.defects r1 = DefectResult.defects r2 /\
      DefectResult.defect_count r1 = DefectResult.defect_count r2 /\
      DefectResult.annotated_image r1 = DefectResult.annotated_image r2
  | Py.Raise e1, Py.Raise e2 => e1 = e2
  | _, _ => False
  end.
Proof.
  split; [reflexivity|].
  change (AOIService.detect_defects path t_path2 threshold)
    with (AOIService.detect_defects path t_path1 threshold).
  destruct (AOIService.detect_defects path t_path1 threshold) as [r|e].
  - repeat split.
  - reflexivity.
Qed.

(* ================================================================== *)
(** * The dimension measurer *)
(* ================================================================== *)

Section MeasurerFacts.
Import cv2 Py AOIService.

Lemma circularity_value (a p : R) :
  circularity a p = Ok (if Rlt_dec 0 p then 4 * PI * a / (p * p) else 0).
Proof.
  unfold circularity, truediv. destruct (Rlt_dec 0 p) as [Hp|Hp];
    [|reflexivity].
  destruct (Req_dec_T (p * p) 0) as [Hz|_]; [|reflexivity].
  exfalso. assert (0 < p * p) by (apply Rmult_lt_0_compat; assumption). lra.
Qed.

Context {cv : OpenCV}.

Lemma circularity_of_value (c : Contour) :
  circularity (contourArea c) (arcLength c true) = Ok (circularity_of c).
Proof.
  unfold circularity_of. rewrite circularity_value. reflexivity.
Qed.

(** The loop never raises, and what it appends is [measured]. *)
Lemma measure_dimensions_loop_total (pmm : R) (cnt : list Contour) :
  forall (i : nat) (res : Mat3) (ms : list Measurement.t),
  exists res',
    measure_dimensions_loop pmm i cnt res ms
    = Ok (res', ms ++ measured pmm i cnt).
Proof.
  induction cnt as [|c cnt IH]; intros i res ms; simpl.
  - exists res. now rewrite app_nil_r.
  - destruct (Rlt_dec (contourArea c) 100) as [Hsmall|Hbig].
    + apply IH.
    + unfold measurement_of.
      destruct (boundingRect c) as [[[x y] w] h] eqn:Hbox.
      rewrite circularity_of_value. simpl.
      destruct (IH (S i) (rectangle res (x, y) (x + w, y + h)%Z
                            (0, 255, 0)%Z 2%Z)
                   (ms ++ [measurement i (contourArea c) x y w h
                             (circularity_of c) pmm]))
        as [res' Hres'].
      exists res'. rewrite Hres', <- app_assoc. reflexivity.
Qed.

Lemma measure_dimensions_readable (path : string) (pmm : R) (img : Mat) :
  imread path 0%Z = Some img ->
  exists res',
    measure_dimensions path pmm
    = Ok {| MeasureResult.measurements :=
              measured pmm 0 (findContours (Canny img 50 150) 1%Z 2%Z);
            MeasureResult.annotated_image := res' |}.
Proof.
  intros Himg. unfold measure_dimensions. rewrite Himg.
  destruct (measure_dimensions_loop_total pmm
              (findContours (Canny img 50 150) 1%Z 2%Z) 0
              (cvtColor img 8%Z) []) as [res' Hres'].
  exists res'. rewrite Hres'. reflexivity.
Qed.

Lemma measure_dimensions_raises (path : string) (pmm : R) (e : exn) :
  measure_dimensions path pmm = Raise e ->
  imread path 0%Z = None /\ e = cv2_error.
Proof.
  destruct (imread path 0%Z) as [img|] eqn:Himg.
  - destruct (measure_dimensions_readable path pmm img Himg) as [res' ->].
    discriminate.
  - unfold measure_dimensions. rewrite Himg.
    intros H. injection H as <-. split; reflexivity.
Qed.

(** Each appended dictionary comes from a contour that passed the area
    filter, and carries that contour's position in the list. *)
Lemma measured_In (pmm : R) (cnt : list Contour) :
  forall (i : nat) (m : Measurement.t),
  In m (measured pmm i cnt) ->
  exists (j : nat) (c : Contour),
    nth_error cnt j = Some c /\ ~ contourArea c < 100 /\
    m = measurement_of pmm (i + j) c.
Proof.
  induction cnt as [|c cnt IH]; intros i m Hm; simpl in Hm; [contradiction|].
  destruct (Rlt_dec (contourArea c) 100) as [Hsmall|Hbig].
  - destruct (IH (S i) m Hm) as (j & c' & Hj & Hc' & ->).
    exists (S j), c'. repeat split; try assumption.
    now rewrite Nat.add_succ_r.
  - destruct Hm as [<- | Hm].
    + exists 0%nat, c. repeat split; try assumption.
      now rewrite Nat.add_0_r.
    + destruct (IH (S i) m Hm) as (j & c' & Hj & Hc' & ->).
      exists (S j), c'. repeat split; try assumption.
      now rewrite Nat.add_succ_r.
Qed.



Lemma measurement_of_fields (pmm : R) (i : nat) (c : Contour) :
  let m := measurement_of pmm i c in
  Measurement.object_id m = (Z.of_nat i + 1)%Z /\
  Measurement.shape m
    = (if Rlt_dec (8 / 10) (circularity_of c)
       then "circle"%string else "rectangle"%string) /\
  Measurement.diameter_mm m
    = (if Rlt_dec (8 / 10) (circularity_of c)
       then Some (round2 (2 * sqrt (contourArea c / PI) * pmm))
       else None).
Proof.
  unfold measurement_of. destruct (boundingRect c) as [[[x y] w] h].
  simpl. repeat split.
Qed.
End MeasurerFacts.

Section NumericFacts.




Lemma rint_IZR (z : Z) : Py.rint (IZR z) = z.
Proof.
  unfold Py.rint.
  replace (Int_part (IZR z)) with z by (apply Int_part_spec; lra).
  destruct (Rlt_dec (IZR z - IZR z) (1 / 2)); [reflexivity | lra].
Qed.

Lemma rint_near (y : R) (k : Z) :
  IZR k - 1 / 2 < y < IZR k + 1 / 2 -> Py.rint y = k.
Proof.
  intros [Hlo Hhi]. unfold Py.rint.
  destruct (Rlt_dec y (IZR k)) as [Hbelow|Habove].
  - replace (Int_part y) with (k - 1)%Z
      by (apply Int_part_spec; rewrite minus_IZR; lra).
    rewrite minus_IZR.
    destruct (Rlt_dec (y - (IZR k - 1)) (1 / 2)); [lra|].
    destruct (Rlt_dec (1 / 2) (y - (IZR k - 1))); [lia | lra].
  - replace (Int_part y) with k by (apply Int_part_spec; lra).
    destruct (Rlt_dec (y - IZR k) (1 / 2)); [reflexivity | lra].
Qed.

Lemma round2_near (x : R) (k : Z) :
  IZR k - 1 / 2 < x * 100 < IZR k + 1 / 2 -> Py.round2 x = IZR k / 100.
Proof.
  intros H. unfold Py.round2. now rewrite (rint_near _ k H).
Qed.

Lemma arctan2_level (x : R) : 0 < x -> Py.arctan2 0 x = 0.
Proof.
  intros Hx. unfold Py.arctan2. destruct (Rlt_dec 0 x); [|contradiction].
  replace (0 / x) with 0 by (field; lra). exact atan_0.
Qed.

Lemma truediv_raises (x y : R) (e : Py.exn) :
  Py.truediv x y = Py.Raise e <-> y = 0 /\ e = Py.ZeroDivisionError.
Proof.
  unfold Py.truediv. destruct (Req_dec_T y 0) as [Hy|Hy]; split.
  - intros H. injection H as <-. now split.
  - intros [_ ->]. reflexivity.
  - discriminate.
  - intros [Hy' _]. contradiction.
Qed.

End NumericFacts.

Section BenchGeometry.
Import Bench.

Lemma polygon_area_square_3 : polygon_area (square 3) = 9.
Proof.
  unfold polygon_area.
  change (shoelace (hd (0, 0)%Z (square 3)) (square 3)) with (-18)%Z.
  rewrite Rabs_left by lra. lra.
Qed.

Lemma polygon_area_square_20 : polygon_area (square 20) = 400.
Proof.
  unfold polygon_area.
  change (shoelace (hd (0, 0)%Z (square 20)) (square 20)) with (-800)%Z.
  rewrite Rabs_left by lra. lra.
Qed.



Variable circles : option (list (R * R * R)).

Lemma measured_small_then_large (pmm : R) :
  let cv := backend "panel.png" striped_panel [square 3; square 20] circles in
  AOIService.measured (cv := cv) pmm 0 [square 3; square 20]
  = [AOIService.measurement_of (cv := cv) pmm 1 (square 20)].
Proof.
  intros cv. unfold AOIService.measured.
  change (cv2.contourArea (square 3)) with (polygon_area (square 3)).
  change (cv2.contourArea (square 20)) with (polygon_area (square 20)).
  rewrite polygon_area_square_3, polygon_area_square_20.
  destruct (Rlt_dec 9 100); [|lra].
  destruct (Rlt_dec 400 100); [lra|]. reflexivity.
Qed.

Lemma measured_large (pmm : R) :
  let cv := backend "panel.png" striped_panel [square 20] circles in
  AOIService.measured (cv := cv) pmm 0 [square 20]
  = [AOIService.measurement_of (cv := cv) pmm 0 (square 20)].
Proof.
  intros cv. unfold AOIService.measured.
  change (cv2.contourArea (square 20)) with (polygon_area (square 20)).
  rewrite polygon_area_square_20.
  destruct (Rlt_dec 400 100); [lra|]. reflexivity.
Qed.
End BenchGeometry.

Section IdentifierFacts.
Import cv2 Py AOIService.
Context {cv : OpenCV}.

Lemma detect_defects_ids (path : string) (t_path : option string)
    (threshold : Z) (r : DefectResult.t) :
  detect_defects path t_path threshold = Ok r ->
  map Defect.id (DefectResult.defects r)
  = map (fun k => (Z.of_nat k + 1)%Z)
        (seq 0 (List.length (DefectResult.defects r))).
Proof.
  unfold detect_defects. destruct (imread path 0%Z) as [img|];
    [|discriminate].
  destruct (fits_double threshold); [|discriminate].
  destruct (cv2.threshold _ threshold 255 0) as [retval th].
  pose proof (detect_defects_loop_ids
                (findContours
                   (morphologyEx th 2%Z (getStructuringElement 2%Z (5, 5)%Z))
                   1%Z 2%Z)
                (cvtColor img 8%Z) [] eq_refl) as Hids.
  destruct (detect_defects_loop _ _ _) as [res defs].
  intros H. injection H as <-. exact Hids.
Qed.
End IdentifierFacts.

(** C6. The defect detector numbers its records 1, 2, ..., n in discovery
    order whatever the area filter discarded.  The measurer does not: on a
    panel whose contours are, in discovery order, a 3x3 square (area 9,
    discarded) and a 20x20 square (area 400, kept), the first and only
    measurement has object_id 2. *)
Theorem record_identifiers :
  (forall (cv : cv2.OpenCV) (path : string) (t_path : option string)
          (threshold : Z) (r : DefectResult.t),
     AOIService.detect_defects path t_path threshold = Py.Ok r ->
     map Defect.id (DefectResult.defects r)
     = map (fun k => (Z.of_nat k + 1)%Z)
           (seq 0 (List.length (DefectResult.defects r)))) /\
  (let cv := Bench.backend "panel.png" Bench.striped_panel
               [Bench.square 3; Bench.square 20] None in
   exists r,
     AOIService.measure_dimensions (cv := cv) "panel.png" (1 / 10) = Py.Ok r /\
     map Measurement.object_id (MeasureResult.measurements r) = [2%Z]).
Proof.
  split.
  - intros cv. apply detect_defects_ids.
  - cbv zeta.
    destruct (measure_dimensions_readable
                (cv := Bench.backend "panel.png" Bench.striped_panel
                         [Bench.square 3; Bench.square 20] None)
                "panel.png" (1 / 10) Bench.striped_panel eq_refl)
      as [res' Hres'].
    eexists. split; [exact Hres'|]. cbn [MeasureResult.measurements].
    change (cv2.findContours _ 1%Z 2%Z) with [Bench.square 3; Bench.square 20].
    pose proof (measured_small_then_large None (1 / 10)) as Hms.
    cbv zeta in Hms. rewrite Hms. cbn [map].
    destruct (measurement_of_fields
                (cv := Bench.backend "panel.png" Bench.striped_panel
                         [Bench.square 3; Bench.square 20] None)
                (1 / 10) 1 (Bench.square 20)) as [Hid _].
    rewrite Hid. reflexivity.
Qed.




(** C9. The circularity of a contour whose perimeter is 0 is 0; the division
    4*pi*area/perimeter^2, which raises on a zero divisor, is evaluated only
    for a positive perimeter, hence never with a zero divisor, so computing
    the circularity never raises, the measurement loop always returns, and
    the measurer returns on every readable image (its only exception being
    OpenCV's error on an unreadable one). *)
Theorem circularity_of_degenerate_contour :
  (forall a p : R, p = 0 -> AOIService.circularity a p = Py.Ok 0) /\
  (forall (x y : R) (e : Py.exn),
     Py.truediv x y = Py.Raise e <-> y = 0 /\ e = Py.ZeroDivisionError) /\
  (forall a p : R, 0 < p ->
     p * p <> 0 /\
     AOIService.circularity a p = Py.Ok (4 * PI * a / (p * p))) /\
  (forall (a p : R) (e : Py.exn), AOIService.circularity a p <> Py.Raise e) /\
  (forall (cv : cv2.OpenCV) (pmm : R) (cnt : list cv2.Contour) (i : nat)
          (res : cv2.Mat3) (ms : list Measurement.t),
     exists out, AOIService.measure_dimensions_loop pmm i cnt res ms
                 = Py.Ok out) /\
  (forall (cv : cv2.OpenCV) (path : string) (pmm : R) (img : cv2.Mat),
     cv2.imread path 0%Z = Some img ->
     exists r, AOIService.measure_dimensions path pmm = Py.Ok r) /\
  (forall (cv : cv2.OpenCV) (path : string) (pmm : R) (e : Py.exn),
     AOIService.measure_dimensions path pmm = Py.Raise e ->
     cv2.imread path 0%Z = None /\ e = Py.cv2_error).
Proof.
  split; [|split; [|split; [|split; [|split; [|split]]]]].
  - intros a p ->. rewrite circularity_value.
    destruct (Rlt_dec 0 0); [lra | reflexivity].
  - apply truediv_raises.
  - intros a p Hp. split; [nra|]. rewrite circularity_value.
    destruct (Rlt_dec 0 p); [reflexivity | contradiction].
  - intros a p e. rewrite circularity_value. discriminate.
  - intros cv pmm cnt i res ms.
    destruct (measure_dimensions_loop_total pmm cnt i res ms) as [res' H].
    eexists. exact H.
  - intros cv path pmm img Himg.
    destruct (measure_dimensions_readable path pmm img Himg) as [res' H].
    eexists. exact H.
  - intros cv. apply measure_dimensions_raises.
Qed.

Lemma circularity_of_degenerate_contour_witness :
  AOIService.circularity 400 0 = Py.Ok 0.
Proof.
  apply (proj1 circularity_of_degenerate_contour 400 0). reflexivity.
Defined.

(* ================================================================== *)
(** * The fiducial locator *)
(* ================================================================== *)

Section FiducialFacts.
Import cv2 Py AOIService.

Lemma angle_of_marks_none (ms : list Mark.t) :
  angle_of_marks ms = None <-> (List.length ms < 2)%nat.
Proof.
  destruct ms as [|m1 [|m2 ms]]; simpl; split; intros H;
    try reflexivity; try discriminate; try lia.
Qed.

Lemma rounded_if_truthy_none (ang : option R) :
  rounded_if_truthy ang = None <-> ang = None \/ ang = Some 0.
Proof.
  unfold rounded_if_truthy, truthy. destruct ang as [a|].
  - destruct (Req_dec_T a 0) as [Ha|Ha]; split.
    + intros _. right. now subst a.
    + reflexivity.
    + discriminate.
    + intros [H|H]; [discriminate|]. injection H as H. contradiction.
  - split; [now left | reflexivity].
Qed.

Lemma rounded_if_truthy_some (ang : option R) (x : R) :
  rounded_if_truthy ang = Some x ->
  exists a, ang = Some a /\ a <> 0 /\ x = round2 a.
Proof.
  unfold rounded_if_truthy, truthy. destruct ang as [a|]; [|discriminate].
  destruct (Req_dec_T a 0) as [Ha|Ha]; [discriminate|].
  intros H. injection H as <-. now exists a.
Qed.

Context {cv : OpenCV}.

(** The reported rotation is computed from the reported marks. *)
Lemma detect_fiducial_marks_rotation (path : string) (minr maxr : Z)
    (r : FiducialResult.t) :
  detect_fiducial_marks path minr maxr = Ok r ->
  FiducialResult.rotation_angle r
  = rounded_if_truthy (angle_of_marks (FiducialResult.marks r)).
Proof.
  unfold detect_fiducial_marks. destruct (imread path 0%Z) as [img|];
    [|discriminate].
  destruct (is_int minr && is_int maxr); [|discriminate].
  destruct (HoughCircles _ 3%Z 1 100 100 30 minr maxr) as [circles|].
  - destruct (detect_fiducial_marks_loop 0 _ _ _) as [res ms].
    intros H. injection H as <-. reflexivity.
  - intros H. injection H as <-. reflexivity.
Qed.
End FiducialFacts.

(** C4.  The rotation estimate is absent exactly when fewer than two marks
    were detected or the angle between the first two is exactly 0; when
    present it is that angle rounded to two decimals.  In particular, for
    two detected circles at (10, 10) and (50, 10) the locator returns both
    marks, the angle between them is 0 degrees, and the rotation estimate is
    absent although the claim requires it to be present (0.0). *)
Theorem rotation_estimate_presence :
  (forall (cv : cv2.OpenCV) (path : string) (minr maxr : Z)
          (r : FiducialResult.t),
     AOIService.detect_fiducial_marks path minr maxr = Py.Ok r ->
     (FiducialResult.rotation_angle r = None <->
      (List.length (FiducialResult.marks r) < 2)%nat \/
      AOIService.angle_of_marks (FiducialResult.marks r) = Some 0) /\
     (forall x, FiducialResult.rotation_angle r = Some x ->
        exists a, AOIService.angle_of_marks (FiducialResult.marks r) = Some a /\
                  x = Py.round2 a)) /\
  (let cv := Bench.backend "panel.png" Bench.striped_panel []
               (Some [(10, 10, 5); (50, 10, 5)]) in
   exists r,
     AOIService.detect_fiducial_marks (cv := cv) "panel.png" 5 25 = Py.Ok r /\
     FiducialResult.marks r
       = [ {| Mark.id := 1;
              Mark.position := {| Position.x := 10; Position.y := 10 |};
              Mark.radius := 5 |};
           {| Mark.id := 2;
              Mark.position := {| Position.x := 50; Position.y := 10 |};
              Mark.radius := 5 |} ] /\
     AOIService.angle_of_marks (FiducialResult.marks r) = Some 0 /\
     FiducialResult.rotation_angle r = None).
Proof.
  split.
  - intros cv path minr maxr r Hr.
    rewrite (detect_fiducial_marks_rotation path minr maxr r Hr). split.
    + rewrite rounded_if_truthy_none, angle_of_marks_none. tauto.
    + intros x Hx. destruct (rounded_if_truthy_some _ _ Hx) as (a & Ha & _ & ->).
      now exists a.
  - cbv zeta.
    assert (Hangle : AOIService.angle_of_marks
                       [ {| Mark.id := 1;
                            Mark.position :=
                              {| Position.x := 10; Position.y := 10 |};
                            Mark.radius := 5 |};
                         {| Mark.id := 2;
                            Mark.position :=
                              {| Position.x := 50; Position.y := 10 |};
                            Mark.radius := 5 |} ] = Some 0).
    { unfold AOIService.angle_of_marks. cbn [Mark.position Position.x Position.y].
      change (10 - 10)%Z with 0%Z. change (50 - 10)%Z with 40%Z.
      rewrite arctan2_level by lra. unfold Py.degrees. f_equal. lra. }
    eexists. split; [|split; [|split]].
    + unfold AOIService.detect_fiducial_marks.
      cbn [cv2.imread cv2.HoughCircles cv2.GaussianBlur cv2.cvtColor
           Bench.backend].
      change (String.eqb "panel.png" "panel.png") with true. cbv iota.
      change (cv2.is_int 5 && cv2.is_int 25) with true. cbv iota.
      unfold AOIService.uint16_around. cbn [map].
      rewrite !rint_IZR.
      change (Py.uint16 10) with 10%Z. change (Py.uint16 50) with 50%Z.
      change (Py.uint16 5) with 5%Z.
      cbn [AOIService.detect_fiducial_marks_loop cv2.circle Bench.backend app
           Z.of_nat].
      reflexivity.
    + cbn [FiducialResult.marks]. reflexivity.
    + cbn [FiducialResult.marks]. exact Hangle.
    + cbn [FiducialResult.rotation_angle].
      apply rounded_if_truthy_none. right. exact Hangle.
Qed.

(* ================================================================== *)
(** * The gripper compensation *)
(* ================================================================== *)

Section GripperFacts.
Import Rotation.

(** The first loop subtracts whole turns until the angle is at most 180. *)
Lemma while_above_spec (c : R) :
  exists k : Z,
    while_above c = c - 360 * IZR k /\
    while_above c <= 180 /\
    (180 < c -> -180 < while_above c) /\
    (c <= 180 -> while_above c = c).
Proof.
  funelim (while_above c).
  - destruct H as (k & Hk & Hle & Hgt & Hfix).
    exists (k + 1)%Z. rewrite plus_IZR. split; [lra|]. split; [exact Hle|].
    split; [|lra]. intros _.
    destruct (Rlt_dec 180 (c - 360)) as [Hfar|Hnear].
    + auto.
    + rewrite Hfix by lra. lra.
  - exists 0%Z. simpl. repeat split; lra.
Qed.

(** The second loop adds whole turns until the angle is at least -180. *)
Lemma while_below_spec (c : R) :
  exists k : Z,
    while_below c = c + 360 * IZR k /\
    -180 <= while_below c /\
    (c < -180 -> while_below c < 180) /\
    (-180 <= c -> while_below c = c).
Proof.
  funelim (while_below c).
  - destruct H as (k & Hk & Hle & Hgt & Hfix).
    exists (k + 1)%Z. rewrite plus_IZR. split; [lra|]. split; [exact Hle|].
    split; [|lra]. intros _.
    destruct (Rlt_dec (c + 360) (-180)) as [Hfar|Hnear].
    + auto.
    + rewrite Hfix by lra. lra.
  - exists 0%Z. simpl. repeat split; lra.
Qed.

Lemma gripper_rotation_bounds (d r : R) :
  -180 <= calculate_gripper_rotation d r <= 180 /\
  exists k : Z, calculate_gripper_rotation d r = d - r + 360 * IZR k.
Proof.
  unfold calculate_gripper_rotation. cbv zeta. set (c := d - r).
  destruct (while_above_spec c) as (k1 & Hk1 & Hle1 & Hgt1 & Hfix1).
  destruct (while_below_spec (while_above c))
    as (k2 & Hk2 & Hle2 & Hlt2 & Hfix2).
  split.
  - split; [exact Hle2|].
    destruct (Rlt_dec (while_above c) (-180)) as [Hlow|Hok].
    + left. now apply Hlt2.
    + rewrite Hfix2 by lra. exact Hle1.
  - exists (k2 - k1)%Z. rewrite minus_IZR, Hk2, Hk1. lra.
Qed.

Lemma gripper_rotation_unchanged (d r : R) :
  -180 <= d - r <= 180 -> calculate_gripper_rotation d r = d - r.
Proof.
  intros [Hlo Hhi]. unfold calculate_gripper_rotation. cbv zeta.
  destruct (while_above_spec (d - r)) as (_ & _ & _ & _ & Hfix1).
  rewrite Hfix1 by exact Hhi.
  destruct (while_below_spec (d - r)) as (_ & _ & _ & _ & Hfix2).
  now apply Hfix2.
Qed.

Lemma gripper_rotation_one_turn (d r : R) :
  180 < d - r <= 540 -> calculate_gripper_rotation d r = d - r - 360.
Proof.
  intros [Hlo Hhi]. unfold calculate_gripper_rotation. cbv zeta.
  rewrite while_above_equation_1.
  destruct (Rlt_dec 180 (d - r)) as [Hyes|Hno]; [|contradiction].
  cbn [while_above_unfold_clause_1].
  destruct (while_above_spec (d - r - 360)) as (_ & _ & _ & _ & Hfix1).
  rewrite Hfix1 by lra.
  destruct (while_below_spec (d - r - 360)) as (_ & _ & _ & _ & Hfix2).
  apply Hfix2. lra.
Qed.

End GripperFacts.

(** X1. For a detected and a reference angle whose difference is at most
    2^53 in magnitude, the range in which the loops run without rounding
    on binary64, the gripper compensation lies in [-180, 180] and differs
    from detected - reference by a whole number of turns, at most
    (|detected - reference| + 180) / 360 of them. *)
Theorem calculate_gripper_rotation_range (detected_angle reference_angle : R) :
  Rabs (detected_angle - reference_angle) <= Rotation.binary64_exact ->
  -180 <= Rotation.calculate_gripper_rotation detected_angle reference_angle
       <= 180 /\
  exists k : Z,
    Rotation.calculate_gripper_rotation detected_angle reference_angle
    = detected_angle - reference_angle + 360 * IZR k /\
    Rabs (IZR k) <= (Rabs (detected_angle - reference_angle) + 180) / 360.
Proof.
  intros _.
  destruct (gripper_rotation_bounds detected_angle reference_angle)
    as [Hrange [k Hk]].
  split; [exact Hrange|]. exists k. split; [exact Hk|].
  set (c := detected_angle - reference_angle) in *.
  set (g := Rotation.calculate_gripper_rotation detected_angle
              reference_angle) in *.
  unfold Rabs. destruct (Rcase_abs (IZR k)); destruct (Rcase_abs c); lra.
Qed.

Lemma calculate_gripper_rotation_range_witness :
  -180 <= Rotation.calculate_gripper_rotation 370 0 <= 180.
Proof.
  apply (calculate_gripper_rotation_range 370 0).
  unfold Rotation.binary64_exact. rewrite Rabs_right; lra.
Defined.

(** X2. A difference detected - reference that already lies in [-180, 180]
    is returned unchanged, both 180 and -180 included; one in (180, 540] is
    returned less one turn. *)
Theorem calculate_gripper_rotation_fixed (detected_angle reference_angle : R) :
  (-180 <= detected_angle - reference_angle <= 180 ->
   Rotation.calculate_gripper_rotation detected_angle reference_angle
   = detected_angle - reference_angle) /\
  (180 < detected_angle - reference_angle <= 540 ->
   Rotation.calculate_gripper_rotation detected_angle reference_angle
   = detected_angle - reference_angle - 360).
Proof.
  split; [apply gripper_rotation_unchanged | apply gripper_rotation_one_turn].
Qed.

Lemma calculate_gripper_rotation_fixed_witness :
  Rotation.calculate_gripper_rotation 37 0 = 37 - 0 /\
  Rotation.calculate_gripper_rotation 300 0 = 300 - 0 - 360.
Proof.
  split.
  - apply (proj1 (calculate_gripper_rotation_fixed 37 0)). lra.
  - apply (proj2 (calculate_gripper_rotation_fixed 300 0)). lra.
Defined.

(* ================================================================== *)
(** * The normalisations compared by debug_angle.py *)
(* ================================================================== *)

(** X3. On every rectangle whose raw angle lies in [-90, 270), which
    covers both angle conventions of minAreaRect, the three normalisations
    that debug_angle.py compares return the same angle, so that the script
    reports the same angle and the same error for all three. *)
Theorem normalisation_methods_agree (rect : Orientation.RotatedRect)
    (true_angle : R) :
  -90 <= Orientation.angle rect < 270 ->
  DebugAngle.normalized_angle1 rect = DebugAngle.angle_from_points rect /\
  DebugAngle.normalized_angle2 rect = DebugAngle.angle_from_points rect /\
  Orientation.fix_180_ambiguity (DebugAngle.normalized_angle1 rect) true_angle
  = Orientation.fix_180_ambiguity (DebugAngle.angle_from_points rect)
      true_angle /\
  Orientation.fix_180_ambiguity (DebugAngle.normalized_angle2 rect) true_angle
  = Orientation.fix_180_ambiguity (DebugAngle.angle_from_points rect)
      true_angle.
Proof.
  intros [Hlo Hhi].
  assert (H1 : DebugAngle.normalized_angle1 rect
               = DebugAngle.angle_from_points rect).
  { unfold DebugAngle.normalized_angle1, DebugAngle.angle_from_points,
      Orientation.normalize_angle.
    destruct (Orientation.size rect) as [width height].
    destruct (Rlt_dec width height) as [Hswap|Hkeep].
    - destruct (Rlt_dec (90 + Orientation.angle rect) 0); [lra | reflexivity].
    - destruct (Rlt_dec (Orientation.angle rect) 0) as [Hneg|Hpos].
      + rewrite (fmod_unique _ 360 (-1)) by (simpl; lra). simpl. lra.
      + apply fmod_small. lra. }
  assert (H2 : DebugAngle.normalized_angle2 rect
               = DebugAngle.angle_from_points rect).
  { unfold DebugAngle.normalized_angle2, DebugAngle.angle_from_points,
      Orientation.normalize_angle.
    destruct (Orientation.size rect) as [width height].
    destruct (Rlt_dec width height) as [Hswap|Hkeep].
    - destruct (Rlt_dec (90 + Orientation.angle rect) 0); [lra|].
      destruct (Rlt_dec (Orientation.angle rect) 0) as [Hneg|Hpos].
      + rewrite (fmod_unique _ 360 1) by (simpl; lra). simpl. lra.
      + rewrite fmod_small by lra. lra.
    - reflexivity. }
  rewrite H1, H2. repeat split.
Qed.

Lemma normalisation_methods_agree_witness :
  DebugAngle.normalized_angle1
    {| Orientation.center := (250, 250); Orientation.size := (80, 150);
       Orientation.angle := -53 |}
  = DebugAngle.angle_from_points
      {| Orientation.center := (250, 250); Orientation.size := (80, 150);
         Orientation.angle := -53 |}.
Proof.
  apply (normalisation_methods_agree
           {| Orientation.center := (250, 250); Orientation.size := (80, 150);
              Orientation.angle := -53 |} 37).
  simpl. lra.
Defined.

(** X4. Applying the 180-degree correction to its own result changes
    nothing: for an angle in [0, 360) the corrected angle is again in
    [0, 360), its error does not exceed the error before the correction, and
    a second correction returns the same angle and error. *)
Theorem fix_180_ambiguity_idempotent (angle true_angle : R) :
  0 <= angle < 360 ->
  let r := Orientation.fix_180_ambiguity angle true_angle in
  0 <= fst r < 360 /\
  snd r <= Rabs (angle - true_angle) /\
  Orientation.fix_180_ambiguity (fst r) true_angle = r.
Proof.
  intros Ha. cbv zeta.
  assert (Hflip : 0 <= Py.fmod (angle + 180) 360 < 360)
    by (apply fmod_range; lra).
  assert (Hback : Py.fmod (Py.fmod (angle + 180) 360 + 180) 360 = angle).
  { destruct (Rlt_dec angle 180) as [Hsmall|Hbig].
    - rewrite (fmod_small (angle + 180)) by lra.
      rewrite (fmod_unique _ 360 1) by (simpl; lra). simpl. lra.
    - rewrite (fmod_unique (angle + 180) 360 1) by (simpl; lra). simpl.
      rewrite fmod_small by lra. lra. }
  set (flipped := Py.fmod (angle + 180) 360) in *.
  assert (Hcases :
    (Orientation.fix_180_ambiguity angle true_angle
       = (flipped, Rabs (flipped - true_angle)) /\
     Rabs (flipped - true_angle) < Rabs (angle - true_angle)) \/
    Orientation.fix_180_ambiguity angle true_angle
      = (angle, Rabs (angle - true_angle))).
  { unfold Orientation.fix_180_ambiguity. cbv zeta. fold flipped.
    destruct (Rlt_dec 90 (Rabs (angle - true_angle))); [|now right].
    destruct (Rlt_dec (Rabs (flipped - true_angle))
                      (Rabs (angle - true_angle))); [left | right];
      now try split. }
  destruct Hcases as [[-> Hbetter] | Hkept]; cbn [fst snd].
  - split; [exact Hflip|]. split; [lra|].
    unfold Orientation.fix_180_ambiguity. cbv zeta. rewrite Hback.
    destruct (Rlt_dec 90 (Rabs (flipped - true_angle))); [|reflexivity].
    destruct (Rlt_dec (Rabs (angle - true_angle))
                      (Rabs (flipped - true_angle)));
      [lra | reflexivity].
  - rewrite Hkept. cbn [fst snd].
    split; [exact Ha|]. split; [lra | exact Hkept].
Qed.

Lemma fix_180_ambiguity_idempotent_witness :
  Orientation.fix_180_ambiguity
    (fst (Orientation.fix_180_ambiguity 300 120)) 120
  = Orientation.fix_180_ambiguity 300 120.
Proof.
  apply (fix_180_ambiguity_idempotent 300 120). lra.
Defined.

(* ================================================================== *)
(** * Selecting and ordering contours *)
(* ================================================================== *)

Section BuiltinFacts.
Import Builtins.
Context {A : Type}.
Variable key : A -> R.

(** [max] returns the first element of the list whose key is maximal. *)
Lemma max_key_split (l : list A) :
  forall (best : A) (before skipped : list A),
  Forall (fun a => key a < key best) before ->
  Forall (fun a => key a <= key best) skipped ->
  exists pre post,
    before ++ best :: skipped ++ l = pre ++ max_key key best l :: post /\
    Forall (fun a => key a < key (max_key key best l)) pre /\
    Forall (fun a => key a <= key (max_key key best l)) post.
Proof.
  induction l as [|a l IH]; intros best before skipped Hbefore Hskipped.
  - exists before, skipped. rewrite app_nil_r. simpl. auto.
  - simpl. destruct (Rlt_dec (key best) (key a)) as [Hlt|Hge].
    + destruct (IH a (before ++ best :: skipped) []) as (pre & post & Heq & H).
      * apply Forall_app. split.
        -- eapply Forall_impl; [|exact Hbefore]. simpl. intros; lra.
        -- constructor; [exact Hlt|].
           eapply Forall_impl; [|exact Hskipped]. simpl. intros; lra.
      * constructor.
      * exists pre, post. split; [|exact H].
        rewrite <- Heq, <- app_assoc. reflexivity.
    + destruct (IH best before (skipped ++ [a]) Hbefore)
        as (pre & post & Heq & H).
      * apply Forall_app. split; [exact Hskipped|].
        constructor; [lra | constructor].
      * exists pre, post. split; [|exact H].
        rewrite <- Heq, <- app_assoc. reflexivity.
Qed.

Lemma max_key_spec (best : A) (l : list A) :
  exists pre post,
    best :: l = pre ++ max_key key best l :: post /\
    Forall (fun a => key a < key (max_key key best l)) pre /\
    Forall (fun a => key a <= key (max_key key best l)) post.
Proof.
  exact (max_key_split l best [] [] (Forall_nil _) (Forall_nil _)).
Qed.

Lemma max_key_ge (best : A) (l : list A) :
  key best <= key (max_key key best l).
Proof.
  destruct (max_key_spec best l) as (pre & post & Heq & Hpre & Hpost).
  destruct pre as [|b pre]; simpl in Heq; injection Heq as Hb Hl.
  - rewrite <- Hb. lra.
  - subst b. inversion Hpre; subst. lra.
Qed.

Lemma max_key_cons (best a : A) (l : list A) :
  max_key key best (a :: l)
  = if Rlt_dec (key best) (key (max_key key a l)) then max_key key a l
    else best.
Proof.
  revert best a. induction l as [|c l IH]; intros best a.
  - reflexivity.
  - change (max_key key best (a :: c :: l))
      with (if Rlt_dec (key best) (key a) then max_key key a (c :: l)
            else max_key key best (c :: l)).
    pose proof (max_key_ge a (c :: l)) as Hge.
    destruct (Rlt_dec (key best) (key a)) as [Hlt|Hnlt].
    + destruct (Rlt_dec (key best) (key (max_key key a (c :: l))));
        [reflexivity | lra].
    + rewrite (IH best c). rewrite (IH a c) in Hge |- *.
      destruct (Rlt_dec (key a) (key (max_key key c l))) as [Ha|Ha].
      * reflexivity.
      * destruct (Rlt_dec (key best) (key (max_key key c l))) as [Hb|Hb];
          [lra|].
        destruct (Rlt_dec (key best) (key a)); [contradiction | reflexivity].
Qed.

Lemma insert_reverse_perm (a : A) (l : list A) :
  Permutation (a :: l) (insert_reverse key a l).
Proof.
  induction l as [|b l IH]; simpl; [reflexivity|].
  destruct (Rlt_dec (key a) (key b)); [|reflexivity].
  rewrite perm_swap. now constructor.
Qed.

Lemma sorted_reverse_perm (l : list A) : Permutation l (sorted_reverse key l).
Proof.
  induction l as [|a l IH]; simpl; [constructor|].
  rewrite <- insert_reverse_perm. now constructor.
Qed.

Lemma insert_reverse_sorted (a : A) (l : list A) :
  StronglySorted (fun x y => key y <= key x) l ->
  StronglySorted (fun x y => key y <= key x) (insert_reverse key a l).
Proof.
  induction 1 as [|b l Hl IH Hb]; simpl.
  - repeat constructor.
  - destruct (Rlt_dec (key a) (key b)) as [Hlt|Hge].
    + constructor; [exact IH|].
      rewrite <- insert_reverse_perm. constructor; [lra | exact Hb].
    + constructor; [now constructor|].
      constructor; [lra|].
      eapply Forall_impl; [|exact Hb]. simpl. intros; lra.
Qed.

Lemma sorted_reverse_sorted (l : list A) :
  StronglySorted (fun x y => key y <= key x) (sorted_reverse key l).
Proof.
  induction l as [|a l IH]; simpl; [constructor|].
  now apply insert_reverse_sorted.
Qed.

(** The head of the sorted list is the element that [max] selects. *)
Lemma sorted_reverse_head (a : A) (l : list A) (d : A) :
  nth 0 (sorted_reverse key (a :: l)) d = max_key key a l.
Proof.
  revert a. induction l as [|c l IH]; intros a; [reflexivity|].
  rewrite max_key_cons, <- (IH c).
  change (sorted_reverse key (a :: c :: l))
    with (insert_reverse key a (sorted_reverse key (c :: l))).
  pose proof (Permutation_length (sorted_reverse_perm (c :: l))) as Hlen.
  destruct (sorted_reverse key (c :: l)) as [|b s]; [discriminate|].
  simpl. destruct (Rlt_dec (key a) (key b)); reflexivity.
Qed.

End BuiltinFacts.

Section AngleFacts.
Import Py Builtins.

Lemma atan_nonpos (t : R) : t <= 0 -> atan t <= 0.
Proof.
  intros [Ht| ->]; [|rewrite atan_0; lra].
  left. rewrite <- atan_0. now apply atan_increasing.
Qed.

Lemma atan_nonneg (t : R) : 0 <= t -> 0 <= atan t.
Proof.
  intros [Ht| <-]; [|rewrite atan_0; lra].
  left. rewrite <- atan_0. now apply atan_increasing.
Qed.

Lemma div_sign_opposite (y x : R) : 0 <= y -> x < 0 -> y / x <= 0.
Proof.
  intros Hy Hx. unfold Rdiv.
  pose proof (Rinv_lt_0_compat x Hx). nra.
Qed.

Lemma div_sign_both_negative (y x : R) : y < 0 -> x < 0 -> 0 < y / x.
Proof.
  intros Hy Hx. unfold Rdiv.
  pose proof (Rinv_lt_0_compat x Hx). nra.
Qed.

Lemma div_sign_nonneg (y x : R) : 0 <= y -> 0 < x -> 0 <= y / x.
Proof.
  intros Hy Hx. unfold Rdiv.
  pose proof (Rinv_0_lt_compat x Hx). nra.
Qed.

Lemma div_sign_negative (y x : R) : y < 0 -> 0 < x -> y / x < 0.
Proof.
  intros Hy Hx. unfold Rdiv.
  pose proof (Rinv_0_lt_compat x Hx). nra.
Qed.

Lemma arctan2_range (y x : R) : - PI < arctan2 y x <= PI.
Proof.
  unfold arctan2. pose proof PI_RGT_0 as Hpi.
  pose proof (atan_bound (y / x)) as [Hlo Hhi].
  destruct (Rlt_dec 0 x) as [Hx|Hx]; [lra|].
  destruct (Rlt_dec x 0) as [Hx'|Hx'].
  - destruct (Rle_dec 0 y) as [Hy|Hy].
    + pose proof (atan_nonpos _ (div_sign_opposite y x Hy Hx')). lra.
    + assert (0 < y / x) by (apply div_sign_both_negative; lra).
      pose proof (atan_increasing 0 (y / x) H) as Hpos.
      rewrite atan_0 in Hpos. lra.
  - destruct (Rlt_dec 0 y); [lra|]. destruct (Rlt_dec y 0); lra.
Qed.

Lemma degrees_bounds (a lo hi : R) :
  lo * PI <= 180 * a <= hi * PI -> lo <= degrees a <= hi.
Proof.
  intros [Hlo Hhi]. pose proof PI_RGT_0 as Hpi. unfold degrees.
  assert (H : a * (180 / PI) * PI = 180 * a) by (field; lra).
  split; apply (Rmult_le_reg_r PI); lra.
Qed.

Lemma degrees_arctan2_range (y x : R) :
  -180 < degrees (arctan2 y x) <= 180.
Proof.
  destruct (arctan2_range y x) as [Hlo Hhi]. pose proof PI_RGT_0 as Hpi.
  unfold degrees.
  assert (H : arctan2 y x * (180 / PI) * PI = 180 * arctan2 y x)
    by (field; lra).
  split.
  - apply (Rmult_lt_reg_r PI); lra.
  - apply (Rmult_le_reg_r PI); lra.
Qed.

Lemma wrap_negative_range (a : R) :
  -180 < a <= 180 -> 0 <= wrap_negative a < 360.
Proof.
  intros Ha. unfold wrap_negative. destruct (Rlt_dec a 0); lra.
Qed.

End AngleFacts.

(* ================================================================== *)
(** * The rotation detectors of the tutorial *)
(* ================================================================== *)

Section RotationFacts.
Import cv2 Py Orientation Builtins Rotation.
Context {cv : OpenCV}.
Variable moments : Contour -> Moments.t.

Lemma centroid_cases (M : Moments.t) :
  (Moments.m00 M = 0 /\ centroid M = Raise ZeroDivisionError) \/
  (Moments.m00 M <> 0 /\
   centroid M = Ok (int (Moments.m10 M / Moments.m00 M),
                    int (Moments.m01 M / Moments.m00 M))).
Proof.
  unfold centroid, truediv.
  destruct (Req_dec_T (Moments.m00 M) 0) as [Hz|Hnz]; [left | right];
    split; auto.
Qed.

Lemma detect_rotation_with_markers_unfold (img : Mat) (c1 c2 : Contour)
    (rest : list Contour) :
  findContours img 0%Z 2%Z = c1 :: c2 :: rest ->
  detect_rotation_with_markers moments img
  = (let contours := sorted_reverse contourArea (c1 :: c2 :: rest) in
     body <- centroid (moments (nth 0 contours c1)) ;;
     mark <- centroid (moments (nth 1 contours c2)) ;;
     Ok (Some (wrap_negative
                 (degrees (arctan2 (IZR (snd mark - snd body))
                                   (IZR (fst mark - fst body)))),
               body, mark))).
Proof.
  intros Hcnt. unfold detect_rotation_with_markers. rewrite Hcnt.
  reflexivity.
Qed.

(** With two contours whose zeroth moments are not 0 the detector
    returns. *)
Lemma detect_rotation_with_markers_returns (img : Mat) (c1 c2 : Contour)
    (rest : list Contour) :
  findContours img 0%Z 2%Z = c1 :: c2 :: rest ->
  (forall c, Moments.m00 (moments c) <> 0) ->
  exists angle body mark,
    detect_rotation_with_markers moments img = Ok (Some (angle, body, mark)).
Proof.
  intros Hcnt Hm. rewrite (detect_rotation_with_markers_unfold _ _ _ _ Hcnt).
  cbv zeta.
  destruct (centroid_cases
              (moments (nth 0 (sorted_reverse contourArea (c1 :: c2 :: rest))
                            c1))) as [[Hz _] | [_ ->]];
    [now apply Hm in Hz|].
  destruct (centroid_cases
              (moments (nth 1 (sorted_reverse contourArea (c1 :: c2 :: rest))
                            c2))) as [[Hz _] | [_ ->]];
    [now apply Hm in Hz|].
  simpl. eauto.
Qed.

End RotationFacts.

(** X5. The rectangle detector answers None exactly when the image has no
    contour; otherwise it reads the rectangle of the first contour of
    maximal area: every earlier contour is strictly smaller, no later one is
    larger, and the angle returned is the normalised angle of that contour's
    rectangle. *)
Theorem detect_rectangle_rotation_largest {cv : cv2.OpenCV}
    (minAreaRect : cv2.Contour -> Orientation.RotatedRect)
    (boxPoints : Orientation.RotatedRect -> list (R * R)) (img : cv2.Mat) :
  match cv2.findContours img 0%Z 2%Z with
  | [] => Rotation.detect_rectangle_rotation minAreaRect boxPoints img = None
  | contours =>
      exists pre c post,
        contours = pre ++ c :: post /\
        Forall (fun c' => cv2.contourArea c' < cv2.contourArea c) pre /\
        Forall (fun c' => cv2.contourArea c' <= cv2.contourArea c) post /\
        Rotation.detect_rectangle_rotation minAreaRect boxPoints img
        = Some (Orientation.normalize_angle (minAreaRect c),
                Orientation.center (minAreaRect c),
                map (fun p : R * R =>
                       (Builtins.int (fst p), Builtins.int (snd p)))
                    (boxPoints (minAreaRect c)))
  end.
Proof.
  unfold Rotation.detect_rectangle_rotation.
  destruct (cv2.findContours img 0%Z 2%Z) as [|c contours]; [reflexivity|].
  destruct (max_key_spec cv2.contourArea c contours)
    as (pre & post & Heq & Hpre & Hpost).
  exists pre, (Builtins.max_key cv2.contourArea c contours), post.
  repeat split; assumption.
Qed.

(** X6. Whenever the marker detector or the principal-axis detector
    returns an angle, that angle lies in [0, 360). *)
Theorem detected_heading_in_range {cv : cv2.OpenCV}
    (moments : cv2.Contour -> Moments.t) (PCACompute : cv2.Contour -> R * R)
    (img : cv2.Mat) (angle : R) :
  (forall body mark,
     Rotation.detect_rotation_with_markers moments img
       = Py.Ok (Some (angle, body, mark)) ->
     0 <= angle < 360) /\
  (forall center axis,
     Rotation.detect_complex_shape_rotation moments PCACompute img
       = Py.Ok (Some (angle, center, axis)) ->
     0 <= angle < 360).
Proof.
  split.
  - intros body mark. unfold Rotation.detect_rotation_with_markers.
    destruct (cv2.findContours img 0%Z 2%Z) as [|c1 [|c2 rest]];
      try discriminate.
    cbv zeta.
    destruct (Rotation.centroid _) as [b|e]; [|discriminate]. cbn [Py.bind].
    destruct (Rotation.centroid _) as [m|e]; [|discriminate]. cbn [Py.bind].
    intros H. injection H as <- _ _.
    apply wrap_negative_range, degrees_arctan2_range.
  - intros center axis. unfold Rotation.detect_complex_shape_rotation.
    destruct (cv2.findContours img 0%Z 2%Z) as [|c contours];
      [discriminate|].
    cbv zeta.
    destruct (Req_dec_T _ 0); [discriminate|].
    destruct (Rotation.centroid _) as [[cx cy]|e]; [|discriminate].
    cbn [Py.bind].
    intros H. injection H as <- _ _.
    apply wrap_negative_range, degrees_arctan2_range.
Qed.

Lemma detected_heading_in_range_witness :
  let cv := Bench.backend "part.png" Bench.striped_panel
              [Bench.square 20; Bench.square 3] None in
  let moments := fun c : cv2.Contour =>
    {| Moments.m00 := 1; Moments.m10 := IZR (fst (hd (0, 0)%Z c));
       Moments.m01 := IZR (snd (hd (0, 0)%Z c)) |} in
  exists angle body mark,
    Rotation.detect_rotation_with_markers (cv := cv) moments
      Bench.striped_panel = Py.Ok (Some (angle, body, mark)) /\
    0 <= angle < 360.
Proof.
  intros cv moments.
  destruct (detect_rotation_with_markers_returns (cv := cv) moments
              Bench.striped_panel (Bench.square 20) (Bench.square 3) []
              eq_refl) as (angle & body & mark & Hrun).
  { intros c. simpl. lra. }
  exists angle, body, mark. split; [exact Hrun|].
  exact (proj1 (detected_heading_in_range (cv := cv) moments
                  (fun _ => (1, 0)) Bench.striped_panel angle)
               body mark Hrun).
Defined.

(** X7. With at least two contours the marker detector divides by the
    zeroth moments of the two largest ones without a test: it raises
    ZeroDivisionError exactly when one of them is 0 and raises nothing else,
    and with fewer than two contours it answers None.  The principal-axis
    detector tests the moment first: it never raises and answers None for a
    largest contour whose zeroth moment is 0. *)
Theorem detect_rotation_with_markers_zero_moment {cv : cv2.OpenCV}
    (moments : cv2.Contour -> Moments.t) (PCACompute : cv2.Contour -> R * R)
    (img : cv2.Mat) :
  match cv2.findContours img 0%Z 2%Z with
  | c1 :: c2 :: rest =>
      let contours :=
        Builtins.sorted_reverse cv2.contourArea (c1 :: c2 :: rest) in
      let main_body := nth 0 contours c1 in
      let marker := nth 1 contours c2 in
      (Rotation.detect_rotation_with_markers moments img
         = Py.Raise Py.ZeroDivisionError <->
       Moments.m00 (moments main_body) = 0 \/
       Moments.m00 (moments marker) = 0) /\
      (forall e, Rotation.detect_rotation_with_markers moments img
                   = Py.Raise e -> e = Py.ZeroDivisionError) /\
      (Moments.m00 (moments main_body) = 0 ->
       Rotation.detect_complex_shape_rotation moments PCACompute img
         = Py.Ok None)
  | _ => Rotation.detect_rotation_with_markers moments img = Py.Ok None
  end /\
  forall e, Rotation.detect_complex_shape_rotation moments PCACompute img
              <> Py.Raise e.
Proof.
  split.
  - destruct (cv2.findContours img 0%Z 2%Z) as [|c1 [|c2 rest]] eqn:Hcnt;
      try (unfold Rotation.detect_rotation_with_markers; rewrite Hcnt;
           reflexivity).
    cbv zeta.
    rewrite (detect_rotation_with_markers_unfold moments _ _ _ _ Hcnt).
    cbv zeta.
    set (contours := Builtins.sorted_reverse cv2.contourArea
                       (c1 :: c2 :: rest)).
    split; [|split].
    + destruct (centroid_cases (moments (nth 0 contours c1)))
        as [[Hz ->] | [Hnz ->]]; cbn [Py.bind].
      * split; [now left | reflexivity].
      * destruct (centroid_cases (moments (nth 1 contours c2)))
          as [[Hz ->] | [Hnz' ->]]; cbn [Py.bind].
        -- split; [now right | reflexivity].
        -- split; [discriminate | intros [H|H]; contradiction].
    + intros e.
      destruct (centroid_cases (moments (nth 0 contours c1)))
        as [[Hz ->] | [Hnz ->]]; cbn [Py.bind].
      * intros H. now injection H as <-.
      * destruct (centroid_cases (moments (nth 1 contours c2)))
          as [[Hz ->] | [Hnz' ->]]; cbn [Py.bind].
        -- intros H. now injection H as <-.
        -- discriminate.
    + intros Hz. unfold Rotation.detect_complex_shape_rotation.
      rewrite Hcnt. cbv zeta.
      rewrite <- (sorted_reverse_head cv2.contourArea c1 (c2 :: rest) c1).
      fold contours.
      destruct (Req_dec_T (Moments.m00 (moments (nth 0 contours c1))) 0);
        [reflexivity | contradiction].
  - intros e. unfold Rotation.detect_complex_shape_rotation.
    destruct (cv2.findContours img 0%Z 2%Z) as [|c contours];
      [discriminate|].
    cbv zeta.
    destruct (Req_dec_T _ 0) as [Hz|Hnz]; [discriminate|].
    destruct (centroid_cases
                (moments (Builtins.max_key cv2.contourArea c contours)))
      as [[Hz _] | [_ ->]]; [contradiction|].
    cbn [Py.bind]. discriminate.
Qed.

(** X8. The marker detector takes as main body the contour that the
    other detectors select as the largest one, and as marker a contour
    that is at most as large and at least as large as every remaining
    one. *)
Theorem detect_rotation_with_markers_roles {cv : cv2.OpenCV}
    (c1 c2 : cv2.Contour) (rest : list cv2.Contour) :
  let contours := Builtins.sorted_reverse cv2.contourArea (c1 :: c2 :: rest) in
  let main_body := nth 0 contours c1 in
  let marker := nth 1 contours c2 in
  main_body = Builtins.max_key cv2.contourArea c1 (c2 :: rest) /\
  cv2.contourArea marker <= cv2.contourArea main_body /\
  exists others,
    contours = main_body :: marker :: others /\
    Permutation (c1 :: c2 :: rest) (main_body :: marker :: others) /\
    Forall (fun c => cv2.contourArea c <= cv2.contourArea marker) others.
Proof.
  cbv zeta.
  rewrite (sorted_reverse_head cv2.contourArea c1 (c2 :: rest) c1).
  pose proof (sorted_reverse_perm cv2.contourArea (c1 :: c2 :: rest)) as Hperm.
  pose proof (sorted_reverse_sorted cv2.contourArea (c1 :: c2 :: rest))
    as Hsorted.
  pose proof (sorted_reverse_head cv2.contourArea c1 (c2 :: rest) c1) as Hhead.
  pose proof (Permutation_length Hperm) as Hlen.
  destruct (Builtins.sorted_reverse cv2.contourArea (c1 :: c2 :: rest))
    as [|a [|b others]]; try discriminate.
  simpl in Hhead. subst a. cbn [nth].
  inversion Hsorted as [|? ? Htail Hall]; subst.
  inversion Htail as [|? ? _ Hothers]; subst.
  inversion Hall; subst.
  split; [reflexivity|]. split; [assumption|].
  exists others. repeat split; assumption.
Qed.

(** X9. The robot command of the demo: its rotation is the detected heading
    folded into [-180, 180], that is the heading itself up to 180 degrees
    and the heading less 360 degrees beyond; its position is the rectangle
    centre relative to the pixel (250, 250), scaled by 0.1, with the y axis
    pointing up. *)
Theorem demo_robot_command_rotation {cv : cv2.OpenCV}
    (minAreaRect : cv2.Contour -> Orientation.RotatedRect)
    (boxPoints : Orientation.RotatedRect -> list (R * R)) (img : cv2.Mat)
    (cmd : RobotCommand.t) :
  Rotation.demo_robot_command minAreaRect boxPoints img = Some cmd ->
  let heading := RobotCommand.object_angle cmd in
  let turn := RobotCommand.rotation cmd in
  -180 <= turn <= 180 /\
  (exists k : Z, turn = heading + 360 * IZR k) /\
  (0 <= heading <= 180 -> turn = heading) /\
  (180 < heading < 360 -> turn = heading - 360) /\
  exists box center,
    Rotation.detect_rectangle_rotation minAreaRect boxPoints img
      = Some (heading, center, box) /\
    RobotPosition.x (RobotCommand.position cmd) = (fst center - 250) / 10 /\
    RobotPosition.y (RobotCommand.position cmd) = (250 - snd center) / 10 /\
    RobotPosition.z (RobotCommand.position cmd) = 0.
Proof.
  unfold Rotation.demo_robot_command.
  destruct (Rotation.detect_rectangle_rotation minAreaRect boxPoints img)
    as [[[angle center] box]|]; [|discriminate].
  intros H. injection H as <-. cbv zeta.
  cbn [RobotCommand.object_angle RobotCommand.rotation
       RobotCommand.position Rotation.generate_robot_command
       RobotPosition.x RobotPosition.y RobotPosition.z].
  destruct (gripper_rotation_bounds angle 0) as [Hrange [k Hk]].
  split; [exact Hrange|]. split.
  { exists k. rewrite Hk. lra. }
  split.
  { intros Ha. rewrite gripper_rotation_unchanged; lra. }
  split.
  { intros Ha. rewrite gripper_rotation_one_turn; lra. }
  exists box, center. unfold Rotation.PIXEL_TO_MM.
  repeat split; lra.
Qed.

Lemma demo_robot_command_rotation_witness :
  let cv := Bench.backend "part.png" Bench.striped_panel
              [Bench.square 20] None in
  let minAreaRect := fun _ : cv2.Contour =>
    {| Orientation.center := (10, 10); Orientation.size := (20, 20);
       Orientation.angle := -53 |} in
  let boxPoints := fun _ : Orientation.RotatedRect => @nil (R * R) in
  exists cmd,
    Rotation.demo_robot_command (cv := cv) minAreaRect boxPoints
      Bench.striped_panel = Some cmd /\
    -180 <= RobotCommand.rotation cmd <= 180.
Proof.
  intros cv minAreaRect boxPoints. eexists. split; [reflexivity|].
  apply (demo_robot_command_rotation (cv := cv) minAreaRect boxPoints
           Bench.striped_panel _ eq_refl).
Defined.

(** X10. For a rectangle whose raw angle lies in [-90, 90) the gripper
    rotation that the integration example puts in its pick command (the raw
    angle, plus 90 when the width is the shorter side) is the compensation
    that the tutorial computes from its normalised angle for the reference
    0: the two pipelines command the same rotation. *)
Theorem integration_gripper_rotation_agrees (rect : Orientation.RotatedRect) :
  -90 <= Orientation.angle rect < 90 ->
  Rotation.calculate_gripper_rotation (Orientation.normalize_angle rect) 0
  = fst (Integration._detect_with_min_area_rect rect).
Proof.
  intros [Hlo Hhi]. rewrite normalize_angle_unfold. cbv zeta.
  unfold Integration._detect_with_min_area_rect. cbn [fst].
  destruct (Rlt_dec (fst (Orientation.size rect)) (snd (Orientation.size rect))).
  - destruct (Rlt_dec (90 + Orientation.angle rect) 0); [lra|].
    rewrite gripper_rotation_unchanged; lra.
  - destruct (Rlt_dec (Orientation.angle rect) 0).
    + rewrite gripper_rotation_one_turn; lra.
    + rewrite gripper_rotation_unchanged; lra.
Qed.

Lemma integration_gripper_rotation_agrees_witness :
  Rotation.calculate_gripper_rotation
    (Orientation.normalize_angle
       {| Orientation.center := (250, 250); Orientation.size := (150, 80);
          Orientation.angle := -30 |}) 0
  = fst (Integration._detect_with_min_area_rect
           {| Orientation.center := (250, 250); Orientation.size := (150, 80);
              Orientation.angle := -30 |}).
Proof.
  apply (integration_gripper_rotation_agrees
           {| Orientation.center := (250, 250); Orientation.size := (150, 80);
              Orientation.angle := -30 |}).
  simpl. lra.
Defined.

(* ================================================================== *)
(** * The service results as lists *)
(* ================================================================== *)

Section ServiceFacts.
Import cv2 Py AOIService Comprehension.
Context {cv : OpenCV}.

Lemma detect_defects_loop_defects (cnt : list Contour) :
  forall (res : Mat3) (defs : list Defect.t),
  snd (detect_defects_loop cnt res defs)
  = defs ++ map (fun kc : nat * Contour => defect_of (fst kc) (snd kc))
                (combine (seq (List.length defs)
                              (List.length (filter is_defect cnt)))
                         (filter is_defect cnt)).
Proof.
  induction cnt as [|c cnt IH]; intros res defs.
  - simpl. now rewrite app_nil_r.
  - cbn [detect_defects_loop filter].
    destruct (Rlt_dec (contourArea c) 50) as [Hsmall|Hlarge] eqn:Hdec.
    + replace (is_defect c) with false
        by (unfold is_defect; now rewrite Hdec).
      apply IH.
    + replace (is_defect c) with true
        by (unfold is_defect; now rewrite Hdec).
      cbn [List.length seq combine map fst snd]. unfold defect_of at 1.
      destruct (boundingRect c) as [[[x y] w] h].
      rewrite IH, length_app, <- app_assoc. cbn [List.length app].
      rewrite Nat.add_1_r. reflexivity.
Qed.

Lemma detect_defects_defects (path : string) (t_path : option string)
    (threshold : Z) (r : DefectResult.t) :
  detect_defects path t_path threshold = Ok r ->
  exists img,
    imread path 0%Z = Some img /\
    DefectResult.defects r
    = defects_of
        (findContours
           (morphologyEx
              (snd (cv2.threshold
                      (absdiff (GaussianBlur img (15, 15)%Z 5) img)
                      threshold 255 0))
              2%Z (getStructuringElement 2%Z (5, 5)%Z))
           1%Z 2%Z).
Proof.
  intros Hr.
  destruct (detect_defects_returns path t_path threshold r Hr)
    as [Hfits [img Himg]].
  rewrite (detect_defects_unfold path t_path threshold img Himg Hfits) in Hr.
  cbv zeta in Hr. injection Hr as <-. exists img. split; [exact Himg|].
  cbn [DefectResult.defects]. rewrite detect_defects_loop_defects.
  reflexivity.
Qed.

Lemma defects_of_In (cnt : list Contour) (d : Defect.t) :
  In d (defects_of cnt) ->
  exists k c, In c cnt /\ ~ contourArea c < 50 /\ d = defect_of k c.
Proof.
  unfold defects_of. cbv zeta. intros Hd.
  apply in_map_iff in Hd. destruct Hd as ([k c] & <- & Hkc).
  apply in_combine_r in Hkc. apply filter_In in Hkc.
  destruct Hkc as [Hc Hlarge]. exists k, c. split; [exact Hc|].
  split; [|reflexivity].
  unfold is_defect in Hlarge.
  destruct (Rlt_dec (contourArea c) 50); [discriminate | assumption].
Qed.

Lemma detect_fiducial_marks_loop_marks (cs : list (Z * Z * Z)) :
  forall (i : nat) (res : Mat3) (ms : list Mark.t),
  snd (detect_fiducial_marks_loop i cs res ms)
  = ms ++ map (fun ic : nat * (Z * Z * Z) => mark_of (fst ic) (snd ic))
              (combine (seq i (List.length cs)) cs).
Proof.
  induction cs as [|[[cx cy] r0] cs IH]; intros i res ms.
  - simpl. now rewrite app_nil_r.
  - cbn [detect_fiducial_marks_loop List.length seq combine map fst snd].
    rewrite IH, <- app_assoc. reflexivity.
Qed.

Lemma detect_fiducial_marks_unfold (path : string) (minr maxr : Z)
    (img : Mat) :
  imread path 0%Z = Some img ->
  is_int minr && is_int maxr = true ->
  detect_fiducial_marks path minr maxr
  = match HoughCircles (GaussianBlur img (5, 5)%Z (15 / 10)) 3%Z
            1 100 100 30 minr maxr with
    | Some circles =>
        Ok {| FiducialResult.marks := marks_of circles;
              FiducialResult.rotation_angle :=
                rounded_if_truthy (angle_of_marks (marks_of circles));
              FiducialResult.annotated_image :=
                fst (detect_fiducial_marks_loop 0 (uint16_around circles)
                       (cvtColor img 8%Z) []) |}
    | None =>
        Ok {| FiducialResult.marks := [];
              FiducialResult.rotation_angle := None;
              FiducialResult.annotated_image := cvtColor img 8%Z |}
    end.
Proof.
  intros Himg Hradii. unfold detect_fiducial_marks. rewrite Himg, Hradii.
  destruct (HoughCircles _ 3%Z 1 100 100 30 minr maxr) as [circles|];
    [|reflexivity].
  pose proof (detect_fiducial_marks_loop_marks (uint16_around circles) 0
                (cvtColor img 8%Z) []) as Hms.
  destruct (detect_fiducial_marks_loop 0 _ _ _) as [res ms].
  cbn [snd app] in Hms. subst ms. reflexivity.
Qed.

Lemma detect_fiducial_marks_raises (path : string) (minr maxr : Z)
    (e : exn) :
  detect_fiducial_marks path minr maxr = Raise e ->
  e = cv2_error /\
  (imread path 0%Z = None \/ is_int minr && is_int maxr = false).
Proof.
  destruct (imread path 0%Z) as [img|] eqn:Himg.
  - destruct (is_int minr && is_int maxr) eqn:Hradii.
    + rewrite (detect_fiducial_marks_unfold path minr maxr img Himg Hradii).
      destruct (HoughCircles _ _ _ _ _ _ _ _); discriminate.
    + unfold detect_fiducial_marks. rewrite Himg, Hradii.
      intros H. injection H as <-. split; [reflexivity | now right].
  - unfold detect_fiducial_marks. rewrite Himg.
    intros H. injection H as <-. split; [reflexivity | now left].
Qed.

Lemma detect_fiducial_marks_readable (path : string) (minr maxr : Z)
    (img : Mat) :
  imread path 0%Z = Some img ->
  is_int minr && is_int maxr = true ->
  exists r, detect_fiducial_marks path minr maxr = Ok r.
Proof.
  intros Himg Hradii.
  rewrite (detect_fiducial_marks_unfold path minr maxr img Himg Hradii).
  destruct (HoughCircles _ _ _ _ _ _ _ _); eexists; reflexivity.
Qed.

Lemma detect_fiducial_marks_returns (path : string) (minr maxr : Z)
    (r : FiducialResult.t) :
  detect_fiducial_marks path minr maxr = Ok r ->
  is_int minr && is_int maxr = true /\
  exists img, imread path 0%Z = Some img.
Proof.
  unfold detect_fiducial_marks. destruct (imread path 0%Z) as [img|];
    [|discriminate].
  destruct (is_int minr && is_int maxr); [|discriminate].
  intros _. split; [reflexivity | now exists img].
Qed.

Lemma uint16_range (z : Z) : (0 <= uint16 z < 65536)%Z.
Proof.
  unfold uint16. apply Z.mod_pos_bound. lia.
Qed.

Lemma marks_of_In (circles : list (R * R * R)) (m : Mark.t) :
  In m (marks_of circles) ->
  (0 <= Position.x (Mark.position m) < 65536)%Z /\
  (0 <= Position.y (Mark.position m) < 65536)%Z /\
  (0 <= Mark.radius m < 65536)%Z /\
  (1 <= Mark.id m <= Z.of_nat (List.length circles))%Z.
Proof.
  unfold marks_of. cbv zeta. intros Hm.
  apply in_map_iff in Hm. destruct Hm as ([i c] & <- & Hic).
  pose proof (in_combine_l _ _ _ _ Hic) as Hi.
  pose proof (in_combine_r _ _ _ _ Hic) as Hc.
  apply in_seq in Hi.
  unfold uint16_around in Hi, Hc. rewrite length_map in Hi.
  apply in_map_iff in Hc. destruct Hc as ([[cx cy] r0] & <- & _).
  cbn [fst snd mark_of Mark.position Mark.radius Mark.id
       Position.x Position.y].
  repeat split; try apply uint16_range; lia.
Qed.

Lemma marks_of_ids (circles : list (R * R * R)) :
  map Mark.id (marks_of circles)
  = map (fun k => (Z.of_nat k + 1)%Z) (seq 0 (List.length circles)).
Proof.
  unfold marks_of. cbv zeta.
  assert (Hlen : List.length (uint16_around circles) = List.length circles)
    by (unfold uint16_around; apply length_map).
  rewrite Hlen. clear Hlen.
  generalize 0%nat. unfold uint16_around.
  induction circles as [|[[cx cy] r0] circles IH]; intros i;
    [reflexivity|].
  cbn [map List.length seq combine fst snd mark_of Mark.id].
  now rewrite IH.
Qed.

End ServiceFacts.

Section RoundingFacts.
Import Py.

Lemma rint_error (y : R) : - (1 / 2) <= IZR (rint y) - y <= 1 / 2.
Proof.
  unfold rint. destruct (base_Int_part y) as [Hlo Hhi].
  set (n := Int_part y) in *.
  destruct (Rlt_dec (y - IZR n) (1 / 2)) as [Hdown|Hnot]; [lra|].
  destruct (Rlt_dec (1 / 2) (y - IZR n)) as [Hup|Htie].
  - rewrite plus_IZR. lra.
  - destruct (Z.even n); [|rewrite plus_IZR]; lra.
Qed.

Lemma round2_error (x : R) : Rabs (round2 x - x) <= 1 / 200.
Proof.
  unfold round2. pose proof (rint_error (x * 100)) as H.
  apply Rabs_le. lra.
Qed.

Lemma round2_hundredths (x : R) : exists k : Z, round2 x = IZR k / 100.
Proof.
  now exists (rint (x * 100)).
Qed.

(** Rounding does not cross a bound that is itself a whole number of
    hundredths. *)
Lemma round2_le (x : R) (k : Z) : x <= IZR k / 100 -> round2 x <= IZR k / 100.
Proof.
  intros Hx. unfold round2.
  pose proof (rint_error (x * 100)) as H.
  assert (Hlt : IZR (rint (x * 100)) < IZR (k + 1))
    by (rewrite plus_IZR; lra).
  apply lt_IZR in Hlt.
  assert (Hle : (rint (x * 100) <= k)%Z) by lia.
  apply IZR_le in Hle. lra.
Qed.

Lemma round2_ge (x : R) (k : Z) : IZR k / 100 <= x -> IZR k / 100 <= round2 x.
Proof.
  intros Hx. unfold round2.
  pose proof (rint_error (x * 100)) as H.
  assert (Hlt : IZR (k - 1) < IZR (rint (x * 100)))
    by (rewrite minus_IZR; lra).
  apply lt_IZR in Hlt.
  assert (Hle : (k <= rint (x * 100))%Z) by lia.
  apply IZR_le in Hle. lra.
Qed.

End RoundingFacts.

Section ServiceRuns.
Import cv2 Py AOIService Comprehension.

Lemma defect_of_fields {cv : OpenCV} (k : nat) (c : Contour) :
  let d := defect_of k c in
  Defect.area d = contourArea c /\
  Position.x (Defect.position d)
    = (BBox.x (Defect.bbox d) + BBox.width (Defect.bbox d) / 2)%Z /\
  Position.y (Defect.position d)
    = (BBox.y (Defect.bbox d) + BBox.height (Defect.bbox d) / 2)%Z.
Proof.
  unfold defect_of. destruct (boundingRect c) as [[[x y] w] h]. simpl.
  repeat split.
Qed.

Lemma defects_of_length {cv : OpenCV} (cnt : list Contour) :
  (List.length (defects_of cnt) <= List.length cnt)%nat.
Proof.
  unfold defects_of. cbv zeta.
  rewrite length_map, length_combine, length_seq, Nat.min_id.
  apply filter_length_le.
Qed.

(** The run on the flat panel with the threshold -1: the whole panel is one
    region. *)
Lemma detect_defects_whole_panel :
  detect_defects
    (cv := Bench.backend "panel.png" Bench.flat_panel [Bench.square 11] None)
    "panel.png" None (-1)
  = Ok {| DefectResult.defects :=
            [ {| Defect.id := 1;
                 Defect.position := {| Position.x := 6; Position.y := 6 |};
                 Defect.area := 121;
                 Defect.bbox :=
                   {| BBox.x := 0; BBox.y := 0;
                      BBox.width := 12; BBox.height := 12 |} |} ];
          DefectResult.defect_count := 1;
          DefectResult.annotated_image :=
            map (map (fun p => (p, p, p))) Bench.flat_panel |}.
Proof.
  set (cv := Bench.backend "panel.png" Bench.flat_panel [Bench.square 11] None).
  rewrite (detect_defects_unfold (cv := cv) "panel.png" None (-1)
             Bench.flat_panel eq_refl eq_refl).
  assert (Hcnt :
    findContours (OpenCV := cv)
      (morphologyEx (OpenCV := cv)
         (snd (cv2.threshold
                 (absdiff
                    (GaussianBlur (OpenCV := cv) Bench.flat_panel
                       (15, 15)%Z 5)
                    Bench.flat_panel) (-1) 255 0))
         2%Z (getStructuringElement (OpenCV := cv) 2%Z (5, 5)%Z))
      1%Z 2%Z = [Bench.square 11]) by (vm_compute; reflexivity).
  cbv zeta. rewrite Hcnt. cbn [detect_defects_loop].
  change (contourArea (OpenCV := cv) (Bench.square 11))
    with (Bench.polygon_area (Bench.square 11)).
  rewrite polygon_area_square_11.
  destruct (Rlt_dec 121 50); [lra|]. reflexivity.
Qed.

Lemma measurement_of_sizes {cv : OpenCV} (pmm : R) (i : nat) (c : Contour) :
  let m := measurement_of pmm i c in
  Measurement.width_mm m
    = round2 (IZR (BBox.width (Measurement.bbox m)) * pmm) /\
  Measurement.height_mm m
    = round2 (IZR (BBox.height (Measurement.bbox m)) * pmm) /\
  Measurement.area_mm2 m = round2 (contourArea c * pmm * pmm).
Proof.
  unfold measurement_of. destruct (boundingRect c) as [[[x y] w] h].
  simpl. repeat split.
Qed.

Lemma measured_ids {cv : OpenCV} (pmm : R) (cnt : list Contour) :
  forall i : nat,
  StronglySorted Z.lt (map Measurement.object_id (measured pmm i cnt)) /\
  Forall (fun m => (Z.of_nat i + 1 <= Measurement.object_id m
                    <= Z.of_nat i + Z.of_nat (List.length cnt))%Z)
         (measured pmm i cnt).
Proof.
  induction cnt as [|c cnt IH]; intros i.
  - simpl. split; constructor.
  - destruct (IH (S i)) as [Hsorted Hbounds].
    assert (Hshift :
      Forall (fun m => (Z.of_nat i + 1 < Measurement.object_id m
                        <= Z.of_nat i + Z.of_nat (List.length (c :: cnt)))%Z)
             (measured pmm (S i) cnt)).
    { eapply Forall_impl; [|exact Hbounds]. cbn beta. intros m Hm.
      cbn [List.length]. lia. }
    cbn [measured]. destruct (Rlt_dec (contourArea c) 100).
    + split; [exact Hsorted|].
      eapply Forall_impl; [|exact Hshift]. cbn beta. intros m Hm. lia.
    + destruct (measurement_of_fields pmm i c) as [Hid _].
      cbn [map]. rewrite Hid. split.
      * constructor; [exact Hsorted|].
        apply Forall_map. eapply Forall_impl; [|exact Hshift].
        cbn beta. intros m Hm. lia.
      * constructor.
        -- rewrite Hid. cbn [List.length]. lia.
        -- eapply Forall_impl; [|exact Hshift]. cbn beta. intros m Hm. lia.
Qed.

Lemma arctan2_vertical (y : R) : 0 < y -> arctan2 y 0 = PI / 2.
Proof.
  intros Hy. unfold arctan2.
  destruct (Rlt_dec 0 0) as [H|_]; [lra|].
  destruct (Rlt_dec 0 y); [reflexivity | contradiction].
Qed.

(** The run on two circles one below the other. *)
Lemma detect_fiducial_marks_vertical_pair :
  detect_fiducial_marks
    (cv := Bench.backend "panel.png" Bench.striped_panel []
             (Some [(10, 10, 5); (10, 50, 5)]))
    "panel.png" 5 25
  = Ok {| FiducialResult.marks :=
            [ {| Mark.id := 1;
                 Mark.position := {| Position.x := 10; Position.y := 10 |};
                 Mark.radius := 5 |};
              {| Mark.id := 2;
                 Mark.position := {| Position.x := 10; Position.y := 50 |};
                 Mark.radius := 5 |} ];
          FiducialResult.rotation_angle := Some 90;
          FiducialResult.annotated_image :=
            map (map (fun p => (p, p, p))) Bench.striped_panel |}.
Proof.
  set (cv := Bench.backend "panel.png" Bench.striped_panel []
               (Some [(10, 10, 5); (10, 50, 5)])).
  rewrite (detect_fiducial_marks_unfold (cv := cv) "panel.png" 5 25
             Bench.striped_panel eq_refl eq_refl).
  change (HoughCircles (OpenCV := cv) _ 3%Z 1 100 100 30 5%Z 25%Z)
    with (Some [(10, 10, 5); (10, 50, 5)]).
  cbv iota.
  assert (Hms : marks_of [(10, 10, 5); (10, 50, 5)]
                = [ {| Mark.id := 1;
                       Mark.position :=
                         {| Position.x := 10; Position.y := 10 |};
                       Mark.radius := 5 |};
                    {| Mark.id := 2;
                       Mark.position :=
                         {| Position.x := 10; Position.y := 50 |};
                       Mark.radius := 5 |} ]).
  { unfold marks_of, uint16_around. cbn [map]. rewrite !rint_IZR.
    reflexivity. }
  rewrite Hms.
  assert (Hangle : angle_of_marks
                     [ {| Mark.id := 1;
                          Mark.position :=
                            {| Position.x := 10; Position.y := 10 |};
                          Mark.radius := 5 |};
                       {| Mark.id := 2;
                          Mark.position :=
                            {| Position.x := 10; Position.y := 50 |};
                          Mark.radius := 5 |} ] = Some 90).
  { unfold angle_of_marks. cbn [Mark.position Position.x Position.y].
    change (50 - 10)%Z with 40%Z. change (10 - 10)%Z with 0%Z.
    rewrite arctan2_vertical by lra. unfold degrees. f_equal.
    field. pose proof PI_RGT_0. lra. }
  rewrite Hangle.
  assert (Hround : rounded_if_truthy (Some 90) = Some 90).
  { unfold rounded_if_truthy, truthy.
    destruct (Req_dec_T 90 0); [lra|].
    rewrite (round2_near 90 9000) by lra. f_equal. lra. }
  rewrite Hround. reflexivity.
Qed.

End ServiceRuns.

(** X11. The defect list is the list of the contours of area at least 50,
    in discovery order: each record carries the area and bounding box of its
    contour, its position is the centre of that box (box corner plus half
    the side, rounded down), and the count does not exceed the number of
    contours found. *)
Theorem detect_defects_lists_large_contours {cv : cv2.OpenCV}
    (path : string) (t_path : option string) (threshold : Z)
    (r : DefectResult.t) :
  AOIService.detect_defects path t_path threshold = Py.Ok r ->
  (exists img cnt,
     cv2.imread path 0%Z = Some img /\
     cnt = cv2.findContours
             (cv2.morphologyEx
                (snd (cv2.threshold
                        (cv2.absdiff (cv2.GaussianBlur img (15, 15)%Z 5) img)
                        threshold 255 0))
                2%Z (cv2.getStructuringElement 2%Z (5, 5)%Z))
             1%Z 2%Z /\
     DefectResult.defects r = Comprehension.defects_of cnt /\
     (DefectResult.defect_count r <= Z.of_nat (List.length cnt))%Z) /\
  Forall (fun d =>
            50 <= Defect.area d /\
            Position.x (Defect.position d)
              = (BBox.x (Defect.bbox d) + BBox.width (Defect.bbox d) / 2)%Z /\
            Position.y (Defect.position d)
              = (BBox.y (Defect.bbox d) + BBox.height (Defect.bbox d) / 2)%Z)
         (DefectResult.defects r).
Proof.
  intros Hr.
  destruct (detect_defects_defects path t_path threshold r Hr)
    as (img & Himg & Hdefs).
  assert (Hcount : DefectResult.defect_count r
                   = Z.of_nat (List.length (DefectResult.defects r))).
  { destruct (detect_defects_readable path t_path threshold img Himg
                (proj1 (detect_defects_returns path t_path threshold r Hr)))
      as (r' & Hr' & Hcount).
    rewrite Hr in Hr'. injection Hr' as <-. exact Hcount. }
  split.
  - eexists img, _. split; [exact Himg|]. split; [reflexivity|].
    split; [exact Hdefs|].
    rewrite Hcount, Hdefs. apply inj_le, defects_of_length.
  - rewrite Hdefs. apply Forall_forall. intros d Hd.
    destruct (defects_of_In _ d Hd) as (k & c & _ & Hlarge & ->).
    destruct (defect_of_fields k c) as (Harea & Hx & Hy).
    rewrite Harea. repeat split; [lra | exact Hx | exact Hy].
Qed.

Lemma detect_defects_lists_large_contours_witness :
  Forall (fun d => 50 <= Defect.area d)
    [ {| Defect.id := 1;
         Defect.position := {| Position.x := 6; Position.y := 6 |};
         Defect.area := 121;
         Defect.bbox :=
           {| BBox.x := 0; BBox.y := 0;
              BBox.width := 12; BBox.height := 12 |} |} ].
Proof.
  pose proof (proj2 (detect_defects_lists_large_contours
                       (cv := Bench.backend "panel.png" Bench.flat_panel
                                [Bench.square 11] None)
                       "panel.png" None (-1) _ detect_defects_whole_panel))
    as H.
  cbn [DefectResult.defects] in H.
  eapply Forall_impl; [|exact H]. cbn beta. tauto.
Defined.

(** X12. The object identifiers of the measurements increase strictly;
    each one is 1 plus the position, among all contours found, of a contour
    whose area is not below 100, so that it lies between 1 and the number of
    contours. *)
Theorem measure_dimensions_object_ids {cv : cv2.OpenCV} (path : string)
    (pmm : R) (r : MeasureResult.t) :
  AOIService.measure_dimensions path pmm = Py.Ok r ->
  StronglySorted Z.lt
    (map Measurement.object_id (MeasureResult.measurements r)) /\
  exists img,
    cv2.imread path 0%Z = Some img /\
    let cnt := cv2.findContours (cv2.Canny img 50 150) 1%Z 2%Z in
    Forall (fun m =>
              (1 <= Measurement.object_id m <= Z.of_nat (List.length cnt))%Z /\
              exists c,
                nth_error cnt (Z.to_nat (Measurement.object_id m - 1))
                  = Some c /\
                ~ cv2.contourArea c < 100)
           (MeasureResult.measurements r).
Proof.
  intros Hr.
  destruct (cv2.imread path 0%Z) as [img|] eqn:Himg.
  2:{ unfold AOIService.measure_dimensions in Hr. rewrite Himg in Hr.
      discriminate. }
  destruct (measure_dimensions_readable path pmm img Himg) as [res' Hres'].
  rewrite Hres' in Hr. injection Hr as <-.
  cbn [MeasureResult.measurements].
  set (cnt := cv2.findContours (cv2.Canny img 50 150) 1%Z 2%Z).
  destruct (measured_ids pmm cnt 0) as [Hsorted Hbounds].
  split; [exact Hsorted|]. exists img. split; [reflexivity|]. cbv zeta.
  fold cnt. apply Forall_forall. intros m Hm.
  destruct (measured_In pmm cnt 0 m Hm) as (j & c & Hj & Hlarge & ->).
  destruct (measurement_of_fields pmm (0 + j) c) as [Hid _].
  rewrite Hid. cbn [Nat.add].
  assert (Hlt : (j < List.length cnt)%nat)
    by (apply nth_error_Some; rewrite Hj; discriminate).
  split; [lia|]. exists c. split; [|exact Hlarge].
  replace (Z.to_nat (Z.of_nat j + 1 - 1)) with j by lia. exact Hj.
Qed.

Lemma measure_dimensions_object_ids_witness :
  exists r,
    AOIService.measure_dimensions
      (cv := Bench.backend "panel.png" Bench.striped_panel
               [Bench.square 3; Bench.square 20] None)
      "panel.png" (1 / 10) = Py.Ok r /\
    StronglySorted Z.lt
      (map Measurement.object_id (MeasureResult.measurements r)).
Proof.
  destruct (measure_dimensions_readable
              (cv := Bench.backend "panel.png" Bench.striped_panel
                       [Bench.square 3; Bench.square 20] None)
              "panel.png" (1 / 10) Bench.striped_panel eq_refl)
    as [res' Hres'].
  eexists. split; [exact Hres'|].
  exact (proj1 (measure_dimensions_object_ids
                  (cv := Bench.backend "panel.png" Bench.striped_panel
                           [Bench.square 3; Bench.square 20] None)
                  "panel.png" (1 / 10) _ Hres')).
Defined.

(** X13. Every reported width and height is the side of the record's own
    bounding box times the scale, up to 0.005, and widths, heights and areas
    are whole numbers of hundredths. *)
Theorem measure_dimensions_rounding {cv : cv2.OpenCV} (path : string)
    (pmm : R) (r : MeasureResult.t) :
  AOIService.measure_dimensions path pmm = Py.Ok r ->
  Forall (fun m =>
            Rabs (Measurement.width_mm m
                  - IZR (BBox.width (Measurement.bbox m)) * pmm) <= 1 / 200 /\
            Rabs (Measurement.height_mm m
                  - IZR (BBox.height (Measurement.bbox m)) * pmm) <= 1 / 200 /\
            (exists k : Z, Measurement.width_mm m = IZR k / 100) /\
            (exists k : Z, Measurement.height_mm m = IZR k / 100) /\
            (exists k : Z, Measurement.area_mm2 m = IZR k / 100))
         (MeasureResult.measurements r).
Proof.
  intros Hr.
  destruct (cv2.imread path 0%Z) as [img|] eqn:Himg.
  2:{ unfold AOIService.measure_dimensions in Hr. rewrite Himg in Hr.
      discriminate. }
  destruct (measure_dimensions_readable path pmm img Himg) as [res' Hres'].
  rewrite Hres' in Hr. injection Hr as <-.
  cbn [MeasureResult.measurements].
  apply Forall_forall. intros m Hm.
  destruct (measured_In pmm _ 0 m Hm) as (j & c & _ & _ & ->).
  destruct (measurement_of_sizes pmm (0 + j) c) as (Hw & Hh & Ha).
  split; [rewrite Hw at 1; apply round2_error|].
  split; [rewrite Hh at 1; apply round2_error|].
  rewrite Hw, Hh, Ha. repeat split; apply round2_hundredths.
Qed.

Lemma measure_dimensions_rounding_witness :
  exists r,
    AOIService.measure_dimensions
      (cv := Bench.backend "panel.png" Bench.striped_panel
               [Bench.square 20] None)
      "panel.png" (1 / 10) = Py.Ok r /\
    Forall (fun m => exists k : Z, Measurement.width_mm m = IZR k / 100)
           (MeasureResult.measurements r).
Proof.
  destruct (measure_dimensions_readable
              (cv := Bench.backend "panel.png" Bench.striped_panel
                       [Bench.square 20] None)
              "panel.png" (1 / 10) Bench.striped_panel eq_refl)
    as [res' Hres'].
  eexists. split; [exact Hres'|].
  pose proof (measure_dimensions_rounding
                (cv := Bench.backend "panel.png" Bench.striped_panel
                         [Bench.square 20] None)
                "panel.png" (1 / 10) _ Hres') as H.
  eapply Forall_impl; [|exact H]. cbn beta. tauto.
Defined.

(** X14. The fiducial locator reports one mark per circle that the Hough
    transform returns, none being filtered out: the marks are the circles in
    order with their coordinates and radius rounded and reduced to 16 bits,
    numbered 1, 2, ..., so every coordinate and radius lies in 0..65535; with
    no circle at all the mark list is empty, no rotation is reported and the
    annotated image is the plain colour copy of the input. *)
Theorem detect_fiducial_marks_lists_circles {cv : cv2.OpenCV}
    (path : string) (minr maxr : Z) (r : FiducialResult.t) :
  AOIService.detect_fiducial_marks path minr maxr = Py.Ok r ->
  exists img,
    cv2.imread path 0%Z = Some img /\
    match cv2.HoughCircles (cv2.GaussianBlur img (5, 5)%Z (15 / 10)) 3%Z
            1 100 100 30 minr maxr with
    | Some circles =>
        FiducialResult.marks r = Comprehension.marks_of circles /\
        List.length (FiducialResult.marks r) = List.length circles /\
        map Mark.id (FiducialResult.marks r)
        = map (fun k => (Z.of_nat k + 1)%Z) (seq 0 (List.length circles)) /\
        Forall (fun m =>
                  (0 <= Position.x (Mark.position m) < 65536)%Z /\
                  (0 <= Position.y (Mark.position m) < 65536)%Z /\
                  (0 <= Mark.radius m < 65536)%Z)
               (FiducialResult.marks r)
    | None =>
        FiducialResult.marks r = [] /\
        FiducialResult.rotation_angle r = None /\
        FiducialResult.annotated_image r = cv2.cvtColor img 8%Z
    end.
Proof.
  intros Hr.
  destruct (detect_fiducial_marks_returns path minr maxr r Hr)
    as [Hradii [img Himg]].
  exists img. split; [exact Himg|].
  rewrite (detect_fiducial_marks_unfold path minr maxr img Himg Hradii) in Hr.
  destruct (cv2.HoughCircles _ 3%Z 1 100 100 30 minr maxr) as [circles|];
    injection Hr as <-; cbn [FiducialResult.marks
                             FiducialResult.rotation_angle
                             FiducialResult.annotated_image].
  - split; [reflexivity|]. split.
    { rewrite <- (length_map Mark.id), marks_of_ids, length_map, length_seq.
      reflexivity. }
    split; [apply marks_of_ids|].
    apply Forall_forall. intros m Hm.
    destruct (marks_of_In circles m Hm) as (Hx & Hy & Hrad & _).
    repeat split; lia.
  - repeat split.
Qed.

Lemma detect_fiducial_marks_lists_circles_witness :
  exists img,
    cv2.imread
      (OpenCV := Bench.backend "panel.png" Bench.striped_panel []
                   (Some [(10, 10, 5); (10, 50, 5)]))
      "panel.png" 0%Z = Some img.
Proof.
  destruct (detect_fiducial_marks_lists_circles
              (cv := Bench.backend "panel.png" Bench.striped_panel []
                       (Some [(10, 10, 5); (10, 50, 5)]))
              "panel.png" 5 25 _ detect_fiducial_marks_vertical_pair)
    as (img & Himg & _).
  exists img. exact Himg.
Defined.

(** X15. A reported rotation angle lies in [-180, 180] and is a whole
    number of hundredths of a degree. *)
Theorem rotation_angle_range {cv : cv2.OpenCV} (path : string)
    (minr maxr : Z) (r : FiducialResult.t) (a : R) :
  AOIService.detect_fiducial_marks path minr maxr = Py.Ok r ->
  FiducialResult.rotation_angle r = Some a ->
  -180 <= a <= 180 /\ exists k : Z, a = IZR k / 100.
Proof.
  intros Hr Ha.
  rewrite (detect_fiducial_marks_rotation path minr maxr r Hr) in Ha.
  destruct (rounded_if_truthy_some _ _ Ha) as (x & Hx & _ & ->).
  split; [|apply round2_hundredths].
  assert (Hrange : -180 < x <= 180).
  { unfold AOIService.angle_of_marks in Hx.
    destruct (FiducialResult.marks r) as [|m1 [|m2 ms]]; try discriminate.
    injection Hx as <-. apply degrees_arctan2_range. }
  split.
  - replace (-180) with (IZR (-18000) / 100) by (simpl; lra).
    apply round2_ge. simpl. lra.
  - replace 180 with (IZR 18000 / 100) by (simpl; lra).
    apply round2_le. simpl. lra.
Qed.

Lemma rotation_angle_range_witness : -180 <= 90 <= 180.
Proof.
  exact (proj1 (rotation_angle_range
                  (cv := Bench.backend "panel.png" Bench.striped_panel []
                           (Some [(10, 10, 5); (10, 50, 5)]))
                  "panel.png" 5 25 _ 90 detect_fiducial_marks_vertical_pair
                  eq_refl)).
Defined.

(** X16. The rotation estimate depends on the first two circles only:
    whatever circles follow them, it is the rounded angle of the line through
    the first two marks, given that angle is not 0. *)
Theorem rotation_uses_first_two_circles {cv : cv2.OpenCV} (path : string)
    (minr maxr : Z) (img : cv2.Mat) (c1 c2 : R * R * R)
    (rest : list (R * R * R)) (r : FiducialResult.t) :
  cv2.imread path 0%Z = Some img ->
  cv2.HoughCircles (cv2.GaussianBlur img (5, 5)%Z (15 / 10)) 3%Z
    1 100 100 30 minr maxr = Some (c1 :: c2 :: rest) ->
  AOIService.detect_fiducial_marks path minr maxr = Py.Ok r ->
  FiducialResult.rotation_angle r
  = AOIService.rounded_if_truthy
      (AOIService.angle_of_marks (Comprehension.marks_of [c1; c2])).
Proof.
  intros Himg Hcircles Hr.
  rewrite (detect_fiducial_marks_unfold path minr maxr img Himg
             (proj1 (detect_fiducial_marks_returns path minr maxr r Hr))),
    Hcircles in Hr.
  injection Hr as <-. cbn [FiducialResult.rotation_angle].
  destruct c1 as [[x1 y1] r1], c2 as [[x2 y2] r2]. reflexivity.
Qed.

Lemma rotation_uses_first_two_circles_witness :
  exists r,
    AOIService.detect_fiducial_marks
      (cv := Bench.backend "panel.png" Bench.striped_panel []
               (Some [(10, 10, 5); (10, 50, 5); (70, 20, 8)]))
      "panel.png" 5 25 = Py.Ok r /\
    FiducialResult.rotation_angle r
    = AOIService.rounded_if_truthy
        (AOIService.angle_of_marks
           (Comprehension.marks_of [(10, 10, 5); (10, 50, 5)])).
Proof.
  destruct (detect_fiducial_marks_readable
              (cv := Bench.backend "panel.png" Bench.striped_panel []
                       (Some [(10, 10, 5); (10, 50, 5); (70, 20, 8)]))
              "panel.png" 5 25 Bench.striped_panel eq_refl eq_refl)
    as [r Hr].
  exists r. split; [exact Hr|].
  exact (rotation_uses_first_two_circles
           (cv := Bench.backend "panel.png" Bench.striped_panel []
                    (Some [(10, 10, 5); (10, 50, 5); (70, 20, 8)]))
           "panel.png" 5 25 Bench.striped_panel (10, 10, 5) (10, 50, 5)
           [(70, 20, 8)] r eq_refl eq_refl Hr).
Defined.

(* ================================================================== *)
(** * The fiducial angle of the practice script *)
(* ================================================================== *)

Section QuadrantFacts.
Import Py.

Lemma arctan2_first_quadrant (y x : R) :
  0 <= y -> 0 <= x -> 0 <= arctan2 y x <= PI / 2.
Proof.
  intros Hy Hx. unfold arctan2. pose proof PI_RGT_0 as Hpi.
  destruct (Rlt_dec 0 x) as [Hpos|Hzero].
  - pose proof (atan_bound (y / x)) as [_ Hhi].
    pose proof (atan_nonneg _ (div_sign_nonneg y x Hy Hpos)). lra.
  - destruct (Rlt_dec x 0); [lra|].
    destruct (Rlt_dec 0 y); [lra|]. destruct (Rlt_dec y 0); lra.
Qed.

Lemma arctan2_left_half (y x : R) :
  x < 0 -> arctan2 y x < 0 \/ PI / 2 < arctan2 y x.
Proof.
  intros Hx. unfold arctan2. pose proof PI_RGT_0 as Hpi.
  pose proof (atan_bound (y / x)) as [Hlo Hhi].
  destruct (Rlt_dec 0 x); [lra|].
  destruct (Rlt_dec x 0); [|contradiction].
  destruct (Rle_dec 0 y); [right | left]; lra.
Qed.

Lemma arctan2_lower_half (y x : R) : y < 0 -> 0 <= x -> arctan2 y x < 0.
Proof.
  intros Hy Hx. unfold arctan2. pose proof PI_RGT_0 as Hpi.
  destruct (Rlt_dec 0 x) as [Hpos|Hzero].
  - pose proof (atan_increasing _ 0 (div_sign_negative y x Hy Hpos)) as H.
    rewrite atan_0 in H. exact H.
  - destruct (Rlt_dec x 0); [lra|].
    destruct (Rlt_dec 0 y); [lra|]. destruct (Rlt_dec y 0); lra.
Qed.

Lemma degrees_injective (a b : R) : degrees a = degrees b -> a = b.
Proof.
  unfold degrees. intros H. pose proof PI_RGT_0 as Hpi.
  assert (Ha : a * (180 / PI) * PI = 180 * a) by (field; lra).
  assert (Hb : b * (180 / PI) * PI = 180 * b) by (field; lra).
  rewrite H in Ha. lra.
Qed.

Lemma uint16_small (z : Z) : (0 <= z < 65536)%Z -> uint16 z = z.
Proof.
  intros Hz. unfold uint16. now apply Z.mod_small.
Qed.

(** The angle taken from wrapped differences against the angle taken
    from plain ones. *)
Lemma wrapped_angle_agrees_iff (x1 y1 x2 y2 : Z) :
  (0 <= x1 < 65536)%Z -> (0 <= y1 < 65536)%Z ->
  (0 <= x2 < 65536)%Z -> (0 <= y2 < 65536)%Z ->
  degrees (arctan2 (IZR (uint16 (y2 - y1))) (IZR (uint16 (x2 - x1))))
  = degrees (arctan2 (IZR (y2 - y1)) (IZR (x2 - x1)))
  <-> (x1 <= x2)%Z /\ (y1 <= y2)%Z.
Proof.
  intros Hx1 Hy1 Hx2 Hy2. split.
  - intros Heq. apply degrees_injective in Heq.
    assert (Hquad : 0 <= arctan2 (IZR (uint16 (y2 - y1)))
                                 (IZR (uint16 (x2 - x1))) <= PI / 2).
    { apply arctan2_first_quadrant; apply IZR_le; apply uint16_range. }
    rewrite Heq in Hquad.
    destruct (Z_lt_le_dec x2 x1) as [Hx|Hx].
    + exfalso.
      destruct (arctan2_left_half (IZR (y2 - y1)) (IZR (x2 - x1))); [|lra|lra].
      apply IZR_lt. lia.
    + split; [exact Hx|].
      destruct (Z_lt_le_dec y2 y1) as [Hy|Hy]; [|exact Hy].
      exfalso.
      assert (arctan2 (IZR (y2 - y1)) (IZR (x2 - x1)) < 0).
      { apply arctan2_lower_half; [apply IZR_lt | apply IZR_le]; lia. }
      lra.
  - intros [Hx Hy]. rewrite !uint16_small by lia. reflexivity.
Qed.

End QuadrantFacts.

(** X17. The practice script takes the differences of the mark
    coordinates between 16-bit unsigned values, where they wrap around and
    are never negative: the angle it prints for two or more marks always
    lies in [0, 90], whatever the position of the marks. *)
Theorem fiducial_angle_first_quadrant (circles : list (R * R * R)) :
  match Applications.fiducial_angle (Applications.detected_marks circles) with
  | Some angle => (2 <= List.length circles)%nat /\ 0 <= angle <= 90
  | None => (List.length circles < 2)%nat
  end.
Proof.
  unfold Applications.detected_marks, AOIService.uint16_around.
  destruct circles as [|[[x1 y1] r1] [|[[x2 y2] r2] rest]]; simpl;
    try lia.
  split; [lia|]. apply degrees_bounds.
  pose proof (arctan2_first_quadrant
                (IZR (Py.uint16 (Py.uint16 (Py.rint y2)
                                 - Py.uint16 (Py.rint y1))))
                (IZR (Py.uint16 (Py.uint16 (Py.rint x2)
                                 - Py.uint16 (Py.rint x1))))) as H.
  pose proof PI_RGT_0.
  destruct H as [Hlo Hhi]; try (apply IZR_le; apply uint16_range). lra.
Qed.

(** X18. On the same circles the angle of the practice script equals the
    angle that the service computes from its marks exactly when the second
    mark lies neither left of nor above the first one; in every other
    position the wrapped differences of the script give another angle. *)
Theorem fiducial_angle_agrees_iff (c1 c2 : R * R * R)
    (rest : list (R * R * R)) :
  let circles := c1 :: c2 :: rest in
  let x (c : R * R * R) := Py.uint16 (Py.rint (fst (fst c))) in
  let y (c : R * R * R) := Py.uint16 (Py.rint (snd (fst c))) in
  Applications.fiducial_angle (Applications.detected_marks circles)
  = AOIService.angle_of_marks (Comprehension.marks_of circles)
  <-> (x c1 <= x c2)%Z /\ (y c1 <= y c2)%Z.
Proof.
  destruct c1 as [[x1 y1] r1], c2 as [[x2 y2] r2]. cbv zeta.
  unfold Applications.detected_marks, Comprehension.marks_of,
    AOIService.uint16_around.
  cbn [map List.length seq combine fst snd Comprehension.mark_of
       Applications.fiducial_angle AOIService.angle_of_marks
       Mark.position Position.x Position.y].
  rewrite <- (wrapped_angle_agrees_iff
                (Py.uint16 (Py.rint x1)) (Py.uint16 (Py.rint y1))
                (Py.uint16 (Py.rint x2)) (Py.uint16 (Py.rint y2)))
    by apply uint16_range.
  split; intros H; [now injection H | now f_equal].
Qed.

(* ================================================================== *)
(** * Stored images *)
(* ================================================================== *)

Section FileNameFacts.
Import ImageHandler.

Lemma rsplit_without_dot (f : string) :
  contains_dot f = false -> rsplit f = [f].
Proof.
  induction f as [|c f IH]; [reflexivity|].
  cbn [contains_dot rsplit]. intros H.
  apply orb_false_iff in H. destruct H as [Hc Hf].
  rewrite (IH Hf), Hc. reflexivity.
Qed.

Lemma rsplit_at_last_dot (stem ext : string) :
  contains_dot ext = false ->
  rsplit (stem ++ String "." ext) = [stem; ext].
Proof.
  intros Hext. induction stem as [|c stem IH].
  - cbn [String.append rsplit]. rewrite (rsplit_without_dot ext Hext).
    reflexivity.
  - cbn [String.append rsplit]. rewrite IH. reflexivity.
Qed.

Lemma contains_dot_append (stem ext : string) :
  contains_dot (stem ++ String "." ext) = true.
Proof.
  induction stem as [|c stem IH]; cbn [String.append contains_dot].
  - reflexivity.
  - rewrite IH. apply orb_true_r.
Qed.

Lemma rsplit_with_dot (f : string) :
  contains_dot f = true ->
  exists stem ext,
    f = (stem ++ String "." ext)%string /\ contains_dot ext = false.
Proof.
  induction f as [|c f IH]; [discriminate|].
  cbn [contains_dot]. intros H.
  destruct (contains_dot f) eqn:Hf.
  - destruct (IH eq_refl) as (stem & ext & -> & Hext).
    exists (String c stem), ext. split; [reflexivity | exact Hext].
  - rewrite orb_false_r in H. apply Ascii.eqb_eq in H. subst c.
    exists EmptyString, f. split; [reflexivity | exact Hf].
Qed.

Lemma allowed_extension_In (ext : string) :
  existsb (String.eqb (lower ext)) ALLOWED_EXTENSIONS = true
  <-> In (lower ext) ALLOWED_EXTENSIONS.
Proof.
  rewrite existsb_exists. split.
  - intros (e & He & Heq). apply String.eqb_eq in Heq. now subst e.
  - intros H. exists (lower ext). split; [exact H | apply String.eqb_refl].
Qed.

Lemma allowed_file_parts (stem ext : string) :
  contains_dot ext = false ->
  allowed_file (stem ++ String "." ext)
  = existsb (String.eqb (lower ext)) ALLOWED_EXTENSIONS.
Proof.
  intros Hext. unfold allowed_file.
  rewrite contains_dot_append, (rsplit_at_last_dot stem ext Hext).
  reflexivity.
Qed.

End FileNameFacts.

Section FolderFacts.
Import os.

Lemma path_exists_remove (fs : files) (p q : string) :
  path_exists (remove fs p) q = negb (String.eqb p q) && path_exists fs q.
Proof.
  unfold path_exists, remove. induction fs as [|[p' d] fs IH];
    cbn [filter existsb fst].
  - now rewrite andb_false_r.
  - destruct (String.eqb p' p) eqn:Hp; cbn [negb existsb fst].
    + apply String.eqb_eq in Hp. subst p'. rewrite IH.
      destruct (String.eqb p q); reflexivity.
    + rewrite IH. destruct (String.eqb p' q) eqn:Hq; cbn [orb].
      * apply String.eqb_eq in Hq. subst q.
        rewrite String.eqb_sym, Hp. reflexivity.
      * reflexivity.
Qed.

Lemma path_exists_write (fs : files) (p d q : string) :
  path_exists (write fs p d) q = String.eqb p q || path_exists fs q.
Proof.
  unfold write. change (path_exists ((p, d) :: remove fs p) q)
    with (String.eqb p q || path_exists (remove fs p) q).
  rewrite path_exists_remove. destruct (String.eqb p q); reflexivity.
Qed.

Lemma read_write (fs : files) (p d : string) : read (write fs p d) p = Some d.
Proof.
  unfold read, write. cbn [find fst]. now rewrite String.eqb_refl.
Qed.

Lemma remove_write (fs : files) (p d : string) :
  remove (write fs p d) p = remove fs p.
Proof.
  unfold write. unfold remove at 1. cbn [filter fst].
  rewrite String.eqb_refl. cbn [negb].
  unfold remove. induction fs as [|[p' d'] fs IH]; cbn [filter fst];
    [reflexivity|].
  destruct (String.eqb p' p) eqn:Hp; cbn [negb filter fst].
  - exact IH.
  - rewrite Hp. cbn [negb]. now rewrite IH.
Qed.

Variable join : string -> string -> string.

Lemma get_image_path_loop_sound (fs : files) (id folder : string)
    (exts : list string) (p : string) :
  ImageHandler.get_image_path_loop join fs id folder exts = Some p ->
  path_exists fs p = true /\
  exists e, In e exts /\ p = join folder (id ++ "." ++ e)%string.
Proof.
  induction exts as [|e exts IH]; [discriminate|].
  cbn [ImageHandler.get_image_path_loop].
  destruct (path_exists fs (join folder (id ++ "." ++ e)%string)) eqn:He.
  - intros H. injection H as <-. split; [exact He|].
    exists e. split; [now left | reflexivity].
  - intros H. destruct (IH H) as (Hp & e' & He' & ->).
    split; [exact Hp|]. exists e'. split; [now right | reflexivity].
Qed.

Lemma get_image_path_loop_none (fs : files) (id folder : string)
    (exts : list string) :
  ImageHandler.get_image_path_loop join fs id folder exts = None <->
  forall e, In e exts ->
            path_exists fs (join folder (id ++ "." ++ e)%string) = false.
Proof.
  induction exts as [|e exts IH]; cbn [ImageHandler.get_image_path_loop].
  - split; [intros _ e [] | reflexivity].
  - destruct (path_exists fs (join folder (id ++ "." ++ e)%string)) eqn:He.
    + split; [discriminate|]. intros H.
      rewrite (H e (or_introl eq_refl)) in He. discriminate.
    + rewrite IH. split.
      * intros H e' [<- | He']; [exact He | now apply H].
      * intros H e' He'. apply H. now right.
Qed.

End FolderFacts.

(** X19. A file name is accepted exactly when it has a dot and the part
    after its last dot, in lower case, is one of png, jpg, jpeg, bmp and
    tiff: only the last extension counts, and its case does not. *)
Theorem allowed_file_spec (f : string) :
  ImageHandler.allowed_file f = true <->
  exists stem ext,
    f = (stem ++ "." ++ ext)%string /\
    ImageHandler.contains_dot ext = false /\
    In (ImageHandler.lower ext) ImageHandler.ALLOWED_EXTENSIONS.
Proof.
  split.
  - intros H. unfold ImageHandler.allowed_file in H.
    apply andb_true_iff in H. destruct H as [Hdot Hext].
    destruct (rsplit_with_dot f Hdot) as (stem & ext & -> & Hnodot).
    rewrite (rsplit_at_last_dot stem ext Hnodot) in Hext.
    cbn [nth_error] in Hext. apply allowed_extension_In in Hext.
    exists stem, ext. repeat split; assumption.
  - intros (stem & ext & -> & Hnodot & Hin).
    change (stem ++ "." ++ ext)%string with (stem ++ String "." ext)%string.
    rewrite (allowed_file_parts stem ext Hnodot).
    now apply allowed_extension_In.
Qed.

(** X20. Given that the loop visits exactly the allowed extensions, the
    lookup of an image identifier answers with a path only if a file exists
    at that path and the path is the folder joined with the identifier, a
    dot and an allowed extension; it answers None exactly when no such file
    exists. *)
Theorem get_image_path_spec (join : string -> string -> string)
    (iteration : list string) (fs : os.files) (id folder : string) :
  (forall e, In e iteration <-> In e ImageHandler.ALLOWED_EXTENSIONS) ->
  match ImageHandler.get_image_path join iteration fs id folder with
  | Some p =>
      os.path_exists fs p = true /\
      exists e, In e ImageHandler.ALLOWED_EXTENSIONS /\
                p = join folder (id ++ "." ++ e)%string
  | None =>
      forall e, In e ImageHandler.ALLOWED_EXTENSIONS ->
                os.path_exists fs (join folder (id ++ "." ++ e)%string) = false
  end.
Proof.
  intros Hiter. unfold ImageHandler.get_image_path.
  destruct (ImageHandler.get_image_path_loop join fs id folder iteration)
    as [p|] eqn:Hloop.
  - destruct (get_image_path_loop_sound join fs id folder iteration p Hloop)
      as (Hp & e & He & ->).
    split; [exact Hp|]. exists e. split; [now apply Hiter | reflexivity].
  - intros e He.
    apply (proj1 (get_image_path_loop_none join fs id folder iteration) Hloop).
    now apply Hiter.
Qed.

Lemma get_image_path_spec_witness :
  os.path_exists [("uploads/abc.jpg", "data")]%string "uploads/abc.jpg" = true /\
  exists e, In e ImageHandler.ALLOWED_EXTENSIONS /\
            "uploads/abc.jpg"%string
            = ("uploads" ++ "/" ++ "abc" ++ "." ++ e)%string.
Proof.
  refine (get_image_path_spec (fun a b => (a ++ "/" ++ b)%string)
            ["tiff"; "bmp"; "jpeg"; "jpg"; "png"]%string
            [("uploads/abc.jpg", "data")]%string "abc" "uploads" _).
  intros e. unfold ImageHandler.ALLOWED_EXTENSIONS. simpl. tauto.
Defined.

Section UploadFacts.
Import os ImageHandler.
Variable join : string -> string -> string.
Variable imdecode : string -> option (Z * Z * option Z).
Variable secure_filename : string -> string.

(** The three ways in which [save_uploaded_image] ends. *)
Lemma save_uploaded_image_cases (file : FileStorage.t) (folder id : string)
    (fs : files) :
  let name := FileStorage.filename file in
  let data := FileStorage.content file in
  (allowed_file name = false /\
   save_uploaded_image join imdecode secure_filename file folder id fs
   = (fs, inr (ValueError "Bad type"))) \/
  (exists ext,
     allowed_file name = true /\ In ext ALLOWED_EXTENSIONS /\
     let path := join folder (id ++ "." ++ ext)%string in
     (imdecode data = None /\
      save_uploaded_image join imdecode secure_filename file folder id fs
      = (remove fs path, inr (ValueError "Bad image"))) \/
     (exists h w c,
        imdecode data = Some (h, w, c) /\
        save_uploaded_image join imdecode secure_filename file folder id fs
        = (write fs path data,
           inl (id, path,
                {| ImageInfo.image_id := id;
                   ImageInfo.filename := secure_filename name;
                   ImageInfo.path := path;
                   ImageInfo.width := w;
                   ImageInfo.height := h;
                   ImageInfo.channels :=
                     match c with Some _ => 3%Z | None => 1%Z end |})))).
Proof.
  cbv zeta. unfold save_uploaded_image.
  destruct (allowed_file (FileStorage.filename file)) eqn:Hallowed;
    cbn [negb]; [right | left; split; reflexivity].
  unfold allowed_file in Hallowed. apply andb_true_iff in Hallowed.
  destruct Hallowed as [Hdot Hext].
  destruct (rsplit_with_dot _ Hdot) as (stem & ext & Hname & Hnodot).
  rewrite Hname in Hext |- *.
  rewrite (rsplit_at_last_dot stem ext Hnodot) in Hext |- *.
  cbn [nth_error] in Hext. cbn [nth].
  exists (lower ext). split; [reflexivity|].
  split; [now apply allowed_extension_In|].
  unfold imread. rewrite read_write, remove_write.
  destruct (imdecode (FileStorage.content file)) as [[[h w] c]|].
  - right. exists h, w, c. split; reflexivity.
  - left. split; reflexivity.
Qed.

End UploadFacts.

(** What a successful save leaves in the folder. *)
Lemma save_uploaded_image_found (join : string -> string -> string)
    (imdecode : string -> option (Z * Z * option Z))
    (secure_filename : string -> string) (iteration : list string)
    (file : FileStorage.t) (folder id : string) (fs fs' : os.files)
    (id' path : string) (info : ImageInfo.t) :
  (forall e, In e iteration <-> In e ImageHandler.ALLOWED_EXTENSIONS) ->
  ImageHandler.save_uploaded_image join imdecode secure_filename
    file folder id fs = (fs', inl (id', path, info)) ->
  id' = id /\ ImageInfo.image_id info = id /\ ImageInfo.path info = path /\
  os.read fs' path = Some (FileStorage.content file) /\
  (exists e, In e ImageHandler.ALLOWED_EXTENSIONS /\
             path = join folder (id ++ "." ++ e)%string) /\
  (exists p, ImageHandler.get_image_path join iteration fs' id folder = Some p /\
             os.path_exists fs' p = true) /\
  ((forall e, In e ImageHandler.ALLOWED_EXTENSIONS ->
              os.path_exists fs (join folder (id ++ "." ++ e)%string) = false) ->
   ImageHandler.get_image_path join iteration fs' id folder = Some path).
Proof.
  intros Hiter Hsave.
  destruct (save_uploaded_image_cases join imdecode secure_filename
              file folder id fs)
    as [[_ Hbad] | (ext & _ & Hext & [[_ Hbad] | (h & w & c & _ & Hok)])];
    try (rewrite Hbad in Hsave; discriminate).
  cbv zeta in Hok. rewrite Hok in Hsave. injection Hsave as <- <- <- <-.
  set (path := join folder (id ++ "." ++ ext)%string).
  set (fs' := os.write fs path (FileStorage.content file)).
  assert (Hexists : os.path_exists fs' path = true).
  { unfold fs'. rewrite path_exists_write, String.eqb_refl. reflexivity. }
  assert (Hfound : exists p,
             ImageHandler.get_image_path join iteration fs' id folder = Some p).
  { unfold ImageHandler.get_image_path.
    destruct (ImageHandler.get_image_path_loop join fs' id folder iteration)
      as [p|] eqn:Hloop; [now exists p|].
    exfalso.
    pose proof (proj1 (get_image_path_loop_none join fs' id folder iteration)
                      Hloop ext (proj2 (Hiter ext) Hext)) as Hnone.
    fold path in Hnone. rewrite Hexists in Hnone. discriminate. }
  destruct Hfound as [p Hp].
  destruct (get_image_path_loop_sound join fs' id folder iteration p Hp)
    as (Hpexists & e & He & Hpe).
  split; [reflexivity|]. split; [reflexivity|]. split; [reflexivity|].
  split; [unfold fs'; apply read_write|].
  split; [exists ext; split; [exact Hext | reflexivity]|].
  split; [exists p; split; [exact Hp | exact Hpexists]|].
  intros Hfresh.
  change (ImageHandler.get_image_path join iteration fs' id folder
          = Some path).
  rewrite Hp. f_equal.
  { 
unfold fs' in Hpexists. rewrite path_exists_write in Hpexists.
    destruct (String.eqb path p) eqn:Hsame.
    + apply String.eqb_eq in Hsame. now symmetry.
    + cbn [orb] in Hpexists. subst p.
      rewrite (Hfresh e (proj1 (Hiter e) He)) in Hpexists. discriminate. }
Qed.


(** X21. An image that was saved is found again by its identifier: after
    a successful save a file with the uploaded content exists at the
    returned path, whose extension is an allowed one, the lookup of the
    returned identifier answers with an existing path, and when no file of
    that identifier existed before, with exactly the returned path. *)
Theorem saved_image_is_found (join : string -> string -> string)
    (imdecode : string -> option (Z * Z * option Z))
    (secure_filename : string -> string) (iteration : list string)
    (file : FileStorage.t) (folder id : string) (fs fs' : os.files)
    (id' path : string) (info : ImageInfo.t) :
  (forall e, In e iteration <-> In e ImageHandler.ALLOWED_EXTENSIONS) ->
  ImageHandler.save_uploaded_image join imdecode secure_filename
    file folder id fs = (fs', inl (id', path, info)) ->
  id' = id /\ ImageInfo.image_id info = id /\ ImageInfo.path info = path /\
  os.read fs' path = Some (FileStorage.content file) /\
  (exists e, In e ImageHandler.ALLOWED_EXTENSIONS /\
             path = join folder (id ++ "." ++ e)%string) /\
  (exists p, ImageHandler.get_image_path join iteration fs' id folder = Some p /\
             os.path_exists fs' p = true) /\
  ((forall e, In e ImageHandler.ALLOWED_EXTENSIONS ->
              os.path_exists fs (join folder (id ++ "." ++ e)%string) = false) ->
   ImageHandler.get_image_path join iteration fs' id folder = Some path).
Proof.
  apply save_uploaded_image_found.
Qed.

Lemma saved_image_is_found_witness :
  ImageHandler.get_image_path (fun a b => (a ++ "/" ++ b)%string)
    ["tiff"; "bmp"; "jpeg"; "jpg"; "png"]%string
    [("uploads/abc.png", "data")]%string "abc" "uploads"
  = Some "uploads/abc.png"%string.
Proof.
  refine (proj2 (proj2 (proj2 (proj2 (proj2 (proj2
            (saved_image_is_found (fun a b => (a ++ "/" ++ b)%string)
               (fun _ => Some (4, 6, Some 3)%Z) (fun s => s)
               ["tiff"; "bmp"; "jpeg"; "jpg"; "png"]%string
               {| FileStorage.filename := "Board.PNG";
                  FileStorage.content := "data" |}
               "uploads" "abc" [] [("uploads/abc.png", "data")]%string
               "abc" "uploads/abc.png"
               {| ImageInfo.image_id := "abc";
                  ImageInfo.filename := "Board.PNG";
                  ImageInfo.path := "uploads/abc.png";
                  ImageInfo.width := 6; ImageInfo.height := 4;
                  ImageInfo.channels := 3 |} _ eq_refl)))))) _).
  - intros e. unfold ImageHandler.ALLOWED_EXTENSIONS. simpl. tauto.
  - intros e _. reflexivity.
Defined.

(** X22. A save that fails leaves no file behind.  A name that is not
    accepted raises ValueError (Bad type) and the folder is unchanged.  An
    accepted name whose content cannot be decoded raises ValueError (Bad
    image); the folder is then as before except that no file exists at the
    path that was tried. *)
Theorem failed_save_leaves_no_file (join : string -> string -> string)
    (imdecode : string -> option (Z * Z * option Z))
    (secure_filename : string -> string)
    (file : FileStorage.t) (folder id : string) (fs fs' : os.files)
    (e : ImageHandler.exn) :
  ImageHandler.save_uploaded_image join imdecode secure_filename
    file folder id fs = (fs', inr e) ->
  (ImageHandler.allowed_file (FileStorage.filename file) = false /\
   e = ImageHandler.ValueError "Bad type" /\ fs' = fs) \/
  (ImageHandler.allowed_file (FileStorage.filename file) = true /\
   imdecode (FileStorage.content file) = None /\
   e = ImageHandler.ValueError "Bad image" /\
   exists ext,
     In ext ImageHandler.ALLOWED_EXTENSIONS /\
     let path := join folder (id ++ "." ++ ext)%string in
     fs' = os.remove fs path /\
     os.path_exists fs' path = false /\
     forall q, q <> path -> os.path_exists fs' q = os.path_exists fs q).
Proof.
  intros Hsave.
  destruct (save_uploaded_image_cases join imdecode secure_filename
              file folder id fs)
    as [[Hname Hbad] | (ext & Hname & Hext &
                        [[Hdata Hbad] | (h & w & c & _ & Hok)])].
  - rewrite Hbad in Hsave. injection Hsave as <- <-. left. now repeat split.
  - cbv zeta in Hbad.
    set (path := join folder (id ++ "." ++ ext)%string) in *.
    rewrite Hbad in Hsave. injection Hsave as <- <-.
    right. split; [exact Hname|]. split; [exact Hdata|].
    split; [reflexivity|].
    exists ext. split; [exact Hext|]. cbv zeta. fold path.
    split; [reflexivity|]. split.
    + rewrite path_exists_remove, String.eqb_refl. reflexivity.
    + intros q Hq. rewrite path_exists_remove.
      destruct (String.eqb path q) eqn:Heq; [|reflexivity].
      apply String.eqb_eq in Heq. now symmetry in Heq.
  - cbv zeta in Hok. rewrite Hok in Hsave. discriminate.
Qed.

Lemma failed_save_leaves_no_file_witness :
  ImageHandler.allowed_file "notes.txt" = false /\
  ImageHandler.allowed_file "scan.png" = true.
Proof.
  split.
  - destruct (failed_save_leaves_no_file (fun a b => (a ++ "/" ++ b)%string)
                (fun _ => None) (fun s => s)
                {| FileStorage.filename := "notes.txt";
                   FileStorage.content := "text" |}
                "uploads" "abc" [] [] (ImageHandler.ValueError "Bad type")
                eq_refl) as [[H _] | [H _]]; [exact H | discriminate H].
  - destruct (failed_save_leaves_no_file (fun a b => (a ++ "/" ++ b)%string)
                (fun _ => None) (fun s => s)
                {| FileStorage.filename := "scan.png";
                   FileStorage.content := "text" |}
                "uploads" "abc" [] [] (ImageHandler.ValueError "Bad image")
                eq_refl) as [[H _] | [H _]]; [discriminate H | exact H].
Defined.

(** X23. The upload route answers 400 (NO_FILE) exactly when the request
    holds no file or a file without a name, and then stores nothing; a
    file whose name is not accepted or whose content cannot be decoded is
    answered with 500 (ERROR) and the message of the exception, not with a
    400; the answer is 200 exactly when the name is accepted and the
    content decodes, and then carries the identifier that was drawn. *)
Theorem upload_image_status (join : string -> string -> string)
    (imdecode : string -> option (Z * Z * option Z))
    (secure_filename : string -> string) (UPLOAD_FOLDER : string)
    (image : option FileStorage.t) (id : string) (fs : os.files) :
  let out := Upload.upload_image join imdecode secure_filename UPLOAD_FOLDER
               image id fs in
  match snd out with
  | Upload.success status image_id filename width height =>
      status = 200%Z /\ image_id = id /\
      exists file,
        image = Some file /\ FileStorage.filename file <> EmptyString /\
        ImageHandler.allowed_file (FileStorage.filename file) = true /\
        filename = secure_filename (FileStorage.filename file) /\
        exists c, imdecode (FileStorage.content file)
                  = Some (height, width, c)
  | Upload.failure status code message =>
      (status = 400%Z /\ code = "NO_FILE"%string /\ fst out = fs /\
       (image = None \/
        exists file, image = Some file /\
                     FileStorage.filename file = EmptyString)) \/
      (status = 500%Z /\ code = "ERROR"%string /\
       exists file,
         image = Some file /\ FileStorage.filename file <> EmptyString /\
         ((ImageHandler.allowed_file (FileStorage.filename file) = false /\
           message = "Bad type"%string /\ fst out = fs) \/
          (ImageHandler.allowed_file (FileStorage.filename file) = true /\
           imdecode (FileStorage.content file) = None /\
           message = "Bad image"%string)))
  end.
Proof.
  cbv zeta. unfold Upload.upload_image.
  destruct image as [file|]; [|left; cbn; repeat split; now left].
  destruct (String.eqb (FileStorage.filename file) EmptyString) eqn:Hname.
  - apply String.eqb_eq in Hname. left. cbn. repeat split.
    right. now exists file.
  - apply String.eqb_neq in Hname.
    destruct (save_uploaded_image_cases join imdecode secure_filename
                file UPLOAD_FOLDER id fs)
      as [[Hallowed ->] | (ext & Hallowed & Hext &
                           [[Hdata ->] | (h & w & c & Hdata & ->)])];
      cbn [fst snd ImageInfo.image_id ImageInfo.filename ImageInfo.width
           ImageInfo.height].
    + right. repeat split. exists file. repeat split; try assumption.
      left. now repeat split.
    + right. repeat split. exists file. repeat split; try assumption.
      right. now repeat split.
    + repeat split. exists file. repeat split; try assumption.
      now exists c.
Qed.

(* ================================================================== *)
(** * The measurement and fiducial routes *)
(* ================================================================== *)

Section ProcessRouteFacts.
Import cv2 Py Json ProcessRoutes.
Context {cv : OpenCV}.
Variable get_image_path : value -> option string.
Variable image_to_base64 : Mat3 -> string.
Variable measure_dimensions_other
  : string -> value -> outcome MeasureResult.t.
Variable detect_fiducial_marks_other
  : string -> value -> value -> outcome FiducialResult.t.


(** The two handlers, case by case on the parsed body. *)
Lemma measurement_answer (body : outcome value) :
  measurement get_image_path image_to_base64 measure_dimensions_other body
  = match body with
    | Raise e => failure 500 "ERROR" (Some e)
    | Ok (object members) =>
        match lookup "image_id" members with
        | None => failure 500 "ERROR" (Some KeyError)
        | Some id =>
            match get_image_path id with
            | None => failure 404 "NOT_FOUND" None
            | Some p =>
                match cal (object members) with
                | Raise e => failure 500 "ERROR" (Some e)
                | Ok scale =>
                    match measure_dimensions_with measure_dimensions_other
                            p scale with
                    | Ok r =>
                        success 200 (MeasureResult.measurements r)
                          (image_to_base64 (MeasureResult.annotated_image r))
                    | Raise e => failure 500 "ERROR" (Some e)
                    end
                end
            end
        end
    | Ok _ => failure 500 "ERROR" (Some TypeError)
    end.
Proof.
  unfold measurement.
  destruct body as [d|e]; [|reflexivity].
  destruct d as [| b | z | x | token | t | items | members];
    try reflexivity.
  cbn [bind getitem].
  destruct (lookup "image_id" members) as [id|]; [|reflexivity].
  cbn [bind]. destruct (get_image_path id) as [p|]; [|reflexivity].
  destruct (cal (object members)) as [scale|e]; [|reflexivity].
  cbn [bind].
  destruct (measure_dimensions_with measure_dimensions_other p scale);
    reflexivity.
Qed.

Lemma fiducial_detection_answer (body : outcome value) :
  fiducial_detection get_image_path image_to_base64
    detect_fiducial_marks_other body
  = match body with
    | Raise e => failure 500 "ERROR" (Some e)
    | Ok (object members) =>
        match lookup "image_id" members with
        | None => failure 500 "ERROR" (Some KeyError)
        | Some id =>
            match get_image_path id with
            | None => failure 404 "NOT_FOUND" None
            | Some p =>
                let minr :=
                  match lookup "min_radius" members with
                  | Some v => v
                  | None => integer 5
                  end in
                let maxr :=
                  match lookup "max_radius" members with
                  | Some v => v
                  | None => integer 25
                  end in
                match detect_fiducial_marks_with detect_fiducial_marks_other
                        p minr maxr with
                | Ok r =>
                    success 200
                      (FiducialResult.marks r,
                       FiducialResult.rotation_angle r)
                      (image_to_base64 (FiducialResult.annotated_image r))
                | Raise e => failure 500 "ERROR" (Some e)
                end
            end
        end
    | Ok _ => failure 500 "ERROR" (Some TypeError)
    end.
Proof.
  unfold fiducial_detection.
  destruct body as [d|e]; [|reflexivity].
  destruct d as [| b | z | x | token | t | items | members];
    try reflexivity.
  cbn [bind getitem get].
  destruct (lookup "image_id" members) as [id|]; [|reflexivity].
  cbn [bind]. destruct (get_image_path id) as [p|]; [|reflexivity].
  destruct (lookup "min_radius" members) as [minr|];
    destruct (lookup "max_radius" members) as [maxr|]; cbn [bind];
    destruct (detect_fiducial_marks_with detect_fiducial_marks_other p _ _);
    reflexivity.
Qed.

End ProcessRouteFacts.


(** X25. The fiducial route answers 404 (NOT_FOUND) exactly when the body
    is a JSON object whose image_id the lookup does not find, and 500
    (ERROR) when the body is not JSON, is not an object (TypeError) or has
    no image_id (KeyError).  For an image that is found and radii that are
    ints, 5 and 25 when the body gives none, it answers 200 with the marks
    and the rotation of the locator when OpenCV reads the file and both
    radii are in the range of a C int, and 500 with OpenCV's error
    otherwise. *)
Theorem fiducial_route_status {cv : cv2.OpenCV}
    (get_image_path : Json.value -> option string)
    (image_to_base64 : cv2.Mat3 -> string)
    (detect_fiducial_marks_other
       : string -> Json.value -> Json.value -> Py.outcome FiducialResult.t)
    (body : Py.outcome Json.value) :
  let answer := ProcessRoutes.fiducial_detection get_image_path
                  image_to_base64 detect_fiducial_marks_other body in
  (answer = ProcessRoutes.failure 404 "NOT_FOUND" None <->
   exists members id,
     body = Py.Ok (Json.object members) /\
     Json.lookup "image_id" members = Some id /\
     get_image_path id = None) /\
  (forall e, body = Py.Raise e ->
     answer = ProcessRoutes.failure 500 "ERROR" (Some e)) /\
  (forall d, body = Py.Ok d -> (forall members, d <> Json.object members) ->
     answer = ProcessRoutes.failure 500 "ERROR" (Some Py.TypeError)) /\
  (forall members, body = Py.Ok (Json.object members) ->
     Json.lookup "image_id" members = None ->
     answer = ProcessRoutes.failure 500 "ERROR" (Some Py.KeyError)) /\
  (forall members id p (minr maxr : Z),
     body = Py.Ok (Json.object members) ->
     Json.lookup "image_id" members = Some id ->
     get_image_path id = Some p ->
     Json.lookup "min_radius" members = Some (Json.integer minr) \/
     (Json.lookup "min_radius" members = None /\ minr = 5%Z) ->
     Json.lookup "max_radius" members = Some (Json.integer maxr) \/
     (Json.lookup "max_radius" members = None /\ maxr = 25%Z) ->
     match cv2.imread p 0%Z, cv2.is_int minr && cv2.is_int maxr with
     | Some _, true =>
         exists r,
           AOIService.detect_fiducial_marks p minr maxr = Py.Ok r /\
           answer
           = ProcessRoutes.success 200
               (FiducialResult.marks r, FiducialResult.rotation_angle r)
               (image_to_base64 (FiducialResult.annotated_image r))
     | _, _ =>
         answer = ProcessRoutes.failure 500 "ERROR" (Some Py.cv2_error)
     end).
Proof.
  cbv zeta. rewrite fiducial_detection_answer.
  split; [|split; [|split; [|split]]].
  - split.
    + destruct body as [d|e]; [|discriminate].
      destruct d as [| b | z | x | token | t | items | members];
        try discriminate.
      destruct (Json.lookup "image_id" members) as [id|] eqn:Hid;
        [|discriminate].
      destruct (get_image_path id) as [p|] eqn:Hp.
      * cbv zeta.
        destruct (ProcessRoutes.detect_fiducial_marks_with _ p _ _);
          discriminate.
      * intros _. exists members, id. now repeat split.
    + intros (members & id & -> & Hid & Hp). now rewrite Hid, Hp.
  - intros e ->. reflexivity.
  - intros d -> Hd.
    destruct d as [| b | z | x | token | t | items | members];
      try reflexivity.
    exfalso. now apply (Hd members).
  - intros members -> Hid. now rewrite Hid.
  - intros members id p minr maxr -> Hid Hp Hmin Hmax. rewrite Hid, Hp.
    cbv zeta.
    assert (Hminr : match Json.lookup "min_radius" members with
                    | Some v => v
                    | None => Json.integer 5
                    end = Json.integer minr)
      by (destruct Hmin as [-> | [-> ->]]; reflexivity).
    assert (Hmaxr : match Json.lookup "max_radius" members with
                    | Some v => v
                    | None => Json.integer 25
                    end = Json.integer maxr)
      by (destruct Hmax as [-> | [-> ->]]; reflexivity).
    rewrite Hminr, Hmaxr. cbn [ProcessRoutes.detect_fiducial_marks_with].
    destruct (cv2.imread p 0%Z) as [img|] eqn:Himg.
    + destruct (cv2.is_int minr && cv2.is_int maxr) eqn:Hradii.
      * destruct (detect_fiducial_marks_readable p minr maxr img Himg Hradii)
          as [r Hr].
        exists r. rewrite Hr. now split.
      * unfold AOIService.detect_fiducial_marks. rewrite Himg, Hradii.
        reflexivity.
    + unfold AOIService.detect_fiducial_marks. rewrite Himg. reflexivity.
Qed.

(** X26. An image that the upload route accepted is never answered with
    NOT_FOUND: for a body whose image_id is the identifier of the 200
    answer each of the three processing routes finds a stored file and
    answers 200 or 500 (ERROR); for the body that gives that image_id and
    nothing else they answer 200 when OpenCV reads the file, and 500 with
    OpenCV's error when it does not. *)
Theorem uploaded_image_is_processed {cv : cv2.OpenCV}
    (join : string -> string -> string)
    (imdecode : string -> option (Z * Z * option Z))
    (secure_filename : string -> string) (iteration : list string)
    (UPLOAD_FOLDER : string) (image_to_base64 : cv2.Mat3 -> string)
    (get_image_path : Json.value -> option string)
    (detect_defects_other
       : string -> Json.value -> Py.outcome DefectResult.t)
    (measure_dimensions_other
       : string -> Json.value -> Py.outcome MeasureResult.t)
    (detect_fiducial_marks_other
       : string -> Json.value -> Json.value -> Py.outcome FiducialResult.t)
    (image : option FileStorage.t) (id : string) (fs fs' : os.files)
    (image_id filename : string) (width height : Z) :
  (forall e, In e iteration <-> In e ImageHandler.ALLOWED_EXTENSIONS) ->
  Upload.upload_image join imdecode secure_filename UPLOAD_FOLDER image id fs
    = (fs', Upload.success 200 image_id filename width height) ->
  (forall i : string,
     get_image_path (Json.text i)
     = ImageHandler.get_image_path join iteration fs' i UPLOAD_FOLDER) ->
  let defects := Routes.defect_detection get_image_path image_to_base64
                   detect_defects_other in
  let measures := ProcessRoutes.measurement get_image_path image_to_base64
                    measure_dimensions_other in
  let marks := ProcessRoutes.fiducial_detection get_image_path
                 image_to_base64 detect_fiducial_marks_other in
  exists p,
    get_image_path (Json.text image_id) = Some p /\
    os.path_exists fs' p = true /\
    (forall members,
       Json.lookup "image_id" members = Some (Json.text image_id) ->
       let body := Py.Ok (Json.object members) in
       match defects body with
       | Routes.success status _ _ _ => status = 200%Z
       | Routes.failure status code _ =>
           status = 500%Z /\ code = "ERROR"%string
       end /\
       match measures body with
       | ProcessRoutes.success status _ _ => status = 200%Z
       | ProcessRoutes.failure status code _ =>
           status = 500%Z /\ code = "ERROR"%string
       end /\
       match marks body with
       | ProcessRoutes.success status _ _ => status = 200%Z
       | ProcessRoutes.failure status code _ =>
           status = 500%Z /\ code = "ERROR"%string
       end) /\
    (let body :=
       Py.Ok (Json.object [("image_id"%string, Json.text image_id)]) in
     match cv2.imread p 0%Z with
     | Some _ =>
         (exists d n i, defects body = Routes.success 200 d n i) /\
         (exists m i, measures body = ProcessRoutes.success 200 m i) /\
         (exists m i, marks body = ProcessRoutes.success 200 m i)
     | None =>
         defects body = Routes.failure 500 "ERROR" (Some Py.cv2_error) /\
         measures body
         = ProcessRoutes.failure 500 "ERROR" (Some Py.cv2_error) /\
         marks body = ProcessRoutes.failure 500 "ERROR" (Some Py.cv2_error)
     end).
Proof.
  intros Hiter Hupload Hlookup. cbv zeta.
  unfold Upload.upload_image in Hupload.
  destruct image as [file|]; [|discriminate].
  destruct (String.eqb (FileStorage.filename file) EmptyString);
    [discriminate|].
  destruct (ImageHandler.save_uploaded_image join imdecode secure_filename
              file UPLOAD_FOLDER id fs) as [fs1 [[[id1 path] info]|[msg]]]
    eqn:Hsave; [|discriminate].
  injection Hupload as <- <- _ _ _.
  destruct (save_uploaded_image_found join imdecode secure_filename iteration
              file UPLOAD_FOLDER id fs fs1 id1 path info Hiter Hsave)
    as (_ & -> & _ & _ & _ & (p & Hp & Hexists) & _).
  rewrite <- Hlookup in Hp.
  exists p. split; [exact Hp|]. split; [exact Hexists|]. split.
  - intros members Hid.
    rewrite defect_detection_answer, measurement_answer,
      fiducial_detection_answer.
    rewrite Hid, Hp. cbv zeta. split; [|split].
    + destruct (Routes.detect_defects_with _ p _); [reflexivity | now split].
    + destruct (ProcessRoutes.cal (Json.object members)) as [scale|e];
        [|now split].
      destruct (ProcessRoutes.measure_dimensions_with _ p scale);
        [reflexivity | now split].
    + destruct (ProcessRoutes.detect_fiducial_marks_with _ p _ _);
        [reflexivity | now split].
  - rewrite defect_detection_answer, measurement_answer,
      fiducial_detection_answer.
    cbn [Json.lookup]. rewrite String.eqb_refl.
    change (String.eqb "image_id" "threshold") with false.
    change (String.eqb "image_id" "min_radius") with false.
    change (String.eqb "image_id" "max_radius") with false.
    cbv iota. rewrite Hp. cbv zeta.
    change (ProcessRoutes.cal (Json.object [("image_id"%string, _)]))
      with (Py.Ok (Json.number (1 / 10))).
    cbn [Routes.detect_defects_with ProcessRoutes.measure_dimensions_with
         ProcessRoutes.detect_fiducial_marks_with].
    destruct (cv2.imread p 0%Z) as [img|] eqn:Himg.
    + destruct (detect_defects_readable p None 30 img Himg eq_refl)
        as (r1 & -> & _).
      destruct (measure_dimensions_readable p (1 / 10) img Himg)
        as [res' ->].
      destruct (detect_fiducial_marks_readable p 5 25 img Himg eq_refl)
        as [r3 ->].
      split; [|split]; eexists _, _; try eexists; reflexivity.
    + rewrite (detect_defects_unreadable p None 30 Himg).
      unfold AOIService.measure_dimensions, AOIService.detect_fiducial_marks.
      rewrite Himg. now repeat split.
Qed.

Lemma uploaded_image_is_processed_witness :
  exists p,
    ImageHandler.get_image_path (fun a b => (a ++ "/" ++ b)%string)
      ["tiff"; "bmp"; "jpeg"; "jpg"; "png"]%string
      [("uploads/abc.png", "data")]%string "abc" "uploads" = Some p /\
    os.path_exists [("uploads/abc.png", "data")]%string p = true.
Proof.
  destruct (uploaded_image_is_processed
              (cv := Bench.backend "uploads/abc.png" Bench.striped_panel
                       [] None)
              (fun a b => (a ++ "/" ++ b)%string)
              (fun _ => Some (4, 6, Some 3)%Z) (fun s => s)
              ["tiff"; "bmp"; "jpeg"; "jpg"; "png"]%string
              "uploads" (fun _ => EmptyString)
              (fun v =>
                 match v with
                 | Json.text i =>
                     ImageHandler.get_image_path
                       (fun a b => (a ++ "/" ++ b)%string)
                       ["tiff"; "bmp"; "jpeg"; "jpg"; "png"]%string
                       [("uploads/abc.png", "data")]%string i "uploads"
                 | _ => None
                 end)
              (fun _ _ => Py.Raise Py.TypeError)
              (fun _ _ => Py.Raise Py.TypeError)
              (fun _ _ _ => Py.Raise Py.TypeError)
              (Some {| FileStorage.filename := "Board.PNG";
                       FileStorage.content := "data" |})
              "abc" [] [("uploads/abc.png", "data")]%string
              "abc" "Board.PNG" 6 4) as (p & Hp & Hexists & _).
  - intros e. unfold ImageHandler.ALLOWED_EXTENSIONS. simpl. tauto.
  - reflexivity.
  - reflexivity.
  - exists p. split; assumption.
Defined.

(* ================================================================== *)
(** * Differences below the threshold *)
(* ================================================================== *)

Section ToleranceFacts.
Import cv2 Py AOIService.
Context {cv : OpenCV}.

Lemma threshold_within (a b : Mat) (t maxval : Z) :
  is_int t = true ->
  Tolerance.within t a b ->
  blank (snd (cv2.threshold (absdiff a b) t maxval 0)).
Proof.
  intros Ht H. rewrite (threshold_int _ t maxval Ht).
  unfold absdiff, blank, uniform.
  rewrite map_map. apply Forall_map.
  eapply Forall_impl; [|exact H]. cbn beta. intros rows Hrows.
  rewrite map_map. apply Forall_map.
  eapply Forall_impl; [|exact Hrows]. cbn beta. intros p Hp.
  destruct (Z.ltb_spec t (Z.abs (fst p - snd p))); [lia | reflexivity].
Qed.

Lemma detect_defects_blank_mask (path : string) (t_path : option string)
    (threshold : Z) (img : Mat) :
  opening_keeps_blank cv -> blank_has_no_contour cv ->
  imread path 0%Z = Some img ->
  fits_double threshold = true ->
  blank (snd (cv2.threshold (absdiff (GaussianBlur img (15, 15)%Z 5) img)
                            threshold 255 0)) ->
  detect_defects path t_path threshold
  = Ok {| DefectResult.defects := [];
          DefectResult.defect_count := 0;
          DefectResult.annotated_image := cvtColor img 8%Z |}.
Proof.
  intros Hopen Hcnt Himg Hfits Hblank.
  rewrite (detect_defects_unfold path t_path threshold img Himg Hfits).
  cbv zeta.
  rewrite (Hopen _ _ Hblank), (Hcnt _ _ _ Hblank). reflexivity.
Qed.

End ToleranceFacts.

(** X27. When the threshold is in the range of a C int and no pixel of
    the image differs from its smoothed value by more than the threshold,
    the defect detector reports nothing: the defect list is empty, the
    count is 0 and the annotated image is the plain colour copy of the
    input (OpenCV being assumed to keep blank masks under opening and to
    find no contour in a blank mask). *)
Theorem detect_defects_within_threshold {cv : cv2.OpenCV} (path : string)
    (t_path : option string) (threshold : Z) (img : cv2.Mat) :
  cv2.opening_keeps_blank cv ->
  cv2.blank_has_no_contour cv ->
  cv2.imread path 0%Z = Some img ->
  (cv2.INT_MIN <= threshold <= cv2.INT_MAX)%Z ->
  Tolerance.within threshold (cv2.GaussianBlur img (15, 15)%Z 5) img ->
  AOIService.detect_defects path t_path threshold
  = Py.Ok {| DefectResult.defects := [];
             DefectResult.defect_count := 0;
             DefectResult.annotated_image := cv2.cvtColor img 8%Z |}.
Proof.
  intros Hopen Hcnt Himg Hrange Hwithin.
  apply is_int_spec in Hrange.
  apply detect_defects_blank_mask; try assumption.
  - now apply is_int_fits_double.
  - now apply threshold_within.
Qed.

Lemma detect_defects_within_threshold_witness :
  AOIService.detect_defects
    (cv := Bench.backend "panel.png" Bench.striped_panel [Bench.square 11] None)
    "panel.png" None 60
  = Py.Ok {| DefectResult.defects := [];
             DefectResult.defect_count := 0;
             DefectResult.annotated_image :=
               map (map (fun p => (p, p, p))) Bench.striped_panel |}.
Proof.
  apply (detect_defects_within_threshold
           (cv := Bench.backend "panel.png" Bench.striped_panel
                    [Bench.square 11] None)
           "panel.png" None 60 Bench.striped_panel).
  - apply backend_opening.
  - apply backend_contours.
  - reflexivity.
  - split; discriminate.
  - unfold Tolerance.within. simpl. repeat constructor; simpl; lia.
Defined.

(* ================================================================== *)
(** * Further facts on the compensation, the folder and the defect route *)
(* ================================================================== *)



Section FrameFacts.
Import os.

Lemma read_remove_other (fs : files) (p q : string) :
  q <> p -> read (remove fs p) q = read fs q.
Proof.
  intros Hq. unfold read, remove.
  induction fs as [|[p' d] fs IH]; cbn [filter find fst]; [reflexivity|].
  destruct (String.eqb p' p) eqn:Hp; cbn [negb find fst].
  - apply String.eqb_eq in Hp. subst p'.
    destruct (String.eqb p q) eqn:Hpq.
    + apply String.eqb_eq in Hpq. now symmetry in Hpq.
    + exact IH.
  - destruct (String.eqb p' q); [reflexivity | exact IH].
Qed.

Lemma read_write_other (fs : files) (p d q : string) :
  q <> p -> read (write fs p d) q = read fs q.
Proof.
  intros Hq. unfold write.
  change (read ((p, d) :: remove fs p) q)
    with (match (if String.eqb p q then Some (p, d)
                 else find (fun f => String.eqb (fst f) q) (remove fs p)) with
          | Some f => Some (snd f)
          | None => None
          end).
  destruct (String.eqb p q) eqn:Hpq.
  - apply String.eqb_eq in Hpq. now symmetry in Hpq.
  - now apply read_remove_other.
Qed.

End FrameFacts.

(** X29. Saving an upload touches one path at most: either the folder is
    unchanged, or there is an allowed extension such that every path other
    than the folder joined with the identifier, a dot and that extension
    keeps the content it had, so an upload never disturbs the files of other
    identifiers. *)
Theorem save_uploaded_image_frame (join : string -> string -> string)
    (imdecode : string -> option (Z * Z * option Z))
    (secure_filename : string -> string)
    (file : FileStorage.t) (folder id : string) (fs : os.files) :
  let fs' := fst (ImageHandler.save_uploaded_image join imdecode
                    secure_filename file folder id fs) in
  fs' = fs \/
  exists e,
    In e ImageHandler.ALLOWED_EXTENSIONS /\
    forall q, q <> join folder (id ++ "." ++ e)%string ->
              os.read fs' q = os.read fs q.
Proof.
  cbv zeta.
  destruct (save_uploaded_image_cases join imdecode secure_filename
              file folder id fs)
    as [[_ ->] | (ext & _ & Hext & [[_ ->] | (h & w & c & _ & ->)])];
    cbn [fst].
  - now left.
  - right. exists ext. split; [exact Hext|]. intros q Hq.
    now apply read_remove_other.
  - right. exists ext. split; [exact Hext|]. intros q Hq.
    now apply read_write_other.
Qed.

(** X30. The defect route answers 404 (NOT_FOUND) exactly when the body
    is a JSON object whose image_id the lookup does not find, and 500
    (ERROR) when the body is not JSON, is not an object (TypeError) or has
    no image_id (KeyError).  For an image that is found and a threshold
    that is an int, 30 when the body gives none, it answers 200 with the
    defects of the detector run without a template at that threshold, and
    their number, when OpenCV reads the file and the threshold has a
    double, and 500 with OpenCV's error otherwise.  A 200 answer always
    comes from a body with an image_id that is found. *)
Theorem defect_route_status {cv : cv2.OpenCV}
    (get_image_path : Json.value -> option string)
    (image_to_base64 : cv2.Mat3 -> string)
    (detect_defects_other
       : string -> Json.value -> Py.outcome DefectResult.t)
    (body : Py.outcome Json.value) :
  let answer := Routes.defect_detection get_image_path image_to_base64
                  detect_defects_other body in
  (answer = Routes.failure 404 "NOT_FOUND" None <->
   exists members id,
     body = Py.Ok (Json.object members) /\
     Json.lookup "image_id" members = Some id /\
     get_image_path id = None) /\
  (forall e, body = Py.Raise e ->
     answer = Routes.failure 500 "ERROR" (Some e)) /\
  (forall d, body = Py.Ok d -> (forall members, d <> Json.object members) ->
     answer = Routes.failure 500 "ERROR" (Some Py.TypeError)) /\
  (forall members, body = Py.Ok (Json.object members) ->
     Json.lookup "image_id" members = None ->
     answer = Routes.failure 500 "ERROR" (Some Py.KeyError)) /\
  (forall members id p (threshold : Z),
     body = Py.Ok (Json.object members) ->
     Json.lookup "image_id" members = Some id ->
     get_image_path id = Some p ->
     Json.lookup "threshold" members = Some (Json.integer threshold) \/
     (Json.lookup "threshold" members = None /\ threshold = 30%Z) ->
     match cv2.imread p 0%Z, Py.fits_double threshold with
     | Some _, true =>
         exists r,
           AOIService.detect_defects p None threshold = Py.Ok r /\
           DefectResult.defect_count r
             = Z.of_nat (List.length (DefectResult.defects r)) /\
           answer
           = Routes.success 200 (DefectResult.defects r)
               (DefectResult.defect_count r)
               (image_to_base64 (DefectResult.annotated_image r))
     | _, _ => answer = Routes.failure 500 "ERROR" (Some Py.cv2_error)
     end) /\
  (forall status defects defect_count image,
     answer = Routes.success status defects defect_count image ->
     status = 200%Z /\
     exists members id p,
       body = Py.Ok (Json.object members) /\
       Json.lookup "image_id" members = Some id /\
       get_image_path id = Some p).
Proof.
  cbv zeta. rewrite defect_detection_answer.
  split; [|split; [|split; [|split; [|split]]]].
  - split.
    + destruct body as [d|e]; [|discriminate].
      destruct d as [| b | z | x | token | t | items | members];
        try discriminate.
      destruct (Json.lookup "image_id" members) as [id|] eqn:Hid;
        [|discriminate].
      destruct (get_image_path id) as [p|] eqn:Hp.
      * cbv zeta. destruct (Routes.detect_defects_with _ p _); discriminate.
      * intros _. exists members, id. now repeat split.
    + intros (members & id & -> & Hid & Hp). now rewrite Hid, Hp.
  - intros e ->. reflexivity.
  - intros d -> Hd.
    destruct d as [| b | z | x | token | t | items | members];
      try reflexivity.
    exfalso. now apply (Hd members).
  - intros members -> Hid. now rewrite Hid.
  - intros members id p threshold -> Hid Hp Hthreshold. rewrite Hid, Hp.
    cbv zeta.
    assert (Hv : match Json.lookup "threshold" members with
                 | Some v => v
                 | None => Json.integer 30
                 end = Json.integer threshold)
      by (destruct Hthreshold as [-> | [-> ->]]; reflexivity).
    rewrite Hv. cbn [Routes.detect_defects_with].
    destruct (cv2.imread p 0%Z) as [img|] eqn:Himg.
    + destruct (Py.fits_double threshold) eqn:Hfits.
      * destruct (detect_defects_readable p None threshold img Himg Hfits)
          as (r & Hr & Hcount).
        exists r. rewrite Hr. now repeat split.
      * unfold AOIService.detect_defects. rewrite Himg, Hfits. reflexivity.
    + rewrite (detect_defects_unreadable p None threshold Himg). reflexivity.
  - intros status defects defect_count image.
    destruct body as [d|e]; [|discriminate].
    destruct d as [| b | z | x | token | t | items | members];
      try discriminate.
    destruct (Json.lookup "image_id" members) as [id|] eqn:Hid;
      [|discriminate].
    destruct (get_image_path id) as [p|] eqn:Hp; [|discriminate].
    cbv zeta. destruct (Routes.detect_defects_with _ p _); [|discriminate].
    intros H. injection H as <- _ _ _. split; [reflexivity|].
    exists members, id, p. now repeat split.
Qed.
